(** * Bumblebee daemon (src/bumblebeed.c): lifecycle and shutdown ordering

    A shallow embedding of [bb_chgid], [daemonize], [handle_signal] and
    [main].  The daemon is almost entirely effects, so the code is written in
    a small monad over a [world] (the process-wide globals, the process
    attributes touched by the system calls, and the trace of calls made so
    far).  Whatever a library or a sibling compilation unit answers is read
    from an [oracle]; the properties below are proved for every oracle. *)

From Stdlib Require Import ZArith List String Bool Lia.
Import ListNotations.
Local Open Scope string_scope.
Local Open Scope list_scope.
Local Open Scope Z_scope.

(** ** Constants of the system headers (Linux values) *)

Definition EXIT_SUCCESS : Z := 0.
Definition EXIT_FAILURE : Z := 1.

Definition SIGHUP  : Z := 1.
Definition SIGINT  : Z := 2.
Definition SIGQUIT : Z := 3.
Definition SIGPIPE : Z := 13.
Definition SIGTERM : Z := 15.

Definition EEXIST : Z := 17.

Definition STDIN_FILENO  : Z := 0.
Definition STDOUT_FILENO : Z := 1.
Definition STDERR_FILENO : Z := 2.
Definition O_RDWR : Z := 2.

Definition PCI_VENDOR_ID_NVIDIA : Z := 0x10de.
Definition PCI_VENDOR_ID_INTEL  : Z := 0x8086.

(** The octal literals [027] and [0644] of the source. *)
Definition umask_027 : Z := 2 * 8 + 7.
Definition mode_0644 : Z := 6 * 64 + 4 * 8 + 4.

Inductive log_level := LOG_ERR | LOG_WARNING | LOG_NOTICE | LOG_INFO.

(** ** Data model *)

(** [enum bb_run_mode] of bbconfig.h, restricted to the values this file
    names. *)
Inductive bb_run_mode := BB_RUN_SERVER | BB_RUN_DAEMON | BB_RUN_EXIT.

Definition bb_run_mode_eqb (a b : bb_run_mode) : bool :=
  match a, b with
  | BB_RUN_SERVER, BB_RUN_SERVER
  | BB_RUN_DAEMON, BB_RUN_DAEMON
  | BB_RUN_EXIT, BB_RUN_EXIT => true
  | _, _ => false
  end.

(** The socket modes of bbsocket.h. *)
Inductive socket_mode := SOCK_BLOCK | SOCK_NOBLOCK.

Inductive parse_stage :=
  PARSE_STAGE_LOG | PARSE_STAGE_PRECONF | PARSE_STAGE_DRIVER | PARSE_STAGE_OTHER.

Record pci_bus_id := { pci_bus : Z; pci_slot : Z; pci_func : Z }.

(** A [struct pidfh *] that is not NULL; NULL is [None] at the use sites. *)
Definition pidfh := Z.

(** The fields of [bb_status] that this file reads or writes. *)
Record bb_status_t := mk_status {
  runmode  : bb_run_mode;
  bb_socket : Z;
  x_err_fd : Z
}.

(** The fields of [bb_config] that this file reads.  [gid_name] is a
    [char *] that may be NULL ([None]); [pid_file] is tested through its
    first character only. *)
Record bb_config_t := mk_config {
  gid_name : option string;
  pid_file : string;
  socket_path : string;
  card_shutdown_state : Z
}.

(** Configured shutdown policies, as the comments at the power step name
    them: 0 turns the card off, 1 turns it on. *)
Definition POWER_OFF : Z := 0.
Definition POWER_ON  : Z := 1.

(** Each [bb_log] call of the file, by its format string. *)
Inductive log_msg :=
| Msg_strerror (error_num : Z)                    (* "%s\n", strerror *)
| Msg_no_group (name : option string)             (* There is no "%s" group *)
| Msg_setgid_failed (error_num : Z)               (* Could not set the GID of bumblebee: %s *)
| Msg_fork_failed                                 (* Could not fork to background *)
| Msg_setsid_failed (error_num : Z)               (* Could not set SID: %s *)
| Msg_chdir_failed (error_num : Z)                (* Could not change to root directory: %s *)
| Msg_devnull_failed (error_num : Z)              (* Could not open /dev/null: %s *)
| Msg_signal_ignoring (sig : Z)                   (* Received %s signal (ignoring...) *)
| Msg_sigpipe (sig : Z) (count : Z)               (* Received %s signal %i (signals 10> are ignored) *)
| Msg_signal_received (sig : Z)                   (* Received %s signal. *)
| Msg_signal_unhandled (sig : Z)                  (* Unhandled signal %s *)
| Msg_no_nvidia                                   (* No nVidia graphics card found, quitting. *)
| Msg_no_optimus                                  (* No Optimus system detected, quitting. *)
| Msg_already_running (otherpid : Z)              (* Daemon already running, pid %d *)
| Msg_pidfile_failed (path : string)              (* Cannot open or write pidfile %s. *)
| Msg_started                                     (* %s %s started *)
| Msg_init_completed.                             (* Initialization completed - now handling client requests *)

(** One entry of the trace per call that leaves this file, with its
    arguments (and its result where the source discards it), plus the one
    store to [bb_status.runmode] whose position matters. *)
Inductive event :=
| E_init_early_config
| E_bbconfig_parse_opts (stage : parse_stage)
| E_bb_init_log
| E_signal (sig : Z)
| E_init_config
| E_pci_find_gfx_by_vendor (vendor : Z)
| E_free_pci_id
| E_bbconfig_parse_conf
| E_driver_detect
| E_bbconfig_parse_conf_driver
| E_g_key_file_free
| E_check_pm_method
| E_config_dump
| E_config_validate
| E_pidfile_open (path : string) (mode : Z)
| E_pidfile_write (pfh : option pidfh)
| E_pidfile_remove (pfh : option pidfh) (rc : Z)
| E_bb_closelog
| E_getgrnam (name : option string)
| E_setgid (gid : Z)
| E_umask (mask : Z)
| E_fork
| E_setsid
| E_chdir (path : string)
| E_open (path : string) (flags : Z)
| E_dup2 (oldfd newfd : Z)
| E_bb_log (level : log_level) (msg : log_msg)
| E_bb_dbus_init
| E_socketServer (path : string) (mode : socket_mode)
| E_start_secondary
| E_stop_secondary
| E_g_main_loop_new
| E_g_timeout_add (interval : Z)
| E_g_main_loop_run
| E_handle_connection
| E_connections_fini
| E_unlink (path : string) (rc : Z)
| E_set_runmode (m : bb_run_mode)
| E_bb_dbus_fini
| E_bb_stop_all
| E_close (fd : Z) (rc : Z)
| E_socketClose
| E_bb_run_stopwaiting.

(** The globals, the process attributes and the trace. *)
Record world := mk_world {
  bb_status : bb_status_t;
  bb_config : bb_config_t;
  pci_bus_id_discrete : option pci_bus_id;
  sigpipes : Z;          (* the [static int] of [handle_signal] *)
  errno : Z;
  proc_gid : Z;
  proc_umask : Z;
  trace : list event
}.

Definition with_status (f : bb_status_t -> bb_status_t) (w : world) : world :=
  mk_world (f (bb_status w)) (bb_config w) (pci_bus_id_discrete w)
           (sigpipes w) (errno w) (proc_gid w) (proc_umask w) (trace w).

Definition set_runmode (m : bb_run_mode) (s : bb_status_t) : bb_status_t :=
  mk_status m (bb_socket s) (x_err_fd s).
Definition set_bb_socket (fd : Z) (s : bb_status_t) : bb_status_t :=
  mk_status (runmode s) fd (x_err_fd s).
Definition set_x_err_fd (fd : Z) (s : bb_status_t) : bb_status_t :=
  mk_status (runmode s) (bb_socket s) fd.

Definition with_discrete (p : option pci_bus_id) (w : world) : world :=
  mk_world (bb_status w) (bb_config w) p
           (sigpipes w) (errno w) (proc_gid w) (proc_umask w) (trace w).
Definition with_sigpipes (n : Z) (w : world) : world :=
  mk_world (bb_status w) (bb_config w) (pci_bus_id_discrete w)
           n (errno w) (proc_gid w) (proc_umask w) (trace w).
Definition with_errno (e : Z) (w : world) : world :=
  mk_world (bb_status w) (bb_config w) (pci_bus_id_discrete w)
           (sigpipes w) e (proc_gid w) (proc_umask w) (trace w).
Definition with_gid (g : Z) (w : world) : world :=
  mk_world (bb_status w) (bb_config w) (pci_bus_id_discrete w)
           (sigpipes w) (errno w) g (proc_umask w) (trace w).
Definition with_umask (m : Z) (w : world) : world :=
  mk_world (bb_status w) (bb_config w) (pci_bus_id_discrete w)
           (sigpipes w) (errno w) (proc_gid w) m (trace w).
Definition with_trace (t : list event) (w : world) : world :=
  mk_world (bb_status w) (bb_config w) (pci_bus_id_discrete w)
           (sigpipes w) (errno w) (proc_gid w) (proc_umask w) t.

(** ** The monad

    [Halt c] is the end of the process with status [c]: a call of [exit] or
    a [return] from [main].  [Hang] is a call that never comes back. *)

Inductive outcome (A : Type) :=
| Ret (a : A)
| Halt (code : Z)
| Hang.
Arguments Ret {A} a.
Arguments Halt {A} code.
Arguments Hang {A}.

Definition M (A : Type) : Type := world -> outcome A * world.

Definition ret {A} (a : A) : M A := fun w => (Ret a, w).

Definition bind {A B} (m : M A) (k : A -> M B) : M B :=
  fun w =>
    match m w with
    | (Ret a, w') => k a w'
    | (Halt c, w') => (Halt c, w')
    | (Hang, w') => (Hang, w')
    end.

Definition exit {A} (code : Z) : M A := fun w => (Halt code, w).

Definition get : M world := fun w => (Ret w, w).
Definition modify (f : world -> world) : M unit := fun w => (Ret tt, f w).

(** One more entry at the end of the trace. *)
Definition record (e : event) (w : world) : world :=
  with_trace (trace w ++ [e]) w.

Definition emit (e : event) : M unit := modify (record e).

Declare Scope daemon_scope.
Delimit Scope daemon_scope with daemon.
Notation "x <- m ;; k" := (bind m (fun x => k))
  (at level 100, m at next level, right associativity) : daemon_scope.
Notation "m ;; k" := (bind m (fun _ => k))
  (at level 100, right associativity) : daemon_scope.
Local Open Scope daemon_scope.

Definition bb_log (level : log_level) (msg : log_msg) : M unit :=
  emit (E_bb_log level msg).

(** ** What the rest of the system answers *)

Inductive getgrnam_result :=
| group_found (gr_gid : Z)
| group_missing (err : Z).

Inductive pidfile_open_result :=
| pidfile_opened (h : pidfh)
| pidfile_refused (err : Z) (otherpid : Z).

(** What reaches the daemon while [g_main_loop_run] is blocked. *)
Inductive loop_input :=
| delivered (sig : Z)     (* a signal; [handle_signal] runs *)
| served (x_fd : Z).      (* a tick: the connection service serves its
                             clients and leaves [x_err_fd] at [x_fd] *)

Record oracle := {
  WITH_PIDFILE : bool;                               (* the build flag *)
  o_pci_find_gfx_by_vendor : Z -> option pci_bus_id;
  o_bbconfig_parse_conf : bool;                      (* a key file was read *)
  o_config_validate : Z;
  o_pidfile_open : pidfile_open_result;
  o_getgrnam : option string -> getgrnam_result;
  o_setgid : Z -> Z * Z;                             (* result, errno *)
  o_fork : Z;
  o_setsid : Z * Z;
  o_chdir : Z * Z;
  o_open_devnull : Z * Z;
  o_socketServer : Z;
  o_unlink : Z;
  o_pidfile_remove : Z;
  o_close : Z;
  o_loop : list loop_input
}.

Section Daemon.

Variable o : oracle.

(** ** System and library calls *)

Definition getgrnam (name : option string) : M (option Z) :=
  emit (E_getgrnam name) ;;
  match o_getgrnam o name with
  | group_found gr_gid => ret (Some gr_gid)
  | group_missing err => modify (with_errno err) ;; ret None
  end.

(** A successful [setgid] changes the group of the process. *)
Definition setgid (gid : Z) : M Z :=
  emit (E_setgid gid) ;;
  if fst (o_setgid o gid) =? 0
  then modify (with_gid gid) ;; ret 0
  else modify (with_errno (snd (o_setgid o gid))) ;; ret (fst (o_setgid o gid)).

Definition umask (mask : Z) : M unit :=
  emit (E_umask mask) ;; modify (with_umask mask).

Definition fork : M Z := emit E_fork ;; ret (o_fork o).

(** A system call answering (result, errno): [errno] is stored when the
    result is negative. *)
Definition answered (r : Z * Z) : M Z :=
  if fst r <? 0 then modify (with_errno (snd r)) ;; ret (fst r) else ret (fst r).

Definition setsid : M Z := emit E_setsid ;; answered (o_setsid o).
Definition chdir (path : string) : M Z := emit (E_chdir path) ;; answered (o_chdir o).
Definition open (path : string) (flags : Z) : M Z :=
  emit (E_open path flags) ;; answered (o_open_devnull o).
Definition dup2 (oldfd newfd : Z) : M unit := emit (E_dup2 oldfd newfd).

Definition pidfile_open (path : string) (mode : Z) : M (option pidfh * Z) :=
  emit (E_pidfile_open path mode) ;;
  match o_pidfile_open o with
  | pidfile_opened h => ret (Some h, 0)
  | pidfile_refused err otherpid => modify (with_errno err) ;; ret (None, otherpid)
  end.

Definition pidfile_write (pfh : option pidfh) : M unit := emit (E_pidfile_write pfh).
Definition pidfile_remove (pfh : option pidfh) : M unit :=
  emit (E_pidfile_remove pfh (o_pidfile_remove o)).
Definition bb_closelog : M unit := emit E_bb_closelog.

Definition pci_find_gfx_by_vendor (vendor : Z) : M (option pci_bus_id) :=
  emit (E_pci_find_gfx_by_vendor vendor) ;; ret (o_pci_find_gfx_by_vendor o vendor).

Definition config_validate : M Z := emit E_config_validate ;; ret (o_config_validate o).

Definition socketServer (path : string) (mode : socket_mode) : M Z :=
  emit (E_socketServer path mode) ;; ret (o_socketServer o).

(** Modelled from the spec: [socketClose] of bbsocket.c is missing; the spec
    has the handlers "close the control socket handle", after which the
    handle is no longer valid.  The invalid handle is -1, as for
    [x_err_fd]. *)
Definition socketClose : M unit :=
  emit E_socketClose ;; modify (with_status (set_bb_socket (-1))).

Definition bb_run_stopwaiting : M unit := emit E_bb_run_stopwaiting.
Definition start_secondary : M unit := emit E_start_secondary.
Definition stop_secondary : M unit := emit E_stop_secondary.

(** ** [bb_chgid] *)

Definition bb_chgid : M Z :=
  modify (with_errno 0) ;;
  w <- get ;;
  gp <- getgrnam (gid_name (bb_config w)) ;;
  match gp with
  | None =>
      w1 <- get ;;
      bb_log LOG_ERR (Msg_strerror (errno w1)) ;;
      bb_log LOG_ERR (Msg_no_group (gid_name (bb_config w))) ;;
      ret EXIT_FAILURE
  | Some gr_gid =>
      rc <- setgid gr_gid ;;
      if negb (rc =? 0) then
        w1 <- get ;;
        bb_log LOG_ERR (Msg_setgid_failed (errno w1)) ;;
        ret EXIT_FAILURE
      else
        umask umask_027 ;;
        ret EXIT_SUCCESS
  end.

(** ** [daemonize] *)

Definition daemonize : M Z :=
  bb_pid <- fork ;;
  if bb_pid <? 0 then
    bb_log LOG_ERR Msg_fork_failed ;;
    ret EXIT_FAILURE
  else if bb_pid >? 0 then
    exit EXIT_SUCCESS
  else
    bb_sid <- setsid ;;
    if bb_sid <? 0 then
      w <- get ;;
      bb_log LOG_ERR (Msg_setsid_failed (errno w)) ;;
      ret EXIT_FAILURE
    else
      rc <- chdir "/" ;;
      if rc <? 0 then
        w <- get ;;
        bb_log LOG_ERR (Msg_chdir_failed (errno w)) ;;
        ret EXIT_FAILURE
      else
        devnull <- open "/dev/null" O_RDWR ;;
        if devnull <? 0 then
          w <- get ;;
          bb_log LOG_ERR (Msg_devnull_failed (errno w)) ;;
          ret EXIT_FAILURE
        else
          dup2 devnull STDIN_FILENO ;;
          dup2 devnull STDOUT_FILENO ;;
          dup2 devnull STDERR_FILENO ;;
          ret EXIT_SUCCESS.

(** ** [handle_signal]

    [++sigpipes] runs only below 11, far from the end of [int]. *)

Definition handle_signal (sig : Z) : M unit :=
  if sig =? SIGHUP then
    bb_log LOG_WARNING (Msg_signal_ignoring sig)
  else if sig =? SIGPIPE then
    w <- get ;;
    if sigpipes w <=? 10 then
      modify (with_sigpipes (sigpipes w + 1)) ;;
      bb_log LOG_WARNING (Msg_sigpipe sig (sigpipes w + 1))
    else ret tt
  else if (sig =? SIGINT) || (sig =? SIGQUIT) then
    bb_log LOG_WARNING (Msg_signal_received sig) ;;
    socketClose
  else if sig =? SIGTERM then
    bb_log LOG_WARNING (Msg_signal_received sig) ;;
    socketClose ;;
    bb_run_stopwaiting
  else
    bb_log LOG_WARNING (Msg_signal_unhandled sig).

(** ** [main], block by block *)

(** [s[0] != 0] for a C string. *)
Definition first_char_set (s : string) : bool :=
  match s with
  | EmptyString => false
  | String _ _ => true
  end.

Definition gid_name_set (g : option string) : bool :=
  match g with
  | None => false
  | Some s => first_char_set s
  end.

(** Lines 235-279: log setup, signal handlers, configuration and the two
    bus scans. *)
Definition main_discovery : M unit :=
  emit E_init_early_config ;;
  emit (E_bbconfig_parse_opts PARSE_STAGE_LOG) ;;
  emit E_bb_init_log ;;
  emit (E_signal SIGHUP) ;;
  emit (E_signal SIGTERM) ;;
  emit (E_signal SIGINT) ;;
  emit (E_signal SIGQUIT) ;;
  emit (E_signal SIGPIPE) ;;
  emit E_init_config ;;
  emit (E_bbconfig_parse_opts PARSE_STAGE_PRECONF) ;;
  discrete <- pci_find_gfx_by_vendor PCI_VENDOR_ID_NVIDIA ;;
  modify (with_discrete discrete) ;;
  match discrete with
  | None =>
      bb_log LOG_ERR Msg_no_nvidia ;;
      exit EXIT_FAILURE
  | Some _ =>
      pci_id_igd <- pci_find_gfx_by_vendor PCI_VENDOR_ID_INTEL ;;
      match pci_id_igd with
      | None =>
          bb_log LOG_ERR Msg_no_optimus ;;
          exit EXIT_FAILURE
      | Some _ =>
          emit E_free_pci_id ;;
          emit E_bbconfig_parse_conf ;;
          emit (E_bbconfig_parse_opts PARSE_STAGE_DRIVER) ;;
          emit E_driver_detect ;;
          (if o_bbconfig_parse_conf o then
             emit E_bbconfig_parse_conf_driver ;;
             emit E_g_key_file_free
           else ret tt) ;;
          emit (E_bbconfig_parse_opts PARSE_STAGE_OTHER) ;;
          emit E_check_pm_method ;;
          emit E_config_dump ;;
          rc <- config_validate ;;
          if negb (rc =? 0) then exit EXIT_FAILURE else ret tt
      end
  end.

(** Lines 281-295: the pidfile lock; the value is [pfh]. *)
Definition main_pidfile_open : M (option pidfh) :=
  if WITH_PIDFILE o then
    w <- get ;;
    if first_char_set (pid_file (bb_config w)) then
      r <- pidfile_open (pid_file (bb_config w)) mode_0644 ;;
      match fst r with
      | None =>
          w1 <- get ;;
          (if errno w1 =? EEXIST then
             bb_log LOG_ERR (Msg_already_running (snd r))
           else
             bb_log LOG_ERR (Msg_pidfile_failed (pid_file (bb_config w)))) ;;
          bb_closelog ;;
          exit EXIT_FAILURE
      | Some h => ret (Some h)
      end
    else ret None
  else ret None.

(** Lines 297-307. *)
Definition main_chgid (pfh : option pidfh) : M unit :=
  w <- get ;;
  if gid_name_set (gid_name (bb_config w)) then
    retval <- bb_chgid ;;
    if negb (retval =? EXIT_SUCCESS) then
      bb_closelog ;;
      (if WITH_PIDFILE o then pidfile_remove pfh else ret tt) ;;
      exit retval
    else ret tt
  else ret tt.

(** Lines 309-321. *)
Definition main_daemonize (pfh : option pidfh) : M unit :=
  bb_log LOG_NOTICE Msg_started ;;
  w <- get ;;
  if bb_run_mode_eqb (runmode (bb_status w)) BB_RUN_DAEMON then
    retval <- daemonize ;;
    if negb (retval =? EXIT_SUCCESS) then
      bb_closelog ;;
      (if WITH_PIDFILE o then pidfile_remove pfh else ret tt) ;;
      exit retval
    else ret tt
  else ret tt.

(** Lines 323-326. *)
Definition main_pidfile_write (pfh : option pidfh) : M unit :=
  if WITH_PIDFILE o then pidfile_write pfh else ret tt.

(** Lines 328-337. *)
Definition main_service_init : M unit :=
  emit E_bb_dbus_init ;;
  w <- get ;;
  fd <- socketServer (socket_path (bb_config w)) SOCK_NOBLOCK ;;
  modify (with_status (set_bb_socket fd)) ;;
  stop_secondary ;;
  bb_log LOG_INFO Msg_init_completed ;;
  emit E_g_main_loop_new ;;
  emit (E_g_timeout_add 100).

(** Modelled from the spec: [g_main_loop_run] blocks in [handle_connection]
    (connections-handler, missing) every 100 ms; the spec gives the loop one
    exit condition, the control socket being closed.  Signals that arrive
    meanwhile run [handle_signal]; when nothing closes the socket the call
    never comes back. *)
Fixpoint event_loop (inputs : list loop_input) (w : world) : outcome unit * world :=
  if bb_socket (bb_status w) =? -1 then (Ret tt, w)
  else
    match inputs with
    | [] => (Hang, w)
    | delivered sig :: rest =>
        bind (handle_signal sig) (fun _ => event_loop rest) w
    | served x_fd :: rest =>
        bind (emit E_handle_connection ;;
              modify (with_status (set_x_err_fd x_fd)))
             (fun _ => event_loop rest) w
    end.

Definition g_main_loop_run : M unit :=
  emit E_g_main_loop_run ;; event_loop (o_loop o).

(** Lines 340-361: everything after [g_main_loop_run]. *)
Definition main_shutdown (pfh : option pidfh) : M unit :=
  emit E_connections_fini ;;
  w <- get ;;
  emit (E_unlink (socket_path (bb_config w)) (o_unlink o)) ;;
  modify (with_status (set_runmode BB_RUN_EXIT)) ;;
  emit (E_set_runmode BB_RUN_EXIT) ;;
  (if negb (card_shutdown_state (bb_config w) =? 0) then
     start_secondary
   else
     stop_secondary) ;;
  emit E_bb_dbus_fini ;;
  bb_closelog ;;
  (if WITH_PIDFILE o then pidfile_remove pfh else ret tt) ;;
  emit E_bb_stop_all ;;
  w1 <- get ;;
  (if negb (x_err_fd (bb_status w1) =? -1) then
     emit (E_close (x_err_fd (bb_status w1)) (o_close o)) ;;
     modify (with_status (set_x_err_fd (-1)))
   else ret tt) ;;
  exit EXIT_SUCCESS.

(** The rest of [main] from three points on; [pfh] is the local variable. *)
Definition main_from_service_init (pfh : option pidfh) : M unit :=
  main_service_init ;;
  g_main_loop_run ;;
  main_shutdown pfh.

Definition main_from_daemonize (pfh : option pidfh) : M unit :=
  main_daemonize pfh ;;
  main_pidfile_write pfh ;;
  main_from_service_init pfh.

Definition main_from_chgid (pfh : option pidfh) : M unit :=
  main_chgid pfh ;;
  main_from_daemonize pfh.

Definition main : M unit :=
  main_discovery ;;
  pfh <- main_pidfile_open ;;
  main_from_chgid pfh.

(** [main] up to the pidfile lock, to the call of [daemonize], and past
    it. *)
Definition main_until_locked : M (option pidfh) :=
  main_discovery ;;
  main_pidfile_open.

Definition main_until_daemonize : M (option pidfh) :=
  pfh <- main_until_locked ;;
  main_chgid pfh ;;
  ret pfh.

Definition main_until_daemonized : M (option pidfh) :=
  pfh <- main_until_daemonize ;;
  main_daemonize pfh ;;
  ret pfh.

(** [main] up to the return of [g_main_loop_run]. *)
Definition main_until_loop_returns : M (option pidfh) :=
  pfh <- main_until_daemonized ;;
  main_pidfile_write pfh ;;
  main_service_init ;;
  g_main_loop_run ;;
  ret pfh.

End Daemon.

(** ** Reading a run *)

(** The world at process start: nothing traced, [sigpipes] at its
    initialiser, no discrete card recorded yet.  The status and configuration
    records stand for what the configuration resolver leaves in them: [main]
    reads their fields only after its last call into the resolver. *)
Definition boot (st : bb_status_t) (cfg : bb_config_t) (gid mask : Z) : world :=
  mk_world st cfg None 0 0 gid mask [].

(** How many entries of a trace satisfy [p]. *)
Definition calls (p : event -> bool) (t : list event) : nat :=
  List.length (filter p t).
Arguments calls : simpl never.

Definition is_power_call (e : event) : bool :=
  match e with
  | E_start_secondary | E_stop_secondary => true
  | _ => false
  end.

Definition is_socketServer (e : event) : bool :=
  match e with
  | E_socketServer _ _ => true
  | _ => false
  end.

Definition is_sigpipe_log (e : event) : bool :=
  match e with
  | E_bb_log _ (Msg_sigpipe _ _) => true
  | _ => false
  end.

Definition is_stopwaiting (e : event) : bool :=
  match e with
  | E_bb_run_stopwaiting => true
  | _ => false
  end.

Definition is_already_running_log (e : event) : bool :=
  match e with
  | E_bb_log _ (Msg_already_running _) => true
  | _ => false
  end.

Definition is_pidfile_remove (e : event) : bool :=
  match e with
  | E_pidfile_remove _ _ => true
  | _ => false
  end.

Definition is_pidfile_write (e : event) : bool :=
  match e with
  | E_pidfile_write _ => true
  | _ => false
  end.

Definition is_dup2 (e : event) : bool :=
  match e with
  | E_dup2 _ _ => true
  | _ => false
  end.

Definition is_umask (e : event) : bool :=
  match e with
  | E_umask _ => true
  | _ => false
  end.

(** What the start-up pipeline calls before the service initialiser, the
    calls of its three clean-up exits left out: the pidfile refusal with its
    message, [bb_closelog] and [pidfile_remove]. *)
Definition is_setup_event (e : event) : bool :=
  match e with
  | E_init_early_config | E_bbconfig_parse_opts _ | E_bb_init_log | E_signal _
  | E_init_config | E_pci_find_gfx_by_vendor _ | E_free_pci_id
  | E_bbconfig_parse_conf | E_driver_detect | E_bbconfig_parse_conf_driver
  | E_g_key_file_free | E_check_pm_method | E_config_dump | E_config_validate
  | E_pidfile_open _ _ | E_getgrnam _ | E_setgid _ | E_umask _
  | E_fork | E_setsid | E_chdir _ | E_open _ _ | E_dup2 _ _ => true
  | E_bb_log _ (Msg_already_running _) => false
  | E_bb_log _ _ => true
  | _ => false
  end.

(** What a run can have traced up to the return of [g_main_loop_run]:
    set-up calls, [pidfile_write], the service initialiser with its first
    [stop_secondary], and loop events. *)
Definition is_running_event (e : event) : bool :=
  match e with
  | E_pidfile_write _ | E_bb_dbus_init | E_socketServer _ _ | E_stop_secondary
  | E_g_main_loop_new | E_g_timeout_add _ | E_g_main_loop_run
  | E_bb_log _ _ | E_socketClose | E_bb_run_stopwaiting | E_handle_connection => true
  | _ => is_setup_event e
  end.


(** The calls and the store made after [g_main_loop_run]. *)
Definition is_shutdown_step (e : event) : bool :=
  match e with
  | E_connections_fini | E_unlink _ _ | E_set_runmode _ | E_bb_dbus_fini
  | E_bb_closelog | E_pidfile_remove _ _ | E_bb_stop_all | E_close _ _ => true
  | _ => false
  end.

(** What can enter the trace while [g_main_loop_run] is blocked. *)
Definition is_loop_event (e : event) : bool :=
  match e with
  | E_bb_log _ _ | E_socketClose | E_bb_run_stopwaiting | E_handle_connection => true
  | _ => false
  end.

(** [w'] is [w] after more calls, all of them satisfying [p], with the
    configuration untouched. *)
Definition grows (p : event -> bool) (w w' : world) : Prop :=
  bb_config w' = bb_config w /\
  exists t, trace w' = trace w ++ t /\ forallb p t = true.

(** Signals delivered one after the other. *)
Definition deliver (sigs : list Z) (w : world) : world :=
  fold_left (fun w' sig => snd (handle_signal sig w')) sigs w.

(** The configured final power call. *)
Definition final_power_call (cfg : bb_config_t) : event :=
  if card_shutdown_state cfg =? 0 then E_stop_secondary else E_start_secondary.

(** The trace of [main] after [g_main_loop_run] has come back, read off
    lines 340 to 361. *)
Definition shutdown_steps (o : oracle) (pfh : option pidfh) (w : world) : list event :=
  [ E_connections_fini;
    E_unlink (socket_path (bb_config w)) (o_unlink o);
    E_set_runmode BB_RUN_EXIT;
    final_power_call (bb_config w);
    E_bb_dbus_fini;
    E_bb_closelog ]
  ++ (if WITH_PIDFILE o then [E_pidfile_remove pfh (o_pidfile_remove o)] else [])
  ++ [ E_bb_stop_all ]
  ++ (if x_err_fd (bb_status w) =? -1 then []
      else [E_close (x_err_fd (bb_status w)) (o_close o)]).

(** [daemonize] cannot succeed: the fork fails, or the child fails to
    detach. *)
Definition daemonize_fails (o : oracle) : Prop :=
  o_fork o < 0 \/
  (o_fork o = 0 /\
   (fst (o_setsid o) < 0 \/ fst (o_chdir o) < 0 \/ fst (o_open_devnull o) < 0)).

(** The two fatal errors past the pidfile stage, read at the world in which
    [main] reaches the group change: the group change is wanted and fails;
    or it is skipped or succeeds, daemon mode is on, and [daemonize] cannot
    succeed. *)
Definition chgid_fatal (o : oracle) (w : world) : Prop :=
  gid_name_set (gid_name (bb_config w)) = true /\
  fst (bb_chgid o w) = Ret EXIT_FAILURE.

Definition daemonize_fatal (o : oracle) (w : world) : Prop :=
  (gid_name_set (gid_name (bb_config w)) = false \/
   fst (bb_chgid o w) = Ret EXIT_SUCCESS) /\
  runmode (bb_status w) = BB_RUN_DAEMON /\
  daemonize_fails o.

(** ** Sample runs *)

Definition sample_card : pci_bus_id := {| pci_bus := 1; pci_slot := 0; pci_func := 0 |}.
Definition sample_igd : pci_bus_id := {| pci_bus := 0; pci_slot := 2; pci_func := 0 |}.

Definition sample_scan (vendor : Z) : option pci_bus_id :=
  if vendor =? PCI_VENDOR_ID_NVIDIA then Some sample_card
  else if vendor =? PCI_VENDOR_ID_INTEL then Some sample_igd
  else None.

Definition sample_groups (name : option string) : getgrnam_result :=
  match name with
  | Some "bumblebee" => group_found 1001
  | _ => group_missing 0
  end.

(** A healthy machine, a build with pidfile support, a free pidfile; the
    daemon forks, detaches, and gets one TERM while serving. *)
Definition sample_oracle : oracle := {|
  WITH_PIDFILE := true;
  o_pci_find_gfx_by_vendor := sample_scan;
  o_bbconfig_parse_conf := true;
  o_config_validate := 0;
  o_pidfile_open := pidfile_opened 77;
  o_getgrnam := sample_groups;
  o_setgid := fun _ => (0, 0);
  o_fork := 0;
  o_setsid := (4321, 0);
  o_chdir := (0, 0);
  o_open_devnull := (3, 0);
  o_socketServer := 5;
  o_unlink := 0;
  o_pidfile_remove := 0;
  o_close := 0;
  o_loop := [served 9; delivered SIGTERM]
|}.

Definition with_o_fork (pid : Z) (o : oracle) : oracle := {|
  WITH_PIDFILE := WITH_PIDFILE o;
  o_pci_find_gfx_by_vendor := o_pci_find_gfx_by_vendor o;
  o_bbconfig_parse_conf := o_bbconfig_parse_conf o;
  o_config_validate := o_config_validate o;
  o_pidfile_open := o_pidfile_open o;
  o_getgrnam := o_getgrnam o;
  o_setgid := o_setgid o;
  o_fork := pid;
  o_setsid := o_setsid o;
  o_chdir := o_chdir o;
  o_open_devnull := o_open_devnull o;
  o_socketServer := o_socketServer o;
  o_unlink := o_unlink o;
  o_pidfile_remove := o_pidfile_remove o;
  o_close := o_close o;
  o_loop := o_loop o
|}.

Definition with_o_pci_find (scan : Z -> option pci_bus_id) (o : oracle) : oracle := {|
  WITH_PIDFILE := WITH_PIDFILE o;
  o_pci_find_gfx_by_vendor := scan;
  o_bbconfig_parse_conf := o_bbconfig_parse_conf o;
  o_config_validate := o_config_validate o;
  o_pidfile_open := o_pidfile_open o;
  o_getgrnam := o_getgrnam o;
  o_setgid := o_setgid o;
  o_fork := o_fork o;
  o_setsid := o_setsid o;
  o_chdir := o_chdir o;
  o_open_devnull := o_open_devnull o;
  o_socketServer := o_socketServer o;
  o_unlink := o_unlink o;
  o_pidfile_remove := o_pidfile_remove o;
  o_close := o_close o;
  o_loop := o_loop o
|}.

Definition with_o_config_validate (rc : Z) (o : oracle) : oracle := {|
  WITH_PIDFILE := WITH_PIDFILE o;
  o_pci_find_gfx_by_vendor := o_pci_find_gfx_by_vendor o;
  o_bbconfig_parse_conf := o_bbconfig_parse_conf o;
  o_config_validate := rc;
  o_pidfile_open := o_pidfile_open o;
  o_getgrnam := o_getgrnam o;
  o_setgid := o_setgid o;
  o_fork := o_fork o;
  o_setsid := o_setsid o;
  o_chdir := o_chdir o;
  o_open_devnull := o_open_devnull o;
  o_socketServer := o_socketServer o;
  o_unlink := o_unlink o;
  o_pidfile_remove := o_pidfile_remove o;
  o_close := o_close o;
  o_loop := o_loop o
|}.

Definition with_o_pidfile_open (r : pidfile_open_result) (o : oracle) : oracle := {|
  WITH_PIDFILE := WITH_PIDFILE o;
  o_pci_find_gfx_by_vendor := o_pci_find_gfx_by_vendor o;
  o_bbconfig_parse_conf := o_bbconfig_parse_conf o;
  o_config_validate := o_config_validate o;
  o_pidfile_open := r;
  o_getgrnam := o_getgrnam o;
  o_setgid := o_setgid o;
  o_fork := o_fork o;
  o_setsid := o_setsid o;
  o_chdir := o_chdir o;
  o_open_devnull := o_open_devnull o;
  o_socketServer := o_socketServer o;
  o_unlink := o_unlink o;
  o_pidfile_remove := o_pidfile_remove o;
  o_close := o_close o;
  o_loop := o_loop o
|}.

Definition sample_status : bb_status_t :=
  {| runmode := BB_RUN_DAEMON; bb_socket := -1; x_err_fd := -1 |}.

Definition sample_config : bb_config_t :=
  {| gid_name := Some "bumblebee";
     pid_file := "/var/run/bumblebeed.pid";
     socket_path := "/var/run/bumblebee.socket";
     card_shutdown_state := POWER_OFF |}.

Definition sample_boot : world := boot sample_status sample_config 0 18.

(** The same start with a group name the group database does not know. *)
Definition boot_unknown_group : world :=
  boot sample_status
    {| gid_name := Some "nosuchgroup";
       pid_file := "/var/run/bumblebeed.pid";
       socket_path := "/var/run/bumblebee.socket";
       card_shutdown_state := POWER_OFF |} 0 18.

(** No card of the discrete vendor on the bus. *)
Definition oracle_no_card : oracle :=
  with_o_pci_find
    (fun vendor => if vendor =? PCI_VENDOR_ID_INTEL then Some sample_igd else None)
    sample_oracle.

(** A second start with a rejected configuration while a first daemon,
    pid 4242, holds the pidfile. *)
Definition oracle_invalid_and_locked : oracle :=
  with_o_config_validate 1
    (with_o_pidfile_open (pidfile_refused EEXIST 4242) sample_oracle).

(** A second start with a good configuration while pid 4242 holds the
    pidfile. *)
Definition oracle_locked : oracle :=
  with_o_pidfile_open (pidfile_refused EEXIST 4242) sample_oracle.

(** The process that called [fork] and got the pid of its child. *)
Definition oracle_parent : oracle := with_o_fork 4243 sample_oracle.

(** [fork] fails. *)
Definition oracle_fork_fails : oracle := with_o_fork (-1) sample_oracle.

(** ** Properties *)

(** ** The option parser of the daemon

    [bbconfig_get_optstr], [bbconfig_get_lopts] and [bbconfig_parse_options]
    are the three hooks bbconfig.c calls back while it walks the command
    line. *)

Import Ascii.

(** The fields of [bb_config] that only the option parser writes. *)
Record bb_config_more := mk_more {
  x_conf_file : option string;
  mod_path : option string;
  driver : option string;
  module_name : option string;
  pm_method : Z
}.

(** The option identifiers above CHAR_MAX, an enum of bbconfig.h. *)
Record option_ids := {
  OPT_DRIVER : Z;
  OPT_PIDFILE : Z;
  OPT_USE_SYSLOG : Z;
  OPT_PM_METHOD : Z
}.

(** A [struct option] of getopt.h; [flag] is NULL in every entry. *)
Record option_entry := mk_option {
  opt_name : string;
  has_arg : Z;
  opt_val : Z
}.

(** A character constant as an [int]. *)
Definition char_code (c : Ascii.ascii) : Z := Z.of_N (Ascii.N_of_ascii c).

Definition with_config (f : bb_config_t -> bb_config_t) (w : world) : world :=
  mk_world (bb_status w) (f (bb_config w)) (pci_bus_id_discrete w)
           (sigpipes w) (errno w) (proc_gid w) (proc_umask w) (trace w).

Definition set_gid_name (g : option string) (c : bb_config_t) : bb_config_t :=
  mk_config g (pid_file c) (socket_path c) (card_shutdown_state c).
Definition set_pid_file (p : string) (c : bb_config_t) : bb_config_t :=
  mk_config (gid_name c) p (socket_path c) (card_shutdown_state c).

Definition set_x_conf_file (s : option string) (m : bb_config_more) : bb_config_more :=
  mk_more s (mod_path m) (driver m) (module_name m) (pm_method m).
Definition set_mod_path (s : option string) (m : bb_config_more) : bb_config_more :=
  mk_more (x_conf_file m) s (driver m) (module_name m) (pm_method m).
Definition set_driver (s : option string) (m : bb_config_more) : bb_config_more :=
  mk_more (x_conf_file m) (mod_path m) s (module_name m) (pm_method m).
Definition set_module_name (s : option string) (m : bb_config_more) : bb_config_more :=
  mk_more (x_conf_file m) (mod_path m) (driver m) s (pm_method m).
Definition set_pm_method (n : Z) (m : bb_config_more) : bb_config_more :=
  mk_more (x_conf_file m) (mod_path m) (driver m) (module_name m) n.

Section Options.

Variable o : oracle.
Variable ids : option_ids.

(** [BBCONFIG_COMMON_OPTSTR] and [BBCONFIG_COMMON_LOPTS], macros of
    bbconfig.h. *)
Variable BBCONFIG_COMMON_OPTSTR : string.
Variable BBCONFIG_COMMON_LOPTS : list option_entry.

(** [set_string_value] and [bb_pm_method_from_string] of bbconfig.c: the
    string a field holds after it was set from an argument (the field before
    and the argument, either of which may be NULL), and the method a name
    stands for. *)
Variable set_string_value : option string -> option string -> string.
Variable bb_pm_method_from_string : option string -> Z.

Definition bbconfig_get_optstr : string :=
  (BBCONFIG_COMMON_OPTSTR ++ "Dx:g:m:k:")%string.

Definition bbconfig_get_lopts : list option_entry :=
  [ mk_option "daemon" 0 (char_code "D"%char);
    mk_option "xconf" 1 (char_code "x"%char);
    mk_option "group" 1 (char_code "g"%char);
    mk_option "module-path" 1 (char_code "m"%char);
    mk_option "driver-module" 1 (char_code "k"%char);
    mk_option "driver" 1 (OPT_DRIVER ids) ]
  ++ (if WITH_PIDFILE o then [mk_option "pidfile" 1 (OPT_PIDFILE ids)] else [])
  ++ [ mk_option "use-syslog" 0 (OPT_USE_SYSLOG ids);
       mk_option "pm-method" 1 (OPT_PM_METHOD ids) ]
  ++ BBCONFIG_COMMON_LOPTS.

(** The [switch], its cases tried in the order they are written. *)
Definition bbconfig_parse_options (opt : Z) (value : option string)
    (g : world * bb_config_more) : Z * (world * bb_config_more) :=
  let w := fst g in
  let m := snd g in
  if opt =? OPT_USE_SYSLOG ids then
    (1, g)
  else if opt =? char_code "D"%char then
    (1, (with_status (set_runmode BB_RUN_DAEMON) w, m))
  else if opt =? char_code "x"%char then
    (1, (w, set_x_conf_file (Some (set_string_value (x_conf_file m) value)) m))
  else if opt =? char_code "g"%char then
    (1, (with_config
           (set_gid_name (Some (set_string_value (gid_name (bb_config w)) value))) w,
         m))
  else if opt =? char_code "m"%char then
    (1, (w, set_mod_path (Some (set_string_value (mod_path m) value)) m))
  else if opt =? OPT_DRIVER ids then
    (1, (w, set_driver (Some (set_string_value (driver m) value)) m))
  else if opt =? char_code "k"%char then
    (1, (w, set_module_name (Some (set_string_value (module_name m) value)) m))
  else if opt =? OPT_PM_METHOD ids then
    (1, (w, set_pm_method (bb_pm_method_from_string value) m))
  else if WITH_PIDFILE o && (opt =? OPT_PIDFILE ids) then
    (1, (with_config
           (set_pid_file (set_string_value (Some (pid_file (bb_config w))) value)) w,
         m))
  else
    (0, g).

(** The case labels of the [switch]; a C compiler rejects the function
    unless they are pairwise distinct. *)
Definition case_labels : list Z :=
  [ OPT_USE_SYSLOG ids; char_code "D"%char; char_code "x"%char; char_code "g"%char;
    char_code "m"%char; OPT_DRIVER ids; char_code "k"%char; OPT_PM_METHOD ids ]
  ++ (if WITH_PIDFILE o then [OPT_PIDFILE ids] else []).

End Options.

(** How getopt reads an option string: a letter that is listed takes an
    argument exactly when a colon follows it; the colon itself is no option
    letter. *)
Fixpoint optstr_lookup (optstr : string) (c : ascii) : option bool :=
  match optstr with
  | EmptyString => None
  | String a rest =>
      if Ascii.eqb a c then
        match rest with
        | String ":"%char _ => Some true
        | _ => Some false
        end
      else optstr_lookup rest c
  end.

Definition short_has_arg (optstr : string) (c : ascii) : option bool :=
  if Ascii.eqb c ":"%char then None else optstr_lookup optstr c.

(** Sample identifiers, pairwise distinct and above CHAR_MAX. *)
Definition sample_ids : option_ids := {|
  OPT_DRIVER := 128;
  OPT_PIDFILE := 134;
  OPT_USE_SYSLOG := 135;
  OPT_PM_METHOD := 136
|}.

Definition sample_more : bb_config_more :=
  {| x_conf_file := None; mod_path := None; driver := None;
     module_name := None; pm_method := 0 |}.

(** A [set_string_value] that stores the argument, the empty string for
    NULL. *)
Definition sample_store (old value : option string) : string :=
  match value with
  | Some s => s
  | None => EmptyString
  end.

(** ** Reading a run, continued *)

(** The signals that ask the daemon to stop. *)
Definition is_termination_signal (sig : Z) : bool :=
  (sig =? SIGINT) || (sig =? SIGQUIT) || (sig =? SIGTERM).

Definition is_bb_log (e : event) : bool :=
  match e with
  | E_bb_log _ _ => true
  | _ => false
  end.

(** The calls by which [daemonize] detaches, in the order of the source. *)
Definition detach_calls (devnull : Z) : list event :=
  [ E_fork; E_setsid; E_chdir "/"; E_open "/dev/null" O_RDWR;
    E_dup2 devnull STDIN_FILENO;
    E_dup2 devnull STDOUT_FILENO;
    E_dup2 devnull STDERR_FILENO ].

Definition is_detach_call (e : event) : bool :=
  match e with
  | E_fork | E_setsid | E_chdir _ | E_open _ _ | E_dup2 _ _ => true
  | _ => false
  end.

Definition is_fork (e : event) : bool :=
  match e with
  | E_fork => true
  | _ => false
  end.

Definition is_group_call (e : event) : bool :=
  match e with
  | E_getgrnam _ | E_setgid _ | E_umask _ => true
  | _ => false
  end.

Definition is_pidfile_call (e : event) : bool :=
  match e with
  | E_pidfile_open _ _ | E_pidfile_write _ | E_pidfile_remove _ _ => true
  | _ => false
  end.

Definition is_start_secondary (e : event) : bool :=
  match e with
  | E_start_secondary => true
  | _ => false
  end.

Definition is_unlink (e : event) : bool :=
  match e with
  | E_unlink _ _ => true
  | _ => false
  end.

(** What a run offers its clients: the bus service, the control socket, the
    power calls, the loop. *)
Definition is_service_call (e : event) : bool :=
  match e with
  | E_bb_dbus_init | E_socketServer _ _ | E_start_secondary | E_stop_secondary
  | E_g_main_loop_new | E_g_timeout_add _ | E_g_main_loop_run
  | E_handle_connection | E_pidfile_write _ => true
  | _ => false
  end.

(** The fixed opening of [main]: log, signal handlers, configuration, and
    the scan for the discrete card. *)
Definition opening_calls : list event :=
  [ E_init_early_config;
    E_bbconfig_parse_opts PARSE_STAGE_LOG;
    E_bb_init_log;
    E_signal SIGHUP;
    E_signal SIGTERM;
    E_signal SIGINT;
    E_signal SIGQUIT;
    E_signal SIGPIPE;
    E_init_config;
    E_bbconfig_parse_opts PARSE_STAGE_PRECONF;
    E_pci_find_gfx_by_vendor PCI_VENDOR_ID_NVIDIA ].

(** The five stages of [main] and what each can trace.  [pf] is the build
    flag; [on] says that the shutdown policy is to power the card on. *)
Definition is_discovery_event (e : event) : bool :=
  match e with
  | E_pci_find_gfx_by_vendor _ | E_free_pci_id | E_bbconfig_parse_conf
  | E_bbconfig_parse_opts _ | E_driver_detect | E_bbconfig_parse_conf_driver
  | E_g_key_file_free | E_check_pm_method | E_config_dump | E_config_validate
  | E_bb_log LOG_ERR Msg_no_nvidia | E_bb_log LOG_ERR Msg_no_optimus => true
  | _ => false
  end.

Definition is_lock_event (e : event) : bool :=
  match e with
  | E_pidfile_open _ _ | E_bb_closelog
  | E_bb_log LOG_ERR (Msg_already_running _)
  | E_bb_log LOG_ERR (Msg_pidfile_failed _) => true
  | _ => false
  end.

Definition is_chgid_event (pf : bool) (e : event) : bool :=
  match e with
  | E_getgrnam _ | E_setgid _ | E_umask _ | E_bb_closelog
  | E_bb_log LOG_ERR (Msg_strerror _)
  | E_bb_log LOG_ERR (Msg_no_group _)
  | E_bb_log LOG_ERR (Msg_setgid_failed _) => true
  | E_pidfile_remove _ _ => pf
  | _ => false
  end.

Definition is_daemonize_event (pf : bool) (e : event) : bool :=
  match e with
  | E_fork | E_setsid | E_chdir _ | E_open _ _ | E_dup2 _ _ | E_bb_closelog
  | E_bb_log LOG_NOTICE Msg_started
  | E_bb_log LOG_ERR Msg_fork_failed
  | E_bb_log LOG_ERR (Msg_setsid_failed _)
  | E_bb_log LOG_ERR (Msg_chdir_failed _)
  | E_bb_log LOG_ERR (Msg_devnull_failed _) => true
  | E_pidfile_remove _ _ => pf
  | _ => false
  end.

Definition is_serving_event (pf on : bool) (e : event) : bool :=
  match e with
  | E_bb_dbus_init | E_socketServer _ _ | E_stop_secondary
  | E_g_main_loop_new | E_g_timeout_add _ | E_g_main_loop_run
  | E_handle_connection | E_socketClose | E_bb_run_stopwaiting
  | E_connections_fini | E_unlink _ _ | E_set_runmode _ | E_bb_dbus_fini
  | E_bb_closelog | E_bb_stop_all | E_close _ _ | E_bb_log _ _ => true
  | E_start_secondary => on
  | E_pidfile_write _ | E_pidfile_remove _ _ => pf
  | _ => false
  end.

(** The six fatal start-up conditions, on what the machine answers and what
    is configured. *)
Definition pidfile_fails (o : oracle) (cfg : bb_config_t) : Prop :=
  WITH_PIDFILE o = true /\
  first_char_set (pid_file cfg) = true /\
  exists err otherpid, o_pidfile_open o = pidfile_refused err otherpid.

Definition chgid_fails (o : oracle) (cfg : bb_config_t) : Prop :=
  gid_name_set (gid_name cfg) = true /\
  match o_getgrnam o (gid_name cfg) with
  | group_missing _ => True
  | group_found gr_gid => fst (o_setgid o gr_gid) <> 0
  end.

Definition fatal_startup (o : oracle) (st : bb_status_t) (cfg : bb_config_t) : Prop :=
  o_pci_find_gfx_by_vendor o PCI_VENDOR_ID_NVIDIA = None \/
  o_pci_find_gfx_by_vendor o PCI_VENDOR_ID_INTEL = None \/
  o_config_validate o <> 0 \/
  pidfile_fails o cfg \/
  chgid_fails o cfg \/
  (runmode st = BB_RUN_DAEMON /\ daemonize_fails o).

(** A run in five parts, one per stage, with what each part holds. *)
Definition staged (o : oracle) (w : world)
    (t1 t2 t3 t4 t5 : list event) : Prop :=
  forallb is_discovery_event t1 = true /\
  forallb is_lock_event t2 = true /\
  forallb (is_chgid_event (WITH_PIDFILE o)) t3 = true /\
  forallb (is_daemonize_event (WITH_PIDFILE o)) t4 = true /\
  forallb (is_serving_event (WITH_PIDFILE o)
             (negb (card_shutdown_state (bb_config w) =? 0))) t5 = true /\
  (WITH_PIDFILE o = false \/ first_char_set (pid_file (bb_config w)) = false ->
   t2 = []) /\
  (gid_name_set (gid_name (bb_config w)) = false -> t3 = []) /\
  (runmode (bb_status w) <> BB_RUN_DAEMON -> calls is_detach_call t4 = 0%nat) /\
  (calls is_fork t4 <= 1)%nat.

Definition is_pidfile_open (e : event) : bool :=
  match e with
  | E_pidfile_open _ _ => true
  | _ => false
  end.

(** *** Traces *)

Lemma calls_app (p : event -> bool) (t u : list event) :
  calls p (t ++ u) = (calls p t + calls p u)%nat.
Proof.
  unfold calls. rewrite filter_app, length_app. reflexivity.
Qed.

Lemma calls_none (p : event -> bool) (t : list event) :
  forallb (fun e => negb (p e)) t = true -> calls p t = 0%nat.
Proof.
  unfold calls. induction t as [|e t IH]; cbn; intros H; [reflexivity|].
  apply andb_true_iff in H. destruct H as [He Ht].
  destruct (p e); [discriminate|]. auto.
Qed.

Lemma app3 (t : list event) (a b c : event) :
  ((t ++ [a]) ++ [b]) ++ [c] = t ++ [a; b; c].
Proof. rewrite <- !app_assoc. reflexivity. Qed.

(** Unfolds the monad and the one-line wrappers around [emit]. *)
Ltac step :=
  unfold bb_log, socketClose, bb_run_stopwaiting, start_secondary,
    stop_secondary, bb_closelog, pidfile_write, pidfile_remove, dup2, umask;
  unfold emit; unfold modify, get, exit, ret, bind; cbn.

Tactic Notation "step" "in" hyp(H) :=
  unfold bb_log, socketClose, bb_run_stopwaiting, start_secondary,
    stop_secondary, bb_closelog, pidfile_write, pidfile_remove, dup2, umask in H;
  unfold emit in H; unfold modify, get, exit, ret, bind in H; cbn in H.

(** Splits the conjunctions that are written as such. *)
Ltac splits := repeat match goal with |- _ /\ _ => split end.

(** Two worlds with the same fields are the same world. *)
Lemma world_ext (a b : world) :
  bb_status a = bb_status b -> bb_config a = bb_config b ->
  pci_bus_id_discrete a = pci_bus_id_discrete b -> sigpipes a = sigpipes b ->
  errno a = errno b -> proc_gid a = proc_gid b -> proc_umask a = proc_umask b ->
  trace a = trace b -> a = b.
Proof.
  destruct a, b; cbn; intros; subst; reflexivity.
Qed.

(** Closes an equation between two runs that end in the same world, field
    by field. *)
Ltac same_world :=
  f_equal; apply world_ext; cbn; rewrite <- ?app_assoc; reflexivity.

(** Splits a count over an appended trace and evaluates the literal part. *)
Ltac count :=
  cbn; rewrite ?calls_app; unfold calls; cbn; try reflexivity; try lia.

(** *** The signal handler *)

(** C3.  [handle_signal] follows the signal table, read field by field off
    the world it leaves.  After INT and after QUIT the control socket handle
    is closed ([bb_socket] is -1, whatever it was), the handler has logged
    and called [socketClose] and nothing more, [bb_run_stopwaiting] has not
    been called, and every other part of the state is as before.  After TERM
    the same holds, with one call of [bb_run_stopwaiting] next after
    [socketClose].  After HUP the handler has logged one line and the state,
    the control socket handle included, is as before. *)
Theorem handle_signal_table (w : world) :
  let wi := snd (handle_signal SIGINT w) in
  let wq := snd (handle_signal SIGQUIT w) in
  let wt := snd (handle_signal SIGTERM w) in
  let wh := snd (handle_signal SIGHUP w) in
  (fst (handle_signal SIGINT w) = Ret tt /\
   bb_socket (bb_status wi) = -1 /\
   trace wi = trace w ++ [E_bb_log LOG_WARNING (Msg_signal_received SIGINT);
                          E_socketClose] /\
   calls is_stopwaiting (trace wi) = calls is_stopwaiting (trace w) /\
   runmode (bb_status wi) = runmode (bb_status w) /\
   x_err_fd (bb_status wi) = x_err_fd (bb_status w) /\
   bb_config wi = bb_config w /\
   pci_bus_id_discrete wi = pci_bus_id_discrete w /\
   sigpipes wi = sigpipes w /\
   errno wi = errno w /\
   proc_gid wi = proc_gid w /\
   proc_umask wi = proc_umask w) /\
  (fst (handle_signal SIGQUIT w) = Ret tt /\
   bb_socket (bb_status wq) = -1 /\
   trace wq = trace w ++ [E_bb_log LOG_WARNING (Msg_signal_received SIGQUIT);
                          E_socketClose] /\
   calls is_stopwaiting (trace wq) = calls is_stopwaiting (trace w) /\
   runmode (bb_status wq) = runmode (bb_status w) /\
   x_err_fd (bb_status wq) = x_err_fd (bb_status w) /\
   bb_config wq = bb_config w /\
   pci_bus_id_discrete wq = pci_bus_id_discrete w /\
   sigpipes wq = sigpipes w /\
   errno wq = errno w /\
   proc_gid wq = proc_gid w /\
   proc_umask wq = proc_umask w) /\
  (fst (handle_signal SIGTERM w) = Ret tt /\
   bb_socket (bb_status wt) = -1 /\
   trace wt = trace w ++ [E_bb_log LOG_WARNING (Msg_signal_received SIGTERM);
                          E_socketClose;
                          E_bb_run_stopwaiting] /\
   calls is_stopwaiting (trace wt) = S (calls is_stopwaiting (trace w)) /\
   runmode (bb_status wt) = runmode (bb_status w) /\
   x_err_fd (bb_status wt) = x_err_fd (bb_status w) /\
   bb_config wt = bb_config w /\
   pci_bus_id_discrete wt = pci_bus_id_discrete w /\
   sigpipes wt = sigpipes w /\
   errno wt = errno w /\
   proc_gid wt = proc_gid w /\
   proc_umask wt = proc_umask w) /\
  (fst (handle_signal SIGHUP w) = Ret tt /\
   trace wh = trace w ++ [E_bb_log LOG_WARNING (Msg_signal_ignoring SIGHUP)] /\
   calls is_stopwaiting (trace wh) = calls is_stopwaiting (trace w) /\
   bb_status wh = bb_status w /\
   bb_config wh = bb_config w /\
   pci_bus_id_discrete wh = pci_bus_id_discrete w /\
   sigpipes wh = sigpipes w /\
   errno wh = errno w /\
   proc_gid wh = proc_gid w /\
   proc_umask wh = proc_umask w).
Proof.
  cbv zeta. unfold handle_signal. step.
  splits; try reflexivity;
    try (rewrite <- ?app_assoc; reflexivity); count.
Qed.

(** Any signal outside the five of the table is logged as unhandled, and
    nothing else happens. *)
Lemma handle_signal_other (sig : Z) (w : world) :
  sig <> SIGHUP -> sig <> SIGPIPE -> sig <> SIGINT -> sig <> SIGQUIT ->
  sig <> SIGTERM ->
  handle_signal sig w =
    (Ret tt, with_trace (trace w ++ [E_bb_log LOG_WARNING (Msg_signal_unhandled sig)]) w).
Proof.
  intros H1 H2 H3 H4 H5. unfold handle_signal.
  apply Z.eqb_neq in H1, H2, H3, H4, H5.
  rewrite H1, H2, H3, H4, H5. reflexivity.
Qed.

(** One SIGPIPE: logged with the incremented counter while the counter is at
    most 10, silent afterwards; nothing else changes. *)
Lemma handle_sigpipe (w : world) :
  handle_signal SIGPIPE w =
    (Ret tt,
     if sigpipes w <=? 10 then
       with_trace (trace w ++ [E_bb_log LOG_WARNING (Msg_sigpipe SIGPIPE (sigpipes w + 1))])
         (with_sigpipes (sigpipes w + 1) w)
     else w).
Proof.
  unfold handle_signal. step. destruct (sigpipes w <=? 10); reflexivity.
Qed.

(** No signal other than SIGPIPE touches the counter or logs a SIGPIPE
    line. *)
Lemma handle_signal_keeps_sigpipes (sig : Z) (w : world) :
  sig <> SIGPIPE ->
  sigpipes (snd (handle_signal sig w)) = sigpipes w /\
  calls is_sigpipe_log (trace (snd (handle_signal sig w)))
    = calls is_sigpipe_log (trace w).
Proof.
  intros H. apply Z.eqb_neq in H. unfold handle_signal. rewrite H.
  destruct (sig =? SIGHUP); [|destruct ((sig =? SIGINT) || (sig =? SIGQUIT));
                                [|destruct (sig =? SIGTERM)]];
    step; split; try reflexivity; count.
Qed.

(** The counter saturates at 11, and every increment is one log line. *)
Lemma deliver_sigpipes (sigs : list Z) (w : world) :
  0 <= sigpipes w <= 11 ->
  sigpipes (deliver sigs w)
    = Z.min 11 (sigpipes w + Z.of_nat (count_occ Z.eq_dec sigs SIGPIPE)) /\
  Z.of_nat (calls is_sigpipe_log (trace (deliver sigs w)))
    = Z.of_nat (calls is_sigpipe_log (trace w)) + (sigpipes (deliver sigs w) - sigpipes w).
Proof.
  revert w. induction sigs as [|sig sigs IH]; intros w Hw.
  - cbn. split; lia.
  - change (deliver (sig :: sigs) w) with (deliver sigs (snd (handle_signal sig w))).
    cbn [count_occ]. destruct (Z.eq_dec sig SIGPIPE) as [->|Hne].
    + rewrite handle_sigpipe. cbn [snd].
      destruct (Z.leb_spec (sigpipes w) 10) as [Hle|Hgt].
      * destruct (IH (with_trace (trace w ++ [E_bb_log LOG_WARNING (Msg_sigpipe SIGPIPE (sigpipes w + 1))])
                        (with_sigpipes (sigpipes w + 1) w))) as [IH1 IH2].
        { cbn. lia. }
        cbn [sigpipes with_trace with_sigpipes trace] in IH1, IH2.
        rewrite calls_app in IH2.
        change (calls is_sigpipe_log [E_bb_log LOG_WARNING (Msg_sigpipe SIGPIPE (sigpipes w + 1))])
          with 1%nat in IH2.
        split; [rewrite IH1; lia | lia].
      * destruct (IH w Hw) as [IH1 IH2]. split; [rewrite IH1; lia | lia].
    + destruct (handle_signal_keeps_sigpipes sig w Hne) as [K1 K2].
      destruct (IH (snd (handle_signal sig w))) as [IH1 IH2]; [lia|].
      rewrite K1 in IH1, IH2. rewrite K2 in IH2.
      destruct (Z.eq_dec sig SIGPIPE); [contradiction|].
      split; [rewrite IH1; lia | lia].
Qed.

(** Over any sequence of signals, starting from a fresh process, the number
    of SIGPIPE log lines is the number of SIGPIPEs capped at 11. *)
Lemma sigpipe_log_lines (sigs : list Z) (st : bb_status_t) (cfg : bb_config_t)
    (gid mask : Z) :
  calls is_sigpipe_log (trace (deliver sigs (boot st cfg gid mask)))
    = Nat.min 11 (count_occ Z.eq_dec sigs SIGPIPE).
Proof.
  destruct (deliver_sigpipes sigs (boot st cfg gid mask)) as [H1 H2].
  { cbn. lia. }
  cbn [boot sigpipes trace] in H1, H2. change (calls is_sigpipe_log []) with 0%nat in H2.
  lia.
Qed.

(** C5.  Eleven SIGPIPEs in a row after process start yield eleven log lines:
    the eleventh is still logged, carrying the number 11; the twelfth is the
    first silent one. *)
Theorem sigpipe_eleventh_is_logged (st : bb_status_t) (cfg : bb_config_t)
    (gid mask : Z) :
  let w10 := deliver (repeat SIGPIPE 10) (boot st cfg gid mask) in
  let w11 := deliver (repeat SIGPIPE 11) (boot st cfg gid mask) in
  let w12 := deliver (repeat SIGPIPE 12) (boot st cfg gid mask) in
  calls is_sigpipe_log (trace w10) = 10%nat /\
  calls is_sigpipe_log (trace w11) = 11%nat /\
  trace w11 = trace w10 ++ [E_bb_log LOG_WARNING (Msg_sigpipe SIGPIPE 11)] /\
  w12 = w11.
Proof.
  cbv zeta. splits; vm_compute; reflexivity.
Qed.

(** *** Group and file-creation mask *)

(** C8.  [bb_chgid] answers EXIT_FAILURE exactly when the configured group
    name is not in the group database or [setgid] refuses the resolved GID,
    and EXIT_SUCCESS otherwise; on success the process has the resolved GID
    and the mask 027; on failure [umask] was not called and the mask is what
    it was. *)
Theorem bb_chgid_contract (o : oracle) (w : world) :
  let name := gid_name (bb_config w) in
  let r := bb_chgid o w in
  (fst r = Ret EXIT_SUCCESS \/ fst r = Ret EXIT_FAILURE) /\
  (fst r = Ret EXIT_FAILURE <->
     (exists err, o_getgrnam o name = group_missing err) \/
     (exists gid, o_getgrnam o name = group_found gid /\ fst (o_setgid o gid) <> 0)) /\
  (fst r = Ret EXIT_SUCCESS ->
     exists gid, o_getgrnam o name = group_found gid /\
       proc_gid (snd r) = gid /\
       proc_umask (snd r) = umask_027 /\
       trace (snd r) = trace w ++ [E_getgrnam name; E_setgid gid; E_umask umask_027]) /\
  (fst r = Ret EXIT_FAILURE ->
     proc_umask (snd r) = proc_umask w /\
     calls is_umask (trace (snd r)) = calls is_umask (trace w)).
Proof.
  cbv zeta. unfold bb_chgid, getgrnam, setgid. step.
  destruct (o_getgrnam o (gid_name (bb_config w))) as [gid|err] eqn:Hgr; step.
  - destruct (Z.eqb_spec (fst (o_setgid o gid)) 0) as [Hz|Hnz]; step.
    + split; [|split; [|split]].
      * left; reflexivity.
      * split; [discriminate|].
        intros [[err He]|[g [Hg Hne]]]; [discriminate|].
        injection Hg as <-. contradiction.
      * intros _. exists gid. cbn. rewrite app3. splits; reflexivity.
      * discriminate.
    + apply Z.eqb_neq in Hnz. rewrite Hnz. step. apply Z.eqb_neq in Hnz.
      split; [|split; [|split]].
      * right; reflexivity.
      * split; [|reflexivity]. intros _. right. exists gid.
        split; [reflexivity|assumption].
      * discriminate.
      * intros _. split; [reflexivity|count].
  - split; [|split; [|split]].
    + right; reflexivity.
    + split; [|reflexivity]. intros _. left. exists err. reflexivity.
    + discriminate.
    + intros _. split; [reflexivity|count].
Qed.

Lemma bb_chgid_contract_witness :
  (proc_gid (snd (bb_chgid sample_oracle sample_boot)) = 1001 /\
   proc_umask (snd (bb_chgid sample_oracle sample_boot)) = umask_027) /\
  fst (bb_chgid sample_oracle boot_unknown_group) = Ret EXIT_FAILURE /\
  proc_umask (snd (bb_chgid sample_oracle boot_unknown_group)) = 18.
Proof.
  split; [|split].
  - destruct (bb_chgid_contract sample_oracle sample_boot) as (_ & _ & Hs & _).
    destruct (Hs eq_refl) as (gid & Hg & Hgid & Hm & _).
    cbn in Hg. injection Hg as <-. split; assumption.
  - apply (proj2 (proj1 (proj2 (bb_chgid_contract sample_oracle boot_unknown_group)))).
    left. exists 0. reflexivity.
  - apply (proj2 (proj2 (proj2 (bb_chgid_contract sample_oracle boot_unknown_group)))).
    reflexivity.
Defined.

(** *** Classes of events *)

Lemma setup_is_not_power (e : event) :
  is_setup_event e = true -> is_power_call e = false.
Proof. destruct e; cbn; congruence. Qed.

Lemma setup_is_not_socketServer (e : event) :
  is_setup_event e = true -> is_socketServer e = false.
Proof. destruct e; cbn; congruence. Qed.

Lemma setup_is_not_already_running (e : event) :
  is_setup_event e = true -> is_already_running_log e = false.
Proof.
  destruct e; cbn; try congruence.
  match goal with |- context [match ?m with _ => _ end] => destruct m end;
    congruence.
Qed.

Lemma setup_is_not_pidfile_write (e : event) :
  is_setup_event e = true -> is_pidfile_write e = false.
Proof. destruct e; cbn; congruence. Qed.

Lemma setup_is_not_pidfile_remove (e : event) :
  is_setup_event e = true -> is_pidfile_remove e = false.
Proof. destruct e; cbn; congruence. Qed.

Lemma running_of_setup (e : event) :
  is_setup_event e = true -> is_running_event e = true.
Proof. destruct e; cbn; congruence. Qed.

Lemma running_of_loop (e : event) :
  is_loop_event e = true -> is_running_event e = true.
Proof. destruct e; cbn; congruence. Qed.

Lemma running_is_not_shutdown (e : event) :
  is_running_event e = true -> is_shutdown_step e = false.
Proof. destruct e; cbn; congruence. Qed.

Lemma loop_is_not_pidfile_write (e : event) :
  is_loop_event e = true -> is_pidfile_write e = false.
Proof. destruct e; cbn; congruence. Qed.

Lemma loop_is_not_pidfile_remove (e : event) :
  is_loop_event e = true -> is_pidfile_remove e = false.
Proof. destruct e; cbn; congruence. Qed.

(** *** Sequencing *)

Lemma bind_ret_inv {A B} (m : M A) (k : A -> M B) (w w' : world) (b : B) :
  bind m k w = (Ret b, w') ->
  exists a w1, m w = (Ret a, w1) /\ k a w1 = (Ret b, w').
Proof.
  unfold bind. destruct (m w) as [[a| |] w1]; intros H; try discriminate.
  exists a, w1. split; [reflexivity|assumption].
Qed.

Lemma bind_returns {A B} (m : M A) (k : A -> M B) (w w1 : world) (a : A) :
  m w = (Ret a, w1) -> bind m k w = k a w1.
Proof. unfold bind. intros ->. reflexivity. Qed.

Lemma bind_halts {A B} (m : M A) (k : A -> M B) (w w1 : world) (c : Z) :
  m w = (Halt c, w1) -> bind m k w = (Halt c, w1).
Proof. unfold bind. intros ->. reflexivity. Qed.

Lemma bind_hangs {A B} (m : M A) (k : A -> M B) (w w1 : world) :
  m w = (Hang, w1) -> bind m k w = (Hang, w1).
Proof. unfold bind. intros ->. reflexivity. Qed.

Lemma grows_refl (p : event -> bool) (w : world) : grows p w w.
Proof.
  split; [reflexivity|]. exists []. rewrite app_nil_r. split; reflexivity.
Qed.

Lemma grows_trans (p : event -> bool) (w1 w2 w3 : world) :
  grows p w1 w2 -> grows p w2 w3 -> grows p w1 w3.
Proof.
  intros [C1 [t1 [T1 P1]]] [C2 [t2 [T2 P2]]]. split; [congruence|].
  exists (t1 ++ t2). rewrite T2, T1, app_assoc. split; [reflexivity|].
  rewrite forallb_app, P1, P2. reflexivity.
Qed.

Lemma grows_calls (p q : event -> bool) (w w' : world) :
  (forall e, p e = true -> q e = false) ->
  grows p w w' -> calls q (trace w') = calls q (trace w).
Proof.
  intros Hpq [_ [t [T P]]]. rewrite T, calls_app.
  assert (calls q t = 0%nat) as ->; [|lia].
  apply calls_none. rewrite forallb_forall in *. intros e He.
  rewrite (Hpq e (P e He)). reflexivity.
Qed.

(** Closes a [grows] goal whose new world is an explicit record. *)
Ltac grown :=
  split; [cbn; reflexivity|]; cbn; rewrite <- ?app_assoc; cbn;
  eexists; split; reflexivity.

(** *** The blocks of [main] *)

(** The two ways out of [main_discovery]: on to the pidfile stage when both
    cards were found and the configuration was accepted, out of the process
    with EXIT_FAILURE otherwise; either way only set-up calls were made. *)
Lemma main_discovery_cases (o : oracle) (w : world) :
  (exists w', main_discovery o w = (Ret tt, w') /\
     o_pci_find_gfx_by_vendor o PCI_VENDOR_ID_NVIDIA <> None /\
     o_pci_find_gfx_by_vendor o PCI_VENDOR_ID_INTEL <> None /\
     o_config_validate o = 0 /\
     bb_status w' = bb_status w /\
     grows is_setup_event w w')
  \/
  (exists w', main_discovery o w = (Halt EXIT_FAILURE, w') /\
     (o_pci_find_gfx_by_vendor o PCI_VENDOR_ID_NVIDIA = None \/
      o_pci_find_gfx_by_vendor o PCI_VENDOR_ID_INTEL = None \/
      o_config_validate o <> 0) /\
     grows is_setup_event w w').
Proof.
  destruct (main_discovery o w) as [r w'] eqn:Hm.
  unfold main_discovery, pci_find_gfx_by_vendor, config_validate in Hm.
  step in Hm.
  destruct (o_pci_find_gfx_by_vendor o PCI_VENDOR_ID_NVIDIA) as [d|]; step in Hm.
  2: { injection Hm as <- <-. right. eexists.
       splits; [reflexivity|left; reflexivity|grown]. }
  destruct (o_pci_find_gfx_by_vendor o PCI_VENDOR_ID_INTEL) as [i|]; step in Hm.
  2: { injection Hm as <- <-. right. eexists.
       splits; [reflexivity|right; left; reflexivity|grown]. }
  destruct (o_bbconfig_parse_conf o); step in Hm;
    (destruct (Z.eqb_spec (o_config_validate o) 0) as [Hv|Hv]; step in Hm;
     injection Hm as <- <-;
     [ left; eexists;
       splits; [reflexivity|discriminate|discriminate|assumption|reflexivity|grown]
     | right; eexists;
       splits; [reflexivity|right; right; assumption|grown] ]).
Qed.

(** [main_discovery] comes back only when both cards were found and the
    configuration was accepted, and then only set-up calls were made. *)
Lemma main_discovery_returns (o : oracle) (w w' : world) (u : unit) :
  main_discovery o w = (Ret u, w') ->
  o_pci_find_gfx_by_vendor o PCI_VENDOR_ID_NVIDIA <> None /\
  o_pci_find_gfx_by_vendor o PCI_VENDOR_ID_INTEL <> None /\
  o_config_validate o = 0 /\
  bb_status w' = bb_status w /\
  grows is_setup_event w w'.
Proof.
  intros H.
  destruct (main_discovery_cases o w) as [[w1 [H1 K]] | [w1 [H1 _]]];
    rewrite H1 in H; [|discriminate].
  injection H as _ <-. exact K.
Qed.

(** [main_pidfile_open] comes back with the handle it was given, or with NULL
    when the build has no pidfile support or no path is configured. *)
Lemma main_pidfile_open_returns (o : oracle) (w w' : world) (pfh : option pidfh) :
  main_pidfile_open o w = (Ret pfh, w') ->
  bb_status w' = bb_status w /\
  grows is_setup_event w w' /\
  (WITH_PIDFILE o = false \/ first_char_set (pid_file (bb_config w)) = false ->
   pfh = None /\ w' = w) /\
  (WITH_PIDFILE o = true -> first_char_set (pid_file (bb_config w)) = true ->
   exists h, o_pidfile_open o = pidfile_opened h /\ pfh = Some h).
Proof.
  unfold main_pidfile_open, pidfile_open.
  destruct (WITH_PIDFILE o); step.
  - destruct (first_char_set (pid_file (bb_config w))); step.
    + destruct (o_pidfile_open o) as [h|err pid]; step.
      * intros H; injection H as <- <-.
        splits; [reflexivity|grown| |].
        -- intros [?|?]; discriminate.
        -- intros _ _. exists h. split; reflexivity.
      * destruct (err =? EEXIST); step; discriminate.
    + intros H; injection H as <- <-.
      splits; [reflexivity|apply grows_refl| |].
      * intros _. split; reflexivity.
      * intros _ ?; discriminate.
  - intros H; injection H as <- <-.
    splits; [reflexivity|apply grows_refl| |].
    + intros _. split; reflexivity.
    + intros ?; discriminate.
Qed.

(** [bb_chgid], whatever it answers, makes set-up calls only and leaves
    [bb_status] alone. *)
Lemma bb_chgid_grows (o : oracle) (w : world) :
  bb_status (snd (bb_chgid o w)) = bb_status w /\
  grows is_setup_event w (snd (bb_chgid o w)).
Proof.
  unfold bb_chgid, getgrnam, setgid. step.
  destruct (o_getgrnam o (gid_name (bb_config w))) as [gid|err]; step.
  - destruct (Z.eqb_spec (fst (o_setgid o gid)) 0) as [Hz|Hnz]; step.
    + split; [reflexivity|grown].
    + apply Z.eqb_neq in Hnz. rewrite Hnz. step. split; [reflexivity|grown].
  - split; [reflexivity|grown].
Qed.

(** [bb_chgid] always comes back, with one of the two exit statuses. *)
Lemma bb_chgid_answers (o : oracle) (w : world) :
  fst (bb_chgid o w) = Ret EXIT_SUCCESS \/ fst (bb_chgid o w) = Ret EXIT_FAILURE.
Proof.
  unfold bb_chgid, getgrnam, setgid. step.
  destruct (o_getgrnam o (gid_name (bb_config w))) as [gid|err]; step.
  - destruct (Z.eqb_spec (fst (o_setgid o gid)) 0) as [Hz|Hnz]; step.
    + left; reflexivity.
    + apply Z.eqb_neq in Hnz. rewrite Hnz. right; reflexivity.
  - right; reflexivity.
Qed.

(** The two ways out of [main_chgid]: on to the next block, or out of the
    process through [bb_closelog] and, in a pidfile build,
    [pidfile_remove]. *)
Lemma main_chgid_cases (o : oracle) (pfh : option pidfh) (w : world) :
  (exists w', main_chgid o pfh w = (Ret tt, w') /\
     (gid_name_set (gid_name (bb_config w)) = false \/
      fst (bb_chgid o w) = Ret EXIT_SUCCESS) /\
     bb_status w' = bb_status w /\ grows is_setup_event w w')
  \/
  (exists w1 w', main_chgid o pfh w = (Halt EXIT_FAILURE, w') /\
     gid_name_set (gid_name (bb_config w)) = true /\
     bb_chgid o w = (Ret EXIT_FAILURE, w1) /\
     grows is_setup_event w w1 /\
     trace w' = trace w1 ++ E_bb_closelog ::
       (if WITH_PIDFILE o then [E_pidfile_remove pfh (o_pidfile_remove o)] else [])).
Proof.
  destruct (main_chgid o pfh w) as [r w'] eqn:Hm.
  unfold main_chgid in Hm. unfold bind at 1 in Hm. unfold get at 1 in Hm.
  cbv beta iota in Hm.
  destruct (gid_name_set (gid_name (bb_config w))) eqn:Hset.
  - pose proof (bb_chgid_answers o w) as Hres.
    destruct (bb_chgid_grows o w) as [Hst Hgr].
    destruct (bb_chgid o w) as [rc w1] eqn:Hc. cbn [fst snd] in *.
    destruct Hres as [-> | ->]; rewrite (bind_returns _ _ _ _ _ Hc) in Hm;
      cbn in Hm.
    + injection Hm as <- <-. left. exists w1.
      splits; [reflexivity|right; reflexivity|assumption|assumption].
    + right. exists w1, w'.
      destruct (WITH_PIDFILE o); step in Hm; injection Hm as <- <-;
        (splits; [reflexivity|reflexivity|reflexivity|assumption|]);
        cbn; rewrite <- ?app_assoc; reflexivity.
  - injection Hm as <- <-. left. exists w.
    splits; [reflexivity|left; reflexivity|reflexivity|apply grows_refl].
Qed.

(** The three ways through [daemonize]. *)
Lemma daemonize_cases (o : oracle) (w : world) :
  (daemonize_fails o /\
   exists w', daemonize o w = (Ret EXIT_FAILURE, w') /\
     bb_status w' = bb_status w /\ grows is_setup_event w w' /\
     calls is_dup2 (trace w') = calls is_dup2 (trace w))
  \/
  (0 < o_fork o /\
   daemonize o w = (Halt EXIT_SUCCESS, with_trace (trace w ++ [E_fork]) w))
  \/
  (o_fork o = 0 /\ 0 <= fst (o_setsid o) /\ 0 <= fst (o_chdir o) /\
   0 <= fst (o_open_devnull o) /\
   daemonize o w =
     (Ret EXIT_SUCCESS,
      with_trace (trace w ++ [E_fork; E_setsid; E_chdir "/";
                              E_open "/dev/null" O_RDWR;
                              E_dup2 (fst (o_open_devnull o)) STDIN_FILENO;
                              E_dup2 (fst (o_open_devnull o)) STDOUT_FILENO;
                              E_dup2 (fst (o_open_devnull o)) STDERR_FILENO]) w)).
Proof.
  unfold daemonize_fails, daemonize, fork, setsid, chdir, open, answered. step.
  destruct (Z.ltb_spec (o_fork o) 0) as [Hf|Hf]; step.
  { left. split; [left; assumption|]. eexists.
    splits; [reflexivity|reflexivity|grown|count]. }
  destruct (Z.gtb_spec (o_fork o) 0) as [Hp|Hp]; step.
  { right; left. split; [lia|reflexivity]. }
  assert (o_fork o = 0) as Hz by lia.
  destruct (Z.ltb_spec (fst (o_setsid o)) 0) as [Hs|Hs]; step.
  { rewrite (proj2 (Z.ltb_lt _ _) Hs). step.
    left. split; [right; split; [assumption|left; assumption]|]. eexists.
    splits; [reflexivity|reflexivity|grown|count]. }
  rewrite (proj2 (Z.ltb_ge _ _) Hs). step.
  destruct (Z.ltb_spec (fst (o_chdir o)) 0) as [Hc|Hc]; step.
  { rewrite (proj2 (Z.ltb_lt _ _) Hc). step.
    left. split; [right; split; [assumption|right; left; assumption]|]. eexists.
    splits; [reflexivity|reflexivity|grown|count]. }
  rewrite (proj2 (Z.ltb_ge _ _) Hc). step.
  destruct (Z.ltb_spec (fst (o_open_devnull o)) 0) as [Hd|Hd]; step.
  { rewrite (proj2 (Z.ltb_lt _ _) Hd). step.
    left. split; [right; split; [assumption|right; right; assumption]|]. eexists.
    splits; [reflexivity|reflexivity|grown|count]. }
  rewrite (proj2 (Z.ltb_ge _ _) Hd). step.
  right; right. splits; try assumption. same_world.
Qed.

(** The three ways out of [main_daemonize]: on to the next block; out of
    the process with EXIT_FAILURE through [bb_closelog] and, in a pidfile
    build, [pidfile_remove]; or, for the parent of a successful fork, out of
    the process with EXIT_SUCCESS straight after [fork]. *)
Lemma main_daemonize_cases (o : oracle) (pfh : option pidfh) (w : world) :
  (exists w', main_daemonize o pfh w = (Ret tt, w') /\
     (runmode (bb_status w) <> BB_RUN_DAEMON \/
      (o_fork o = 0 /\ 0 <= fst (o_setsid o) /\ 0 <= fst (o_chdir o) /\
       0 <= fst (o_open_devnull o))) /\
     bb_status w' = bb_status w /\ grows is_setup_event w w')
  \/
  (runmode (bb_status w) = BB_RUN_DAEMON /\ daemonize_fails o /\
   exists w1 w', main_daemonize o pfh w = (Halt EXIT_FAILURE, w') /\
     grows is_setup_event w w1 /\
     trace w' = trace w1 ++ E_bb_closelog ::
       (if WITH_PIDFILE o then [E_pidfile_remove pfh (o_pidfile_remove o)] else []))
  \/
  (runmode (bb_status w) = BB_RUN_DAEMON /\ 0 < o_fork o /\
   main_daemonize o pfh w =
     (Halt EXIT_SUCCESS,
      with_trace (trace w ++ [E_bb_log LOG_NOTICE Msg_started; E_fork]) w)).
Proof.
  destruct (main_daemonize o pfh w) as [r w'] eqn:Hm.
  unfold main_daemonize in Hm.
  unfold bind at 1 in Hm. unfold bb_log at 1, emit at 1, modify at 1 in Hm.
  unfold bind at 1 in Hm. unfold get at 1 in Hm. cbv beta iota in Hm.
  change (bb_status (record (E_bb_log LOG_NOTICE Msg_started) w))
    with (bb_status w) in Hm.
  set (w0 := record (E_bb_log LOG_NOTICE Msg_started) w) in Hm.
  assert (grows is_setup_event w w0) as Hg0 by (subst w0; grown).
  destruct (runmode (bb_status w)) eqn:Hrm; cbn [bb_run_mode_eqb] in Hm.
  1, 3: injection Hm as <- <-; left; exists w0;
    (splits; [reflexivity|left; discriminate|reflexivity|assumption]).
  destruct (daemonize_cases o w0) as
    [[Hfail [w1 [Hd [Hst [Hgr _]]]]] | [[Hpos Hd] | [Hz [Hs [Hc [Hn Hd]]]]]];
    rewrite (bind_returns _ _ _ _ _ Hd) in Hm || rewrite (bind_halts _ _ _ _ _ Hd) in Hm.
  - right; left. splits; [reflexivity|assumption|]. exists w1, w'.
    clearbody w0. cbn [negb Z.eqb EXIT_FAILURE EXIT_SUCCESS] in Hm.
    destruct (WITH_PIDFILE o); step in Hm; injection Hm as <- <-;
      (splits; [reflexivity|apply grows_trans with w0; assumption|]);
      cbn; rewrite <- ?app_assoc; reflexivity.
  - injection Hm as <- <-. right; right. splits; [reflexivity|assumption|].
    subst w0. same_world.
  - assert (bb_status w0 = bb_status w) as Hs0 by reflexivity.
    clearbody w0. cbn in Hm. injection Hm as <- <-. left. eexists.
    splits; [reflexivity|right; splits; assumption|exact Hs0|].
    apply grows_trans with w0; [assumption|grown].
Qed.

(** The service initialiser always comes back. *)
Lemma main_service_init_runs (o : oracle) (w : world) :
  main_service_init o w =
    (Ret tt,
     with_status (set_bb_socket (o_socketServer o))
       (with_trace (trace w ++ [E_bb_dbus_init;
                                E_socketServer (socket_path (bb_config w)) SOCK_NOBLOCK;
                                E_stop_secondary;
                                E_bb_log LOG_INFO Msg_init_completed;
                                E_g_main_loop_new;
                                E_g_timeout_add 100]) w)).
Proof.
  unfold main_service_init, socketServer. step. same_world.
Qed.

(** Any signal: the handler comes back, the configuration, the run mode
    and [x_err_fd] are as before, and the trace grew by loop events. *)
Lemma handle_signal_grows (sig : Z) (w : world) :
  fst (handle_signal sig w) = Ret tt /\
  runmode (bb_status (snd (handle_signal sig w))) = runmode (bb_status w) /\
  x_err_fd (bb_status (snd (handle_signal sig w))) = x_err_fd (bb_status w) /\
  grows is_loop_event w (snd (handle_signal sig w)).
Proof.
  unfold handle_signal.
  destruct (sig =? SIGHUP); [|destruct (sig =? SIGPIPE);
    [|destruct ((sig =? SIGINT) || (sig =? SIGQUIT)); [|destruct (sig =? SIGTERM)]]];
    step; try destruct (sigpipes w <=? 10); step;
    (splits; [reflexivity|reflexivity|reflexivity|
                         first [apply grows_refl | grown]]).
Qed.

(** The loop never ends the process; when it comes back the control socket
    is closed; meanwhile only loop events were traced, and the configuration
    and the run mode are as before. *)
Lemma event_loop_grows (inputs : list loop_input) (w : world) :
  (forall c, fst (event_loop inputs w) <> Halt c) /\
  (fst (event_loop inputs w) = Ret tt ->
   bb_socket (bb_status (snd (event_loop inputs w))) = -1) /\
  runmode (bb_status (snd (event_loop inputs w))) = runmode (bb_status w) /\
  grows is_loop_event w (snd (event_loop inputs w)).
Proof.
  revert w. induction inputs as [|i rest IH]; intros w; cbn [event_loop].
  - destruct (Z.eqb_spec (bb_socket (bb_status w)) (-1)) as [Hc|Ho]; cbn.
    + splits; [discriminate|intros _; assumption|reflexivity|apply grows_refl].
    + splits; [discriminate|discriminate|reflexivity|apply grows_refl].
  - destruct (Z.eqb_spec (bb_socket (bb_status w)) (-1)) as [Hc|Ho].
    + cbn. splits;
        [discriminate|intros _; assumption|reflexivity|apply grows_refl].
    + destruct i as [sig|x_fd].
      * destruct (handle_signal_grows sig w) as [Hr [Hm [_ Hg]]].
        destruct (handle_signal sig w) as [r w1] eqn:Hh. cbn [fst snd] in *. subst r.
        rewrite (bind_returns _ _ _ _ _ Hh).
        destruct (IH w1) as [I1 [I2 [I3 I4]]].
        splits; [assumption|assumption|congruence|].
        apply grows_trans with w1; assumption.
      * set (w1 := with_status (set_x_err_fd x_fd)
                     (with_trace (trace w ++ [E_handle_connection]) w)).
        change (bind (emit E_handle_connection;;
                      modify (with_status (set_x_err_fd x_fd)))
                     (fun _ => event_loop rest) w)
          with (event_loop rest w1).
        destruct (IH w1) as [I1 [I2 [I3 I4]]].
        splits; [assumption|assumption|rewrite I3; reflexivity|].
        apply grows_trans with w1; [subst w1; grown|assumption].
Qed.

(** Everything after the loop, in one equation. *)
Lemma main_shutdown_runs (o : oracle) (pfh : option pidfh) (w : world) :
  main_shutdown o pfh w =
    (Halt EXIT_SUCCESS,
     with_status (fun s => set_x_err_fd (-1) (set_runmode BB_RUN_EXIT s))
       (with_trace (trace w ++ shutdown_steps o pfh w) w)).
Proof.
  unfold main_shutdown, shutdown_steps, final_power_call. step.
  destruct (Z.eqb_spec (card_shutdown_state (bb_config w)) 0) as [Hp|Hp];
    destruct (WITH_PIDFILE o); step;
    (destruct (Z.eqb_spec (x_err_fd (bb_status w)) (-1)) as [Hx|Hx]; step;
     f_equal; apply world_ext; cbn; rewrite <- ?app_assoc;
     try reflexivity;
     unfold set_x_err_fd, set_runmode; cbn; rewrite Hx; reflexivity).
Qed.

(** *** Fatal start-up conditions *)

(** C4.  When the bus scan finds no card of the discrete vendor, or none of
    the integrated vendor, [main] ends the process with EXIT_FAILURE, which
    is not 0, and by then neither [socketServer] nor a power call
    ([start_secondary], [stop_secondary]) has been made. *)
Theorem missing_gpu_is_fatal (o : oracle) (st : bb_status_t) (cfg : bb_config_t)
    (gid mask : Z) :
  o_pci_find_gfx_by_vendor o PCI_VENDOR_ID_NVIDIA = None \/
  o_pci_find_gfx_by_vendor o PCI_VENDOR_ID_INTEL = None ->
  exists w',
    main o (boot st cfg gid mask) = (Halt EXIT_FAILURE, w') /\
    EXIT_FAILURE <> 0 /\
    calls is_socketServer (trace w') = 0%nat /\
    calls is_power_call (trace w') = 0%nat.
Proof.
  intros H. unfold main.
  destruct (main_discovery_cases o (boot st cfg gid mask)) as
    [[w1 [_ [Hn [Hi _]]]] | [w1 [Hd [_ Hg]]]].
  - destruct H; contradiction.
  - rewrite (bind_halts _ _ _ _ _ Hd). exists w1.
    splits; [reflexivity|discriminate| |].
    + exact (grows_calls _ _ _ _ setup_is_not_socketServer Hg).
    + exact (grows_calls _ _ _ _ setup_is_not_power Hg).
Qed.

Lemma missing_gpu_is_fatal_witness :
  exists w',
    main oracle_no_card sample_boot = (Halt EXIT_FAILURE, w') /\
    EXIT_FAILURE <> 0 /\
    calls is_socketServer (trace w') = 0%nat /\
    calls is_power_call (trace w') = 0%nat.
Proof.
  apply (missing_gpu_is_fatal oracle_no_card sample_status sample_config 0 18).
  left. reflexivity.
Defined.

(** The pidfile stage when another process holds the lock. *)
Lemma main_pidfile_open_locked (o : oracle) (w : world) (otherpid : Z) :
  WITH_PIDFILE o = true ->
  first_char_set (pid_file (bb_config w)) = true ->
  o_pidfile_open o = pidfile_refused EEXIST otherpid ->
  main_pidfile_open o w =
    (Halt EXIT_FAILURE,
     with_errno EEXIST
       (with_trace (trace w ++ [E_pidfile_open (pid_file (bb_config w)) mode_0644;
                                E_bb_log LOG_ERR (Msg_already_running otherpid);
                                E_bb_closelog]) w)).
Proof.
  intros Hwith Hpath Hlock.
  unfold main_pidfile_open, pidfile_open. rewrite Hwith. step.
  rewrite Hpath, Hlock. step. same_world.
Qed.

(** C6, amended.  In a build with pidfile support, with a pidfile
    path configured and the lock held by another process, [main] ends the
    process with EXIT_FAILURE and makes no power call; when both cards are
    found and the configuration is accepted, so that the pidfile stage is
    reached, the trace ends with the one message "Daemon already running",
    carrying the pid of the holder, and [bb_closelog]. *)
Theorem locked_pidfile_is_fatal (o : oracle) (st : bb_status_t)
    (cfg : bb_config_t) (gid mask otherpid : Z) :
  WITH_PIDFILE o = true ->
  first_char_set (pid_file cfg) = true ->
  o_pidfile_open o = pidfile_refused EEXIST otherpid ->
  let r := main o (boot st cfg gid mask) in
  fst r = Halt EXIT_FAILURE /\
  EXIT_FAILURE <> 0 /\
  calls is_power_call (trace (snd r)) = 0%nat /\
  (o_pci_find_gfx_by_vendor o PCI_VENDOR_ID_NVIDIA <> None ->
   o_pci_find_gfx_by_vendor o PCI_VENDOR_ID_INTEL <> None ->
   o_config_validate o = 0 ->
   calls is_already_running_log (trace (snd r)) = 1%nat /\
   exists t, trace (snd r) =
     t ++ [E_bb_log LOG_ERR (Msg_already_running otherpid); E_bb_closelog]).
Proof.
  intros Hwith Hpath Hlock. cbv zeta. set (w0 := boot st cfg gid mask).
  unfold main.
  destruct (main_discovery_cases o w0) as
    [[w1 [Hd [Hn [Hi [Hv [_ Hg]]]]]] | [w1 [Hd [Hwhy Hg]]]].
  - rewrite (bind_returns _ _ _ _ _ Hd).
    assert (first_char_set (pid_file (bb_config w1)) = true) as Hpath1.
    { destruct Hg as [-> _]. exact Hpath. }
    rewrite (bind_halts _ _ _ _ _
               (main_pidfile_open_locked o w1 otherpid Hwith Hpath1 Hlock)).
    cbn [fst snd].
    pose proof (grows_calls _ _ _ _ setup_is_not_power Hg) as Hp.
    pose proof (grows_calls _ _ _ _ setup_is_not_already_running Hg) as Ha.
    change (calls is_power_call (trace w0)) with 0%nat in Hp.
    change (calls is_already_running_log (trace w0)) with 0%nat in Ha.
    splits; [reflexivity|discriminate| |].
    + cbn. rewrite calls_app, Hp. reflexivity.
    + intros _ _ _. cbn. split.
      * rewrite calls_app, Ha. reflexivity.
      * exists (trace w1 ++ [E_pidfile_open (pid_file (bb_config w1)) mode_0644]).
        rewrite <- app_assoc. reflexivity.
  - rewrite (bind_halts _ _ _ _ _ Hd). cbn [fst snd].
    pose proof (grows_calls _ _ _ _ setup_is_not_power Hg) as Hp.
    splits; [reflexivity|discriminate|exact Hp|].
    intros Hn Hi Hv. destruct Hwhy as [H|[H|H]]; contradiction.
Qed.

Lemma locked_pidfile_is_fatal_witness :
  fst (main oracle_locked sample_boot) = Halt EXIT_FAILURE /\
  calls is_power_call (trace (snd (main oracle_locked sample_boot))) = 0%nat /\
  calls is_already_running_log (trace (snd (main oracle_locked sample_boot))) = 1%nat.
Proof.
  destruct (locked_pidfile_is_fatal oracle_locked sample_status sample_config
              0 18 4242 eq_refl eq_refl eq_refl) as [Hr [_ [Hp Hm]]].
  splits; [exact Hr|exact Hp|].
  apply Hm; [discriminate|discriminate|reflexivity].
Defined.

(** C6, counterexample.  A second start with a rejected
    configuration, while the first daemon holds the pidfile, stops at the
    configuration check and never prints "Daemon already running". *)
Lemma locked_pidfile_but_no_message :
  WITH_PIDFILE oracle_invalid_and_locked = true /\
  first_char_set (pid_file (bb_config sample_boot)) = true /\
  o_pidfile_open oracle_invalid_and_locked = pidfile_refused EEXIST 4242 /\
  fst (main oracle_invalid_and_locked sample_boot) = Halt EXIT_FAILURE /\
  calls is_already_running_log
    (trace (snd (main oracle_invalid_and_locked sample_boot))) = 0%nat.
Proof.
  splits; vm_compute; reflexivity.
Qed.

(** *** [main] from a point on *)

Lemma grows_weaken (p q : event -> bool) (w w' : world) :
  (forall e, p e = true -> q e = true) -> grows p w w' -> grows q w w'.
Proof.
  intros Hpq [C [t [T P]]]. split; [assumption|]. exists t. split; [assumption|].
  rewrite forallb_forall in *. auto.
Qed.

Lemma main_past_lock (o : oracle) (w w1 : world) (pfh : option pidfh) :
  main_until_locked o w = (Ret pfh, w1) ->
  main o w = main_from_chgid o pfh w1.
Proof.
  unfold main_until_locked, main. intros H.
  apply bind_ret_inv in H. destruct H as [u [w0 [Hd Hp]]].
  rewrite (bind_returns _ _ _ _ _ Hd), (bind_returns _ _ _ _ _ Hp). reflexivity.
Qed.

Lemma main_at_daemonize (o : oracle) (w w1 : world) (pfh : option pidfh) :
  main_until_daemonize o w = (Ret pfh, w1) ->
  main o w = main_from_daemonize o pfh w1.
Proof.
  unfold main_until_daemonize. intros H.
  apply bind_ret_inv in H. destruct H as [p [w0 [Hl H]]].
  apply bind_ret_inv in H. destruct H as [u [w2 [Hc H]]].
  injection H as -> ->.
  rewrite (main_past_lock _ _ _ _ Hl). unfold main_from_chgid.
  rewrite (bind_returns _ _ _ _ _ Hc). reflexivity.
Qed.

Lemma main_past_daemonize (o : oracle) (w w1 : world) (pfh : option pidfh) :
  main_until_daemonized o w = (Ret pfh, w1) ->
  main o w = (main_pidfile_write o pfh ;; main_from_service_init o pfh) w1.
Proof.
  unfold main_until_daemonized. intros H.
  apply bind_ret_inv in H. destruct H as [p [w0 [Hl H]]].
  apply bind_ret_inv in H. destruct H as [u [w2 [Hc H]]].
  injection H as -> ->.
  rewrite (main_at_daemonize _ _ _ _ Hl). unfold main_from_daemonize.
  rewrite (bind_returns _ _ _ _ _ Hc). reflexivity.
Qed.

Lemma main_past_loop (o : oracle) (w w1 : world) (pfh : option pidfh) :
  main_until_loop_returns o w = (Ret pfh, w1) ->
  main o w = main_shutdown o pfh w1.
Proof.
  unfold main_until_loop_returns. intros H.
  apply bind_ret_inv in H. destruct H as [p [w0 [Hd H]]].
  apply bind_ret_inv in H. destruct H as [u1 [w2 [Hw H]]].
  apply bind_ret_inv in H. destruct H as [u2 [w3 [Hs H]]].
  apply bind_ret_inv in H. destruct H as [u3 [w4 [Hl H]]].
  injection H as -> ->.
  rewrite (main_past_daemonize _ _ _ _ Hd).
  rewrite (bind_returns _ _ _ _ _ Hw). unfold main_from_service_init.
  rewrite (bind_returns _ _ _ _ _ Hs), (bind_returns _ _ _ _ _ Hl). reflexivity.
Qed.

(** A start-up that gets past [daemonize] made set-up calls only; its
    handle is NULL exactly when no pidfile is in use. *)
Lemma main_until_daemonized_returns (o : oracle) (w w1 : world)
    (pfh : option pidfh) :
  main_until_daemonized o w = (Ret pfh, w1) ->
  bb_status w1 = bb_status w /\
  grows is_setup_event w w1 /\
  (WITH_PIDFILE o = false \/ first_char_set (pid_file (bb_config w)) = false ->
   pfh = None) /\
  (WITH_PIDFILE o = true -> first_char_set (pid_file (bb_config w)) = true ->
   exists h, o_pidfile_open o = pidfile_opened h /\ pfh = Some h).
Proof.
  unfold main_until_daemonized, main_until_daemonize, main_until_locked.
  intros H.
  apply bind_ret_inv in H. destruct H as [p [w4 [H H5]]].
  apply bind_ret_inv in H5. destruct H5 as [u5 [w5 [Hdz H5]]].
  injection H5 as -> ->.
  apply bind_ret_inv in H. destruct H as [p' [w3 [H H4]]].
  apply bind_ret_inv in H4. destruct H4 as [u4 [w4' [Hcg H4]]].
  injection H4 as -> ->.
  apply bind_ret_inv in H. destruct H as [u2 [w2 [Hdisc Hopen]]].
  apply main_discovery_returns in Hdisc.
  destruct Hdisc as [_ [_ [_ [S2 G2]]]].
  apply main_pidfile_open_returns in Hopen.
  destruct Hopen as [S3 [G3 [N3 O3]]].
  destruct (main_chgid_cases o pfh w3) as [[x [E [_ [S4 G4]]]] | [x [y [E _]]]];
    rewrite E in Hcg; [|discriminate].
  assert (x = w4) by congruence. subst x. clear Hcg.
  destruct (main_daemonize_cases o pfh w4) as
    [[z [E5 [_ [S5 G5]]]] | [[_ [_ [z [y [E5 _]]]]] | [_ [_ E5]]]];
    rewrite E5 in Hdz; try discriminate.
  assert (z = w1) by congruence. subst z. clear Hdz.
  assert (bb_config w2 = bb_config w) as C2 by (destruct G2 as [C _]; exact C).
  splits.
  - congruence.
  - apply grows_trans with w2; [assumption|].
    apply grows_trans with w3; [assumption|].
    apply grows_trans with w4; assumption.
  - intros Hno. rewrite C2 in N3. destruct (N3 Hno) as [Hp _]. exact Hp.
  - intros Hw Hp. rewrite C2 in O3. exact (O3 Hw Hp).
Qed.

(** From the service initialiser on: either the loop never comes back, or
    the process ends with EXIT_SUCCESS after the shutdown steps.  Up to the
    end of the loop the configuration is untouched and the calls are the
    six of the initialiser, [g_main_loop_run], and loop events. *)
Lemma main_from_service_init_cases (o : oracle) (pfh : option pidfh) (w : world) :
  exists t w2,
    bb_config w2 = bb_config w /\
    trace w2 = trace w ++ [E_bb_dbus_init;
                           E_socketServer (socket_path (bb_config w)) SOCK_NOBLOCK;
                           E_stop_secondary;
                           E_bb_log LOG_INFO Msg_init_completed;
                           E_g_main_loop_new;
                           E_g_timeout_add 100;
                           E_g_main_loop_run] ++ t /\
    forallb is_loop_event t = true /\
    ((main_service_init o ;; g_main_loop_run o) w = (Hang, w2) /\
     main_from_service_init o pfh w = (Hang, w2)
     \/
     (main_service_init o ;; g_main_loop_run o) w = (Ret tt, w2) /\
     main_from_service_init o pfh w =
       (Halt EXIT_SUCCESS,
        with_status (fun s => set_x_err_fd (-1) (set_runmode BB_RUN_EXIT s))
          (with_trace (trace w2 ++ shutdown_steps o pfh w2) w2))).
Proof.
  unfold main_from_service_init.
  rewrite !(bind_returns _ _ _ _ _ (main_service_init_runs o w)).
  set (w1 := with_status _ _).
  assert (g_main_loop_run o w1
          = event_loop (o_loop o) (record E_g_main_loop_run w1)) as Hrun
    by reflexivity.
  destruct (event_loop_grows (o_loop o) (record E_g_main_loop_run w1))
    as [Hnh [_ [_ [Hc [t [Ht Hp]]]]]].
  destruct (event_loop (o_loop o) (record E_g_main_loop_run w1)) as [r w2] eqn:Hl.
  cbn [fst snd] in *.
  exists t, w2. splits.
  - rewrite Hc. reflexivity.
  - rewrite Ht. subst w1. cbn. rewrite <- !app_assoc. reflexivity.
  - exact Hp.
  - destruct r as [[]|c|].
    + right. rewrite (bind_returns _ _ _ _ _ Hrun).
      rewrite main_shutdown_runs. split; [exact Hrun|reflexivity].
    + exfalso. exact (Hnh c eq_refl).
    + left. rewrite (bind_hangs _ _ _ _ Hrun). split; [exact Hrun|reflexivity].
Qed.

(** A run whose loop came back: what was traced until then, and where the
    run stood after [daemonize]. *)
Lemma main_until_loop_returns_inv (o : oracle) (w w1 : world) (pfh : option pidfh) :
  main_until_loop_returns o w = (Ret pfh, w1) ->
  exists w0 t,
    main_until_daemonized o w = (Ret pfh, w0) /\
    bb_config w1 = bb_config w /\
    forallb is_loop_event t = true /\
    trace w1 = trace w0
      ++ (if WITH_PIDFILE o then [E_pidfile_write pfh] else [])
      ++ [E_bb_dbus_init;
          E_socketServer (socket_path (bb_config w)) SOCK_NOBLOCK;
          E_stop_secondary;
          E_bb_log LOG_INFO Msg_init_completed;
          E_g_main_loop_new;
          E_g_timeout_add 100;
          E_g_main_loop_run] ++ t /\
    grows is_running_event w w1.
Proof.
  unfold main_until_loop_returns. intros H.
  apply bind_ret_inv in H. destruct H as [p [w0 [Hd H]]].
  apply bind_ret_inv in H. destruct H as [u1 [wa [Hw H]]].
  apply bind_ret_inv in H. destruct H as [u2 [wb [Hs H]]].
  apply bind_ret_inv in H. destruct H as [u3 [wc [Hl H]]].
  injection H as -> ->.
  destruct (main_until_daemonized_returns _ _ _ _ Hd) as [_ [G0 _]].
  assert (bb_config w0 = bb_config w) as C0 by (destruct G0 as [C _]; exact C).
  assert (bb_config wa = bb_config w0 /\
          trace wa = trace w0 ++ (if WITH_PIDFILE o then [E_pidfile_write pfh] else []))
    as [Ca Ta].
  { unfold main_pidfile_write in Hw. destruct (WITH_PIDFILE o).
    - injection Hw as _ <-. split; reflexivity.
    - injection Hw as _ <-. rewrite app_nil_r. split; reflexivity. }
  destruct u2, u3.
  destruct (main_from_service_init_cases o pfh wa) as
    [t [w2 [C2 [T2 [P2 [[Hh _] | [Hr _]]]]]]].
  - rewrite (bind_returns _ _ _ _ _ Hs), Hl in Hh. discriminate.
  - rewrite (bind_returns _ _ _ _ _ Hs), Hl in Hr.
    assert (w2 = w1) by congruence. subst w2.
    exists w0, t. splits.
    + exact Hd.
    + congruence.
    + exact P2.
    + rewrite T2, Ta, Ca, C0, <- !app_assoc. reflexivity.
    + apply grows_trans with w0;
        [apply (grows_weaken _ _ _ _ running_of_setup G0)|].
      split; [congruence|].
      eexists. split; [rewrite T2, Ta, <- app_assoc; reflexivity|].
      rewrite !forallb_app.
      rewrite (proj2 (forallb_forall _ _)
                 (fun e He => running_of_loop e (proj1 (forallb_forall _ _) P2 e He))).
      destruct (WITH_PIDFILE o); reflexivity.
Qed.

(** *** Shutdown *)

(** C1.  Once [g_main_loop_run] has come back, [main] ends the process with
    EXIT_SUCCESS after exactly these entries, in this order:
    [connections_fini], [unlink] of the socket path, the store of
    BB_RUN_EXIT, the configured power call, [bb_dbus_fini], [bb_closelog],
    [pidfile_remove] (in a pidfile build), [bb_stop_all], and [close] of
    [x_err_fd] (when it is not -1, after which it is -1).  None of them was
    traced before, and the sequence is the same whatever [unlink],
    [pidfile_remove] and [close] answer. *)
Theorem shutdown_runs_once_in_order (o : oracle) (st : bb_status_t)
    (cfg : bb_config_t) (gid mask : Z) (pfh : option pidfh) (w1 : world) :
  main_until_loop_returns o (boot st cfg gid mask) = (Ret pfh, w1) ->
  exists w2,
    main o (boot st cfg gid mask) = (Halt EXIT_SUCCESS, w2) /\
    calls is_shutdown_step (trace w1) = 0%nat /\
    trace w2 = trace w1
      ++ [E_connections_fini;
          E_unlink (socket_path cfg) (o_unlink o);
          E_set_runmode BB_RUN_EXIT;
          final_power_call cfg;
          E_bb_dbus_fini;
          E_bb_closelog]
      ++ (if WITH_PIDFILE o then [E_pidfile_remove pfh (o_pidfile_remove o)] else [])
      ++ [E_bb_stop_all]
      ++ (if x_err_fd (bb_status w1) =? -1 then []
          else [E_close (x_err_fd (bb_status w1)) (o_close o)]) /\
    (WITH_PIDFILE o = true -> x_err_fd (bb_status w1) <> -1 ->
     trace w2 = trace w1
       ++ [E_connections_fini;
           E_unlink (socket_path cfg) (o_unlink o);
           E_set_runmode BB_RUN_EXIT;
           final_power_call cfg;
           E_bb_dbus_fini;
           E_bb_closelog;
           E_pidfile_remove pfh (o_pidfile_remove o);
           E_bb_stop_all;
           E_close (x_err_fd (bb_status w1)) (o_close o)]) /\
    runmode (bb_status w2) = BB_RUN_EXIT /\
    x_err_fd (bb_status w2) = -1.
Proof.
  intros H.
  rewrite (main_past_loop _ _ _ _ H), main_shutdown_runs.
  destruct (main_until_loop_returns_inv _ _ _ _ H) as [w0 [t [_ [C [_ [_ G]]]]]].
  change (bb_config (boot st cfg gid mask)) with cfg in C.
  eexists. splits; [reflexivity| | | |reflexivity|reflexivity].
  - exact (grows_calls _ _ _ _ running_is_not_shutdown G).
  - cbn. unfold shutdown_steps. rewrite C. reflexivity.
  - intros Hw Hx. cbn. unfold shutdown_steps. rewrite C, Hw.
    apply Z.eqb_neq in Hx. rewrite Hx. reflexivity.
Qed.

Lemma shutdown_runs_once_in_order_witness :
  exists w2,
    main sample_oracle sample_boot = (Halt EXIT_SUCCESS, w2) /\
    runmode (bb_status w2) = BB_RUN_EXIT /\
    x_err_fd (bb_status w2) = -1.
Proof.
  destruct (shutdown_runs_once_in_order sample_oracle sample_status sample_config
              0 18 (Some 77)
              (snd (main_until_loop_returns sample_oracle sample_boot)))
    as [w2 [Hm [_ [_ [_ [Hr Hx]]]]]].
  - vm_compute. reflexivity.
  - exists w2. splits; assumption.
Defined.

(** C2.  In a run whose loop came back, the entries traced after the loop
    hold exactly one power call, and it is the configured one:
    [start_secondary] for POWER_ON (and any other non-zero value),
    [stop_secondary] for POWER_OFF. *)
Theorem final_power_call_matches_policy (o : oracle) (st : bb_status_t)
    (cfg : bb_config_t) (gid mask : Z) (pfh : option pidfh) (w1 : world) :
  main_until_loop_returns o (boot st cfg gid mask) = (Ret pfh, w1) ->
  exists t,
    fst (main o (boot st cfg gid mask)) = Halt EXIT_SUCCESS /\
    trace (snd (main o (boot st cfg gid mask))) = trace w1 ++ t /\
    filter is_power_call t = [final_power_call cfg] /\
    (card_shutdown_state cfg = POWER_ON -> filter is_power_call t = [E_start_secondary]) /\
    (card_shutdown_state cfg <> POWER_OFF -> filter is_power_call t = [E_start_secondary]) /\
    (card_shutdown_state cfg = POWER_OFF -> filter is_power_call t = [E_stop_secondary]).
Proof.
  intros H.
  rewrite (main_past_loop _ _ _ _ H), main_shutdown_runs.
  destruct (main_until_loop_returns_inv _ _ _ _ H) as [w0 [t [_ [C _]]]].
  change (bb_config (boot st cfg gid mask)) with cfg in C.
  exists (shutdown_steps o pfh w1). cbn [fst snd].
  assert (filter is_power_call (shutdown_steps o pfh w1) = [final_power_call cfg]) as F.
  { unfold shutdown_steps, final_power_call. rewrite C.
    destruct (card_shutdown_state cfg =? 0), (WITH_PIDFILE o),
      (x_err_fd (bb_status w1) =? -1); reflexivity. }
  splits; [reflexivity|reflexivity|exact F| | |].
  - intros Hon. rewrite F. unfold final_power_call. rewrite Hon. reflexivity.
  - intros Hnz. rewrite F. unfold final_power_call.
    apply Z.eqb_neq in Hnz. unfold POWER_OFF in Hnz. rewrite Hnz. reflexivity.
  - intros Hoff. rewrite F. unfold final_power_call. rewrite Hoff. reflexivity.
Qed.

Lemma final_power_call_matches_policy_witness :
  exists t,
    trace (snd (main sample_oracle sample_boot))
      = trace (snd (main_until_loop_returns sample_oracle sample_boot)) ++ t /\
    filter is_power_call t = [E_stop_secondary].
Proof.
  destruct (final_power_call_matches_policy sample_oracle sample_status
              sample_config 0 18 (Some 77)
              (snd (main_until_loop_returns sample_oracle sample_boot)))
    as [t [_ [Ht [_ [_ [_ Hoff]]]]]].
  - vm_compute. reflexivity.
  - exists t. split; [exact Ht|]. apply Hoff. reflexivity.
Defined.

(** *** Daemonization *)



(** *** The pidfile past its acquisition *)

(** In a pidfile build, the four ways [main] can go on from the group
    change: a fatal error, with [bb_closelog] and [pidfile_remove] as its
    last two calls; the parent of a successful fork, leaving right after
    [fork]; a loop that never comes back; a clean shutdown. *)
Lemma main_from_chgid_cases (o : oracle) (pfh : option pidfh) (w : world) :
  WITH_PIDFILE o = true ->
  exists t w',
    trace w' = trace w ++ t /\
    ((main_from_chgid o pfh w = (Halt EXIT_FAILURE, w') /\
      (chgid_fatal o w \/ daemonize_fatal o w) /\
      exists t0, t = t0 ++ [E_bb_closelog; E_pidfile_remove pfh (o_pidfile_remove o)] /\
                 calls is_pidfile_remove t0 = 0%nat)
     \/
     (main_from_chgid o pfh w = (Halt EXIT_SUCCESS, w') /\
      ~ (chgid_fatal o w \/ daemonize_fatal o w) /\
      runmode (bb_status w) = BB_RUN_DAEMON /\ 0 < o_fork o /\
      calls is_pidfile_remove t = 0%nat /\
      exists t0, t = t0 ++ [E_fork])
     \/
     (main_from_chgid o pfh w = (Hang, w') /\
      ~ (chgid_fatal o w \/ daemonize_fatal o w) /\
      calls is_pidfile_remove t = 0%nat)
     \/
     (main_from_chgid o pfh w = (Halt EXIT_SUCCESS, w') /\
      ~ (chgid_fatal o w \/ daemonize_fatal o w) /\
      calls is_pidfile_remove t = 1%nat /\
      In (E_pidfile_remove pfh (o_pidfile_remove o)) t /\
      In E_bb_stop_all t)).
Proof.
  intros Hwith. unfold main_from_chgid.
  destruct (main_chgid_cases o pfh w) as
    [[wa [Ec [Hgid [Sa Ga]]]] | [w1 [w' [Ec [Hset [Hc [G1 T1]]]]]]].
  2: { (* the group change fails *)
    rewrite (bind_halts _ _ _ _ _ Ec). rewrite Hwith in T1.
    destruct G1 as [_ [t1 [Tt1 P1]]].
    exists (t1 ++ [E_bb_closelog; E_pidfile_remove pfh (o_pidfile_remove o)]), w'.
    split; [rewrite T1, Tt1, <- app_assoc; reflexivity|].
    left. splits; [reflexivity| |].
    - left. split; [assumption|]. rewrite Hc. reflexivity.
    - exists t1. split; [reflexivity|].
      apply calls_none. rewrite forallb_forall in *. intros e He.
      rewrite (setup_is_not_pidfile_remove e (P1 e He)). reflexivity. }
  rewrite (bind_returns _ _ _ _ _ Ec). unfold main_from_daemonize.
  assert (~ chgid_fatal o w) as Hnc.
  { intros [Hs Hf]. destruct Hgid as [Hg|Hg]; [congruence|].
    rewrite Hg in Hf. inversion Hf. }
  pose proof Ga as [_ [ta [Tta Pa]]].
  assert (calls is_pidfile_remove ta = 0%nat) as Za.
  { apply calls_none. rewrite forallb_forall in *. intros e He.
    rewrite (setup_is_not_pidfile_remove e (Pa e He)). reflexivity. }
  destruct (main_daemonize_cases o pfh wa) as
    [[wb [Ed [Hdz [Sb Gb]]]] |
     [[Hmode [Hfail [w1 [w' [Ed [G1 T1]]]]]] | [Hmode [Hpos Ed]]]].
  - (* on to the service initialiser *)
    rewrite (bind_returns _ _ _ _ _ Ed).
    assert (~ (chgid_fatal o w \/ daemonize_fatal o w)) as Hnf.
    { intros [H|[_ [Hm Hf]]]; [contradiction|].
      rewrite <- Sa in Hm. unfold daemonize_fails in Hf.
      destruct Hdz as [Hdz|Hdz]; [contradiction|lia]. }
    pose proof Gb as [_ [tb [Ttb Pb]]].
    assert (calls is_pidfile_remove tb = 0%nat) as Zb.
    { apply calls_none. rewrite forallb_forall in *. intros e He.
      rewrite (setup_is_not_pidfile_remove e (Pb e He)). reflexivity. }
    unfold main_pidfile_write. rewrite Hwith.
    assert (pidfile_write pfh wb = (Ret tt, record (E_pidfile_write pfh) wb)) as Ew
      by reflexivity.
    rewrite (bind_returns _ _ _ _ _ Ew).
    destruct (main_from_service_init_cases o pfh (record (E_pidfile_write pfh) wb))
      as [tl [w2 [_ [T2 [Pl [[_ Eh] | [_ Eh]]]]]]]; rewrite Eh;
      cbn [record with_trace trace bb_config] in T2;
      match type of T2 with _ = _ ++ ?l ++ _ => set (ti := l) in * end;
      assert (calls is_pidfile_remove ti = 0%nat) as Zi by reflexivity;
      assert (calls is_pidfile_remove tl = 0%nat) as Zl
        by (apply calls_none; rewrite forallb_forall in *; intros e He;
            rewrite (loop_is_not_pidfile_remove e (Pl e He)); reflexivity);
      clearbody ti.
    + exists (ta ++ tb ++ [E_pidfile_write pfh] ++ ti ++ tl), w2. split.
      { rewrite T2, Ttb, Tta, <- !app_assoc. reflexivity. }
      right; right; left. splits; [reflexivity|assumption|].
      rewrite !calls_app, Za, Zb, Zi, Zl. reflexivity.
    + exists (ta ++ tb ++ [E_pidfile_write pfh] ++ ti ++ tl ++ shutdown_steps o pfh w2).
      exists (with_status (fun s => set_x_err_fd (-1) (set_runmode BB_RUN_EXIT s))
                (with_trace (trace w2 ++ shutdown_steps o pfh w2) w2)).
      split.
      { cbn [with_status with_trace trace]. rewrite T2, Ttb, Tta.
        rewrite <- !app_assoc. reflexivity. }
      right; right; right. splits; [reflexivity|assumption| | |].
      * rewrite !calls_app, Za, Zb, Zi, Zl.
        unfold shutdown_steps. rewrite Hwith.
        unfold final_power_call.
        destruct (card_shutdown_state (bb_config w2) =? 0),
          (x_err_fd (bb_status w2) =? -1); reflexivity.
      * rewrite !in_app_iff. do 5 right.
        unfold shutdown_steps. rewrite Hwith. rewrite !in_app_iff.
        right; left. left. reflexivity.
      * rewrite !in_app_iff. do 5 right.
        unfold shutdown_steps. rewrite !in_app_iff.
        right; right; left. left. reflexivity.
  - (* [daemonize] fails *)
    rewrite (bind_halts _ _ _ _ _ Ed). rewrite Hwith in T1.
    destruct G1 as [_ [t1 [Tt1 P1]]].
    exists (ta ++ t1 ++ [E_bb_closelog; E_pidfile_remove pfh (o_pidfile_remove o)]), w'.
    split; [rewrite T1, Tt1, Tta, <- !app_assoc; reflexivity|].
    left. splits; [reflexivity| |].
    + right. unfold daemonize_fatal.
      splits; [assumption|rewrite <- Sa; assumption|assumption].
    + exists (ta ++ t1). split; [rewrite <- app_assoc; reflexivity|].
      rewrite calls_app, Za.
      apply calls_none. rewrite forallb_forall in *. intros e He.
      rewrite (setup_is_not_pidfile_remove e (P1 e He)). reflexivity.
  - (* the parent of the fork *)
    rewrite (bind_halts _ _ _ _ _ Ed).
    exists (ta ++ [E_bb_log LOG_NOTICE Msg_started; E_fork]).
    exists (with_trace (trace wa ++ [E_bb_log LOG_NOTICE Msg_started; E_fork]) wa).
    split; [cbn [with_trace trace]; rewrite Tta, <- app_assoc; reflexivity|].
    right; left. splits; [reflexivity| |rewrite <- Sa; assumption|assumption| |].
    + intros [H|[_ [_ Hf]]]; [contradiction|]. unfold daemonize_fails in Hf. lia.
    + rewrite calls_app, Za. reflexivity.
    + exists (ta ++ [E_bb_log LOG_NOTICE Msg_started]).
      rewrite <- app_assoc. reflexivity.
Qed.

(** C9, amended.  In a pidfile build, past the pidfile stage:
    when the group change or the daemonization fails, [main] ends the
    process with EXIT_FAILURE, its last two calls being [bb_closelog] and
    [pidfile_remove] on the handle, the only [pidfile_remove] of the run;
    and whenever the process ends, [pidfile_remove] was called on the handle
    exactly once, except in the parent of a successful fork, which leaves
    with EXIT_SUCCESS right after [fork] and never calls it. *)
Theorem pidfile_released_past_acquisition (o : oracle) (w0 w : world)
    (pfh : option pidfh) :
  WITH_PIDFILE o = true ->
  main_until_locked o w0 = (Ret pfh, w) ->
  (chgid_fatal o w \/ daemonize_fatal o w ->
   exists t w',
     main o w0 = (Halt EXIT_FAILURE, w') /\
     EXIT_FAILURE <> 0 /\
     trace w' = trace w ++ t
       ++ [E_bb_closelog; E_pidfile_remove pfh (o_pidfile_remove o)] /\
     calls is_pidfile_remove t = 0%nat) /\
  (forall c w',
     main o w0 = (Halt c, w') ->
     exists t,
       trace w' = trace w ++ t /\
       (calls is_pidfile_remove t = 1%nat /\
        In (E_pidfile_remove pfh (o_pidfile_remove o)) t
        \/
        c = EXIT_SUCCESS /\
        runmode (bb_status w) = BB_RUN_DAEMON /\ 0 < o_fork o /\
        calls is_pidfile_remove t = 0%nat /\
        exists t0, t = t0 ++ [E_fork])).
Proof.
  intros Hwith Hreach. rewrite (main_past_lock _ _ _ _ Hreach).
  destruct (main_from_chgid_cases o pfh w Hwith) as
    [t [w1 [Ht [[E [Hf [t0 [Et0 Z0]]]] |
               [[E [Hnf [Hm [Hp [Z [t0 Et0]]]]]] |
                [[E [Hnf Z]] | [E [Hnf [Z [Hin _]]]]]]]]]];
    rewrite E; split.
  - intros _. exists t0, w1.
    splits; [reflexivity|discriminate|rewrite Ht, Et0; reflexivity|assumption].
  - intros c w' Hc. injection Hc as <- <-. exists t. split; [assumption|].
    left. rewrite Et0. split.
    + rewrite calls_app, Z0. reflexivity.
    + rewrite in_app_iff. right. right. left. reflexivity.
  - intros Hf. contradiction.
  - intros c w' Hc. injection Hc as <- <-. exists t. split; [assumption|].
    right. splits; [reflexivity|assumption|assumption|assumption|].
    exists t0. assumption.
  - intros Hf. contradiction.
  - intros c w' Hc. discriminate.
  - intros Hf. contradiction.
  - intros c w' Hc. injection Hc as <- <-. exists t. split; [assumption|].
    left. split; assumption.
Qed.

Lemma pidfile_released_past_acquisition_witness :
  (exists w', main oracle_fork_fails sample_boot = (Halt EXIT_FAILURE, w')) /\
  (exists t,
     trace (snd (main sample_oracle sample_boot))
       = trace (snd (main_until_locked sample_oracle sample_boot)) ++ t /\
     In (E_pidfile_remove (Some 77) 0) t).
Proof.
  assert (main_until_locked oracle_fork_fails sample_boot
          = (Ret (Some 77), snd (main_until_locked oracle_fork_fails sample_boot)))
    as Hfail by (vm_compute; reflexivity).
  assert (main_until_locked sample_oracle sample_boot
          = (Ret (Some 77), snd (main_until_locked sample_oracle sample_boot)))
    as Hgood by (vm_compute; reflexivity).
  split.
  - destruct (proj1 (pidfile_released_past_acquisition oracle_fork_fails
                       sample_boot _ (Some 77) eq_refl Hfail))
      as [t [w' [Hm _]]].
    + right. unfold daemonize_fatal, daemonize_fails.
      splits; [right; vm_compute; reflexivity|vm_compute; reflexivity
              |left; vm_compute; reflexivity].
    + exists w'. exact Hm.
  - destruct (proj2 (pidfile_released_past_acquisition sample_oracle
                       sample_boot _ (Some 77) eq_refl Hgood)
                EXIT_SUCCESS (snd (main sample_oracle sample_boot)))
      as [t [Ht [[_ Hin] | [_ [_ [Hp _]]]]]].
    + vm_compute. reflexivity.
    + exists t. split; [exact Ht|exact Hin].
    + vm_compute in Hp. discriminate Hp.
Defined.

(** C9, counterexample.  The process that forks in
    daemon mode holds the pidfile handle and leaves with EXIT_SUCCESS
    without any [pidfile_remove]. *)
Lemma parent_exit_keeps_pidfile :
  WITH_PIDFILE oracle_parent = true /\
  fst (main_until_locked oracle_parent sample_boot) = Ret (Some 77) /\
  fst (main oracle_parent sample_boot) = Halt EXIT_SUCCESS /\
  calls is_pidfile_remove (trace (snd (main oracle_parent sample_boot))) = 0%nat.
Proof.
  splits; vm_compute; reflexivity.
Qed.

(** C10.  In a pidfile build, every run that gets past [daemonize] calls
    [pidfile_write] exactly once, next, on the handle of the pidfile stage:
    NULL when no pidfile path is configured, the handle [pidfile_open] gave
    otherwise. *)
Theorem pidfile_write_called_once (o : oracle) (st : bb_status_t)
    (cfg : bb_config_t) (gid mask : Z) (pfh : option pidfh) (w1 : world) :
  WITH_PIDFILE o = true ->
  main_until_daemonized o (boot st cfg gid mask) = (Ret pfh, w1) ->
  calls is_pidfile_write (trace (snd (main o (boot st cfg gid mask)))) = 1%nat /\
  (exists t,
     trace (snd (main o (boot st cfg gid mask)))
       = trace w1 ++ E_pidfile_write pfh :: t /\
     calls is_pidfile_write (trace w1) = 0%nat /\
     calls is_pidfile_write t = 0%nat) /\
  (first_char_set (pid_file cfg) = false -> pfh = None) /\
  (first_char_set (pid_file cfg) = true ->
   exists h, o_pidfile_open o = pidfile_opened h /\ pfh = Some h).
Proof.
  intros Hwith Hreach.
  destruct (main_until_daemonized_returns _ _ _ _ Hreach) as [_ [G [Hnone Hsome]]].
  change (bb_config (boot st cfg gid mask)) with cfg in Hnone, Hsome.
  pose proof (grows_calls _ _ _ _ setup_is_not_pidfile_write G) as Z1.
  change (calls is_pidfile_write (trace (boot st cfg gid mask))) with 0%nat in Z1.
  assert (exists t,
     trace (snd (main o (boot st cfg gid mask)))
       = trace w1 ++ E_pidfile_write pfh :: t /\
     calls is_pidfile_write t = 0%nat) as [t [Ht Zt]].
  { rewrite (main_past_daemonize _ _ _ _ Hreach).
    unfold main_pidfile_write. rewrite Hwith.
    assert (pidfile_write pfh w1 = (Ret tt, record (E_pidfile_write pfh) w1)) as Ew
      by reflexivity.
    rewrite (bind_returns _ _ _ _ _ Ew).
    destruct (main_from_service_init_cases o pfh (record (E_pidfile_write pfh) w1))
      as [tl [w2 [_ [T2 [Pl [[_ Eh] | [_ Eh]]]]]]]; rewrite Eh;
      cbn [record with_trace trace bb_config] in T2;
      match type of T2 with _ = _ ++ ?l ++ _ => set (ti := l) in * end;
      assert (calls is_pidfile_write ti = 0%nat) as Zi by reflexivity;
      assert (calls is_pidfile_write tl = 0%nat) as Zl
        by (apply calls_none; rewrite forallb_forall in *; intros e He;
            rewrite (loop_is_not_pidfile_write e (Pl e He)); reflexivity);
      clearbody ti.
    - exists (ti ++ tl). cbn [snd]. split.
      + rewrite T2, <- app_assoc. reflexivity.
      + rewrite calls_app, Zi, Zl. reflexivity.
    - exists (ti ++ tl ++ shutdown_steps o pfh w2). cbn [snd]. split.
      + cbn [with_status with_trace trace]. rewrite T2, <- !app_assoc. reflexivity.
      + rewrite !calls_app, Zi, Zl. unfold shutdown_steps, final_power_call.
        destruct (card_shutdown_state (bb_config w2) =? 0), (WITH_PIDFILE o),
          (x_err_fd (bb_status w2) =? -1); reflexivity. }
  splits.
  - rewrite Ht, calls_app, Z1.
    change (E_pidfile_write pfh :: t) with ([E_pidfile_write pfh] ++ t).
    rewrite calls_app, Zt. reflexivity.
  - exists t. splits; assumption.
  - intros Hno. apply Hnone. right. exact Hno.
  - intros Hyes. exact (Hsome Hwith Hyes).
Qed.

Lemma pidfile_write_called_once_witness :
  calls is_pidfile_write (trace (snd (main sample_oracle sample_boot))) = 1%nat.
Proof.
  assert (main_until_daemonized sample_oracle sample_boot
          = (Ret (Some 77), snd (main_until_daemonized sample_oracle sample_boot)))
    as Hreach by (vm_compute; reflexivity).
  exact (proj1 (pidfile_write_called_once sample_oracle sample_status
                  sample_config 0 18 (Some 77) _ eq_refl Hreach)).
Defined.

(** ** Beyond the claims *)

(** *** The option parser *)

(** Runs the [switch] on each comparison. *)
Ltac switch_cases :=
  repeat match goal with
  | |- context [?a =? ?b] => destruct (Z.eqb_spec a b)
  | |- context [WITH_PIDFILE ?o] => destruct (WITH_PIDFILE o)
  end; cbn [andb fst snd] in *.

(** A case label is processed. *)
Lemma parse_options_on_label (o : oracle) (ids : option_ids)
    (store : option string -> option string -> string)
    (pm : option string -> Z) (opt : Z) (value : option string)
    (g : world * bb_config_more) :
  In opt (case_labels o ids) ->
  fst (bbconfig_parse_options o ids store pm opt value g) = 1.
Proof.
  unfold bbconfig_parse_options, case_labels.
  switch_cases; cbn [In app]; intuition (try congruence; try lia).
Qed.

(** X1.  [bbconfig_parse_options] answers 1 exactly for the case labels of
    its [switch] (the pidfile label only in a pidfile build) and 0 for
    everything else; when it answers 0 it has changed nothing. *)
Theorem parse_options_result (o : oracle) (ids : option_ids)
    (store : option string -> option string -> string)
    (pm : option string -> Z) (opt : Z) (value : option string)
    (g : world * bb_config_more) :
  let r := bbconfig_parse_options o ids store pm opt value g in
  (fst r = 1 \/ fst r = 0) /\
  (fst r = 1 <-> In opt (case_labels o ids)) /\
  (fst r = 0 -> snd r = g).
Proof.
  cbv zeta. unfold bbconfig_parse_options, case_labels.
  switch_cases; cbn [In app]; intuition (try congruence; try lia).
Qed.

Lemma parse_options_result_witness :
  snd (bbconfig_parse_options sample_oracle sample_ids sample_store
         (fun _ => 0) (char_code "z") None (sample_boot, sample_more))
  = (sample_boot, sample_more).
Proof.
  apply (proj2 (proj2 (parse_options_result sample_oracle sample_ids sample_store
                         (fun _ => 0) (char_code "z") None
                         (sample_boot, sample_more)))).
  vm_compute. reflexivity.
Defined.

(** X2.  Every option the daemon declares is one it processes: each entry
    of its own part of the long-option table, and each letter of its own
    part of the short-option string, makes [bbconfig_parse_options] answer 1;
    an entry declared without argument is processed without looking at the
    argument; and every letter has a long form that agrees with it on taking
    an argument. *)
Theorem declared_options_are_processed (o : oracle) (ids : option_ids)
    (store : option string -> option string -> string)
    (pm : option string -> Z) (g : world * bb_config_more) :
  (forall e value,
     In e (bbconfig_get_lopts o ids []) ->
     fst (bbconfig_parse_options o ids store pm (opt_val e) value g) = 1 /\
     (has_arg e = 0 ->
      forall value',
        bbconfig_parse_options o ids store pm (opt_val e) value' g
        = bbconfig_parse_options o ids store pm (opt_val e) value g)) /\
  (forall c takes value,
     short_has_arg (bbconfig_get_optstr EmptyString) c = Some takes ->
     fst (bbconfig_parse_options o ids store pm (char_code c) value g) = 1 /\
     exists e,
       In e (bbconfig_get_lopts o ids []) /\
       opt_val e = char_code c /\
       has_arg e = (if takes then 1 else 0)).
Proof.
  split.
  - intros e value He.
    assert (In (opt_val e) (case_labels o ids)) as Hl.
    { unfold bbconfig_get_lopts, case_labels in *.
      destruct (WITH_PIDFILE o); cbn [In app] in *;
        intuition (subst; cbn; tauto). }
    split.
    + apply parse_options_on_label. exact Hl.
    + intros Hno value'.
      unfold bbconfig_get_lopts in He.
      destruct (WITH_PIDFILE o); cbn [In app] in He;
        intuition (subst; try discriminate);
        unfold bbconfig_parse_options; cbn [opt_val];
        switch_cases; try reflexivity; try congruence.
  - intros c takes value Hc.
    unfold short_has_arg, bbconfig_get_optstr in Hc. cbn [String.append] in Hc.
    destruct (Ascii.eqb c ":") eqn:Hcolon; [discriminate|].
    cbn [optstr_lookup] in Hc.
    repeat match type of Hc with
    | context [Ascii.eqb ?a c] =>
        destruct (Ascii.eqb_spec a c) as [<-|?]; [injection Hc as <-|]
    end; try discriminate;
    (split;
     [ apply parse_options_on_label; unfold case_labels; cbn; tauto
     | unfold bbconfig_get_lopts; cbn [In app];
       first [ eexists; split; [left; reflexivity|split; reflexivity]
             | eexists; split; [right; left; reflexivity|split; reflexivity]
             | eexists; split; [right; right; left; reflexivity|split; reflexivity]
             | eexists; split;
               [right; right; right; left; reflexivity|split; reflexivity]
             | eexists; split;
               [right; right; right; right; left; reflexivity|split; reflexivity] ] ]).
Qed.

Lemma declared_options_are_processed_witness :
  fst (bbconfig_parse_options sample_oracle sample_ids sample_store (fun _ => 0)
         (char_code "g") (Some "video") (sample_boot, sample_more)) = 1 /\
  fst (bbconfig_parse_options sample_oracle sample_ids sample_store (fun _ => 0)
         (char_code "D") None (sample_boot, sample_more)) = 1.
Proof.
  destruct (declared_options_are_processed sample_oracle sample_ids sample_store
              (fun _ => 0) (sample_boot, sample_more)) as [Hlong Hshort].
  split.
  - apply (Hlong (mk_option "group" 1 (char_code "g")) (Some "video")).
    vm_compute. tauto.
  - apply (Hshort "D"%char false None). reflexivity.
Defined.

(** X3.  Daemon mode is entered through -D and nothing else: every other
    option leaves [runmode] as it was, and -D (its label differing from
    OPT_USE_SYSLOG, as the [switch] needs) stores BB_RUN_DAEMON and changes
    nothing else. *)
Theorem daemon_mode_only_through_D (o : oracle) (ids : option_ids)
    (store : option string -> option string -> string)
    (pm : option string -> Z) (opt : Z) (value : option string)
    (w : world) (m : bb_config_more) :
  (opt <> char_code "D" ->
   runmode (bb_status (fst (snd (bbconfig_parse_options o ids store pm opt value (w, m)))))
   = runmode (bb_status w)) /\
  (OPT_USE_SYSLOG ids <> char_code "D" ->
   bbconfig_parse_options o ids store pm (char_code "D") value (w, m)
   = (1, (with_status (set_runmode BB_RUN_DAEMON) w, m))).
Proof.
  split.
  - intros Hopt. unfold bbconfig_parse_options.
    switch_cases; try reflexivity. contradiction.
  - intros Hd. unfold bbconfig_parse_options.
    destruct (Z.eqb_spec (char_code "D") (OPT_USE_SYSLOG ids)); [congruence|].
    reflexivity.
Qed.

Lemma daemon_mode_only_through_D_witness :
  runmode (bb_status (fst (snd (bbconfig_parse_options sample_oracle sample_ids
     sample_store (fun _ => 0) (char_code "x") (Some "/etc/xorg.conf")
     (boot (mk_status BB_RUN_SERVER (-1) (-1)) sample_config 0 18, sample_more)))))
  = BB_RUN_SERVER /\
  runmode (bb_status (fst (snd (bbconfig_parse_options sample_oracle sample_ids
     sample_store (fun _ => 0) (char_code "D") None
     (boot (mk_status BB_RUN_SERVER (-1) (-1)) sample_config 0 18, sample_more)))))
  = BB_RUN_DAEMON.
Proof.
  split.
  - apply (proj1 (daemon_mode_only_through_D sample_oracle sample_ids sample_store
                    (fun _ => 0) (char_code "x") (Some "/etc/xorg.conf")
                    (boot (mk_status BB_RUN_SERVER (-1) (-1)) sample_config 0 18)
                    sample_more)).
    discriminate.
  - rewrite (proj2 (daemon_mode_only_through_D sample_oracle sample_ids sample_store
                      (fun _ => 0) 0 None
                      (boot (mk_status BB_RUN_SERVER (-1) (-1)) sample_config 0 18)
                      sample_more)); [reflexivity|discriminate].
Defined.

(** X4.  Whatever the option, [bbconfig_parse_options] leaves alone the
    trace (it calls nothing that [main] calls), the control socket,
    [x_err_fd], the socket path, the shutdown policy, and every part of the
    world outside [bb_status] and [bb_config]. *)
Theorem parse_options_frame (o : oracle) (ids : option_ids)
    (store : option string -> option string -> string)
    (pm : option string -> Z) (opt : Z) (value : option string)
    (w : world) (m : bb_config_more) :
  let w' := fst (snd (bbconfig_parse_options o ids store pm opt value (w, m))) in
  trace w' = trace w /\
  bb_socket (bb_status w') = bb_socket (bb_status w) /\
  x_err_fd (bb_status w') = x_err_fd (bb_status w) /\
  socket_path (bb_config w') = socket_path (bb_config w) /\
  card_shutdown_state (bb_config w') = card_shutdown_state (bb_config w) /\
  pci_bus_id_discrete w' = pci_bus_id_discrete w /\
  sigpipes w' = sigpipes w /\
  errno w' = errno w /\
  proc_gid w' = proc_gid w /\
  proc_umask w' = proc_umask w.
Proof.
  cbv zeta. unfold bbconfig_parse_options.
  switch_cases; splits; reflexivity.
Qed.

(** X5.  The pidfile path is set by the pidfile option of a pidfile build
    and by nothing else: in a build without pidfile support no option
    changes [pid_file], in any build no other option does, and in a pidfile
    build (the labels of the [switch] pairwise distinct) OPT_PIDFILE stores
    what [set_string_value] makes of its argument and changes nothing
    else. *)
Theorem pid_file_only_through_pidfile_option (o : oracle) (ids : option_ids)
    (store : option string -> option string -> string)
    (pm : option string -> Z) (opt : Z) (value : option string)
    (w : world) (m : bb_config_more) :
  (WITH_PIDFILE o = false \/ opt <> OPT_PIDFILE ids ->
   pid_file (bb_config (fst (snd (bbconfig_parse_options o ids store pm opt value (w, m)))))
   = pid_file (bb_config w)) /\
  (WITH_PIDFILE o = true -> NoDup (case_labels o ids) ->
   bbconfig_parse_options o ids store pm (OPT_PIDFILE ids) value (w, m)
   = (1, (with_config
            (set_pid_file (store (Some (pid_file (bb_config w))) value)) w, m))).
Proof.
  split.
  - intros H. unfold bbconfig_parse_options.
    destruct (WITH_PIDFILE o) eqn:Hw.
    + destruct H as [H|H]; [discriminate|].
      switch_cases; try reflexivity. contradiction.
    + switch_cases; reflexivity.
  - intros Hw Hnd. unfold bbconfig_parse_options, case_labels in *.
    rewrite Hw in *. cbn [app] in Hnd.
    assert (forall x, In x [OPT_USE_SYSLOG ids; char_code "D"; char_code "x";
                            char_code "g"; char_code "m"; OPT_DRIVER ids;
                            char_code "k"; OPT_PM_METHOD ids] ->
                      OPT_PIDFILE ids <> x) as Hne.
    { intros x Hx Heq. subst x.
      repeat match goal with
      | H : NoDup (_ :: _) |- _ => inversion H; subst; clear H
      end.
      cbn [In] in *. intuition congruence. }
    cbn [In] in Hne.
    switch_cases; try reflexivity;
      exfalso; match goal with
      | E : OPT_PIDFILE ids = ?x |- _ => apply (Hne x); [tauto|exact E]
      | E : OPT_PIDFILE ids <> OPT_PIDFILE ids |- _ => apply E; reflexivity
      end.
Qed.

Lemma pid_file_only_through_pidfile_option_witness :
  pid_file (bb_config (fst (snd (bbconfig_parse_options sample_oracle sample_ids
     sample_store (fun _ => 0) (char_code "g") (Some "video")
     (sample_boot, sample_more)))))
  = "/var/run/bumblebeed.pid" /\
  pid_file (bb_config (fst (snd (bbconfig_parse_options sample_oracle sample_ids
     sample_store (fun _ => 0) (OPT_PIDFILE sample_ids) (Some "/run/bb.pid")
     (sample_boot, sample_more)))))
  = "/run/bb.pid".
Proof.
  split.
  - apply (proj1 (pid_file_only_through_pidfile_option sample_oracle sample_ids
                    sample_store (fun _ => 0) (char_code "g") (Some "video")
                    sample_boot sample_more)).
    right. discriminate.
  - rewrite (proj2 (pid_file_only_through_pidfile_option sample_oracle sample_ids
                      sample_store (fun _ => 0) 0 (Some "/run/bb.pid")
                      sample_boot sample_more)).
    + reflexivity.
    + reflexivity.
    + vm_compute. repeat constructor; cbn; intuition discriminate.
Defined.

(** *** The signal handler, for every signal *)

(** X6.  For every signal number, [handle_signal] comes back; it leaves the
    control socket closed if the signal is INT, QUIT or TERM and as it was
    otherwise; it adds one call of [bb_run_stopwaiting] for TERM and none
    otherwise; it moves the SIGPIPE counter for SIGPIPE only; and it never
    touches the run mode, [x_err_fd], the configuration, [errno], the
    process group, the mask or the recorded card. *)
Theorem handle_signal_any (sig : Z) (w : world) :
  let w' := snd (handle_signal sig w) in
  fst (handle_signal sig w) = Ret tt /\
  bb_socket (bb_status w')
    = (if is_termination_signal sig then -1 else bb_socket (bb_status w)) /\
  calls is_stopwaiting (trace w')
    = (calls is_stopwaiting (trace w) + (if (sig =? SIGTERM)%Z then 1 else 0))%nat /\
  (sig <> SIGPIPE -> sigpipes w' = sigpipes w) /\
  runmode (bb_status w') = runmode (bb_status w) /\
  x_err_fd (bb_status w') = x_err_fd (bb_status w) /\
  bb_config w' = bb_config w /\
  errno w' = errno w /\
  proc_gid w' = proc_gid w /\
  proc_umask w' = proc_umask w /\
  pci_bus_id_discrete w' = pci_bus_id_discrete w.
Proof.
  cbv zeta. unfold handle_signal, is_termination_signal.
  destruct (Z.eqb_spec sig SIGHUP) as [->|Hh]; [step; splits; try reflexivity; count|].
  destruct (Z.eqb_spec sig SIGPIPE) as [->|Hp].
  { step. destruct (sigpipes w <=? 10); step; splits;
      try reflexivity; try count; intros H; contradiction. }
  destruct (Z.eqb_spec sig SIGINT) as [->|Hi]; [step; splits; try reflexivity; count|].
  destruct (Z.eqb_spec sig SIGQUIT) as [->|Hq]; [step; splits; try reflexivity; count|].
  destruct (Z.eqb_spec sig SIGTERM) as [->|Ht]; step; splits; try reflexivity; count.
Qed.

Lemma handle_signal_any_witness :
  sigpipes (snd (handle_signal SIGTERM sample_boot)) = 0.
Proof.
  destruct (handle_signal_any SIGTERM sample_boot) as [_ [_ [_ [Hs _]]]].
  rewrite (Hs ltac:(discriminate)). reflexivity.
Defined.

(** X7.  Whatever signals arrive after process start, in whatever order,
    the SIGPIPE counter is the number of SIGPIPEs so far capped at 11, the
    SIGPIPE log lines are as many as the counter says, and the counter never
    goes down again. *)
Theorem sigpipe_counter_saturates (sigs more : list Z) (st : bb_status_t)
    (cfg : bb_config_t) (gid mask : Z) :
  let w := deliver sigs (boot st cfg gid mask) in
  sigpipes w = Z.min 11 (Z.of_nat (count_occ Z.eq_dec sigs SIGPIPE)) /\
  Z.of_nat (calls is_sigpipe_log (trace w)) = sigpipes w /\
  sigpipes w <= sigpipes (deliver more w) <= 11.
Proof.
  cbv zeta.
  destruct (deliver_sigpipes sigs (boot st cfg gid mask)) as [H1 H2]; [cbn; lia|].
  cbn [boot sigpipes trace] in H1, H2.
  change (calls is_sigpipe_log []) with 0%nat in H2.
  assert (0 <= sigpipes (deliver sigs (boot st cfg gid mask)) <= 11) as Hb by lia.
  destruct (deliver_sigpipes more _ Hb) as [H3 _].
  splits; lia.
Qed.

(** *** Detaching *)

(** [daemonize], call by call. *)
Lemma daemonize_calls (o : oracle) (w : world) :
  exists t rest,
    trace (snd (daemonize o w)) = trace w ++ t /\
    detach_calls (fst (o_open_devnull o))
      = filter (fun e => negb (is_bb_log e)) t ++ rest /\
    (fst (daemonize o w) = Ret EXIT_FAILURE -> calls is_bb_log t = 1%nat) /\
    (fst (daemonize o w) <> Ret EXIT_FAILURE -> calls is_bb_log t = 0%nat) /\
    bb_status (snd (daemonize o w)) = bb_status w /\
    bb_config (snd (daemonize o w)) = bb_config w /\
    forallb (is_daemonize_event false) t = true /\
    calls is_fork t = 1%nat /\
    calls is_service_call t = 0%nat.
Proof.
  cbv zeta. unfold daemonize, fork, setsid, chdir, open, answered, detach_calls.
  step.
  destruct (Z.ltb_spec (o_fork o) 0) as [Hf|Hf]; step.
  { eexists; eexists. splits;
      [rewrite <- ?app_assoc; reflexivity|reflexivity|reflexivity
      |intros H; exfalso; apply H; reflexivity|reflexivity|reflexivity|reflexivity|reflexivity|reflexivity]. }
  destruct (Z.gtb_spec (o_fork o) 0) as [Hp|Hp]; step.
  { eexists; eexists. splits;
      [reflexivity|reflexivity|discriminate|reflexivity|reflexivity|reflexivity|reflexivity|reflexivity|reflexivity]. }
  destruct (Z.ltb_spec (fst (o_setsid o)) 0) as [Hs|Hs]; step.
  { rewrite (proj2 (Z.ltb_lt _ _) Hs). step.
    eexists; eexists. splits;
      [rewrite <- ?app_assoc; reflexivity|reflexivity|reflexivity
      |intros H; exfalso; apply H; reflexivity|reflexivity|reflexivity|reflexivity|reflexivity|reflexivity]. }
  rewrite (proj2 (Z.ltb_ge _ _) Hs). step.
  destruct (Z.ltb_spec (fst (o_chdir o)) 0) as [Hc|Hc]; step.
  { rewrite (proj2 (Z.ltb_lt _ _) Hc). step.
    eexists; eexists. splits;
      [rewrite <- ?app_assoc; reflexivity|reflexivity|reflexivity
      |intros H; exfalso; apply H; reflexivity|reflexivity|reflexivity|reflexivity|reflexivity|reflexivity]. }
  rewrite (proj2 (Z.ltb_ge _ _) Hc). step.
  destruct (Z.ltb_spec (fst (o_open_devnull o)) 0) as [Hd|Hd]; step.
  { rewrite (proj2 (Z.ltb_lt _ _) Hd). step.
    eexists; eexists. splits;
      [rewrite <- ?app_assoc; reflexivity|reflexivity|reflexivity
      |intros H; exfalso; apply H; reflexivity|reflexivity|reflexivity|reflexivity|reflexivity|reflexivity]. }
  rewrite (proj2 (Z.ltb_ge _ _) Hd). step.
  eexists; eexists. splits;
    [rewrite <- ?app_assoc; reflexivity|cbn; reflexivity
    |discriminate|reflexivity|reflexivity|reflexivity|reflexivity|reflexivity|reflexivity].
Qed.

(** X8.  Whatever [fork], [setsid], [chdir] and [open] answer, the calls
    [daemonize] makes, its log lines left out, are an initial part of the
    fixed sequence fork, setsid, chdir "/", open "/dev/null", dup2 to 0, 1
    and 2: nothing is skipped and nothing is done out of order.  It logs
    exactly once when it answers EXIT_FAILURE and never otherwise, and it
    leaves [bb_status] and [bb_config] alone. *)
Theorem daemonize_call_order (o : oracle) (w : world) :
  let r := daemonize o w in
  exists t rest,
    trace (snd r) = trace w ++ t /\
    detach_calls (fst (o_open_devnull o))
      = filter (fun e => negb (is_bb_log e)) t ++ rest /\
    (fst r = Ret EXIT_FAILURE -> calls is_bb_log t = 1%nat) /\
    (fst r <> Ret EXIT_FAILURE -> calls is_bb_log t = 0%nat) /\
    bb_status (snd r) = bb_status w /\
    bb_config (snd r) = bb_config w.
Proof.
  cbv zeta.
  destruct (daemonize_calls o w) as [t [rest [Ht [Hr [H1 [H0 [Hs [Hc _]]]]]]]].
  exists t, rest. splits; assumption.
Qed.

Lemma daemonize_call_order_witness :
  exists t,
    trace (snd (daemonize oracle_fork_fails sample_boot)) = trace sample_boot ++ t /\
    calls is_bb_log t = 1%nat.
Proof.
  destruct (daemonize_call_order oracle_fork_fails sample_boot)
    as [t [rest [Ht [_ [Hlog _]]]]].
  exists t. split; [exact Ht|]. apply Hlog. reflexivity.
Defined.

(** *** [main], stage by stage *)

(** Closes [exists t, trace W = trace w ++ ... ++ t /\ ...], the remaining
    conjuncts being facts about [t] that hold by evaluation. *)
Ltac traced :=
  cbn; rewrite <- ?app_assoc; cbn; eexists; splits; reflexivity.

(** The first stage, whatever its outcome: the opening calls, then
    discovery calls only. *)
Lemma main_discovery_stage (o : oracle) (w : world) :
  exists t,
    trace (snd (main_discovery o w)) = trace w ++ opening_calls ++ t /\
    forallb is_discovery_event t = true.
Proof.
  destruct (main_discovery o w) as [r w'] eqn:Hm.
  unfold main_discovery, pci_find_gfx_by_vendor, config_validate in Hm.
  step in Hm. unfold opening_calls.
  destruct (o_pci_find_gfx_by_vendor o PCI_VENDOR_ID_NVIDIA) as [d|]; step in Hm.
  2: { injection Hm as <- <-. traced. }
  destruct (o_pci_find_gfx_by_vendor o PCI_VENDOR_ID_INTEL) as [i|]; step in Hm.
  2: { injection Hm as <- <-. traced. }
  destruct (o_bbconfig_parse_conf o); step in Hm;
    (destruct (Z.eqb_spec (o_config_validate o) 0) as [Hv|Hv]; step in Hm;
     injection Hm as <- <-; traced).
Qed.

(** The pidfile stage, whatever its outcome. *)
Lemma main_pidfile_open_stage (o : oracle) (w : world) :
  exists t,
    trace (snd (main_pidfile_open o w)) = trace w ++ t /\
    forallb is_lock_event t = true /\
    (WITH_PIDFILE o = false \/ first_char_set (pid_file (bb_config w)) = false ->
     t = []) /\
    calls is_service_call t = 0%nat /\
    ((fst (main_pidfile_open o w) = Halt EXIT_FAILURE /\ pidfile_fails o (bb_config w))
     \/
     ((exists pfh, fst (main_pidfile_open o w) = Ret pfh) /\
      ~ pidfile_fails o (bb_config w))).
Proof.
  destruct (main_pidfile_open o w) as [r w'] eqn:Hm.
  unfold main_pidfile_open, pidfile_open, pidfile_fails in *.
  destruct (WITH_PIDFILE o); step in Hm.
  2: { injection Hm as <- <-. exists []. rewrite app_nil_r.
       splits; try reflexivity. right. split; [eexists; reflexivity|].
       intros [H _]; discriminate. }
  destruct (first_char_set (pid_file (bb_config w))); step in Hm.
  2: { injection Hm as <- <-. exists []. rewrite app_nil_r.
       splits; try reflexivity. right. split; [eexists; reflexivity|].
       intros [_ [H _]]; discriminate. }
  destruct (o_pidfile_open o) as [h|err pid]; step in Hm.
  - injection Hm as <- <-. eexists.
    splits; [cbn; reflexivity|reflexivity| | |].
    + intros [H|H]; discriminate.
    + reflexivity.
    + right. split; [eexists; reflexivity|].
      intros [_ [_ [e [p H]]]]; discriminate.
  - destruct (err =? EEXIST); step in Hm; injection Hm as <- <-;
      (eexists; splits;
       [cbn; rewrite <- ?app_assoc; cbn; reflexivity|reflexivity
       |intros [H|H]; discriminate|reflexivity
       |left; splits; try reflexivity; eexists; eexists; reflexivity]).
Qed.

(** [bb_chgid] makes group calls and logs its three messages, nothing
    else; it fails exactly when the group is missing or [setgid] refuses. *)
Lemma bb_chgid_stage (o : oracle) (w : world) :
  (exists t,
     trace (snd (bb_chgid o w)) = trace w ++ t /\
     forallb (is_chgid_event false) t = true /\
     calls is_service_call t = 0%nat) /\
  (fst (bb_chgid o w) = Ret EXIT_FAILURE <->
   match o_getgrnam o (gid_name (bb_config w)) with
   | group_missing _ => True
   | group_found gr_gid => fst (o_setgid o gr_gid) <> 0
   end).
Proof.
  unfold bb_chgid, getgrnam, setgid. step.
  destruct (o_getgrnam o (gid_name (bb_config w))) as [gid|err]; step.
  - destruct (Z.eqb_spec (fst (o_setgid o gid)) 0) as [Hz|Hnz]; step.
    + split; [traced|]. split; [discriminate|contradiction].
    + apply Z.eqb_neq in Hnz. rewrite Hnz. step. apply Z.eqb_neq in Hnz.
      split; [traced|]. split; [intros _; assumption|reflexivity].
  - split; [traced|]. split; [intros _; exact I|reflexivity].
Qed.

Lemma chgid_event_any_build (pf : bool) (e : event) :
  is_chgid_event false e = true -> is_chgid_event pf e = true.
Proof.
  destruct e; cbn; try congruence.
Qed.

Lemma forallb_impl (p q : event -> bool) (t : list event) :
  (forall e, p e = true -> q e = true) ->
  forallb p t = true -> forallb q t = true.
Proof.
  intros H. rewrite !forallb_forall. auto.
Qed.

(** The group stage, whatever its outcome. *)
Lemma main_chgid_stage (o : oracle) (pfh : option pidfh) (w : world) :
  exists t,
    trace (snd (main_chgid o pfh w)) = trace w ++ t /\
    forallb (is_chgid_event (WITH_PIDFILE o)) t = true /\
    (gid_name_set (gid_name (bb_config w)) = false -> t = []) /\
    calls is_service_call t = 0%nat.
Proof.
  destruct (main_chgid o pfh w) as [r w'] eqn:Hm.
  unfold main_chgid in Hm. unfold bind at 1 in Hm. unfold get at 1 in Hm.
  cbv beta iota in Hm.
  destruct (gid_name_set (gid_name (bb_config w))) eqn:Hset.
  2: { injection Hm as <- <-. exists []. rewrite app_nil_r.
       splits; reflexivity. }
  pose proof (bb_chgid_answers o w) as Hres.
  destruct (bb_chgid_stage o w) as [[t [Ht [Hp Hs]]] _].
  destruct (bb_chgid o w) as [rc w1] eqn:Hc. cbn [fst snd] in *.
  pose proof (forallb_impl _ _ _ (chgid_event_any_build (WITH_PIDFILE o)) Hp) as Hp'.
  destruct Hres as [-> | ->]; rewrite (bind_returns _ _ _ _ _ Hc) in Hm;
    cbn in Hm.
  - injection Hm as <- <-. exists t. splits; [assumption|assumption|discriminate|assumption].
  - destruct (WITH_PIDFILE o); step in Hm; injection Hm as <- <-.
    + exists (t ++ [E_bb_closelog; E_pidfile_remove pfh (o_pidfile_remove o)]).
      cbn. rewrite Ht, <- !app_assoc. splits; [reflexivity| |discriminate|].
      * rewrite forallb_app, Hp'. reflexivity.
      * rewrite calls_app, Hs. reflexivity.
    + exists (t ++ [E_bb_closelog]).
      cbn. rewrite Ht, <- !app_assoc. splits; [reflexivity| |discriminate|].
      * rewrite forallb_app, Hp'. reflexivity.
      * rewrite calls_app, Hs. reflexivity.
Qed.

Lemma daemonize_event_any_build (pf : bool) (e : event) :
  is_daemonize_event false e = true -> is_daemonize_event pf e = true.
Proof.
  destruct e; cbn; try congruence.
Qed.

(** The detaching stage, whatever its outcome. *)
Lemma main_daemonize_stage (o : oracle) (pfh : option pidfh) (w : world) :
  exists t,
    trace (snd (main_daemonize o pfh w)) = trace w ++ t /\
    forallb (is_daemonize_event (WITH_PIDFILE o)) t = true /\
    (runmode (bb_status w) <> BB_RUN_DAEMON -> calls is_detach_call t = 0%nat) /\
    (calls is_fork t <= 1)%nat /\
    calls is_service_call t = 0%nat.
Proof.
  destruct (main_daemonize o pfh w) as [r w'] eqn:Hm.
  unfold main_daemonize in Hm.
  unfold bind at 1 in Hm. unfold bb_log at 1, emit at 1, modify at 1 in Hm.
  unfold bind at 1 in Hm. unfold get at 1 in Hm. cbv beta iota in Hm.
  change (bb_status (record (E_bb_log LOG_NOTICE Msg_started) w))
    with (bb_status w) in Hm.
  set (w0 := record (E_bb_log LOG_NOTICE Msg_started) w) in Hm.
  assert (trace w0 = trace w ++ [E_bb_log LOG_NOTICE Msg_started]) as H0
    by reflexivity.
  destruct (runmode (bb_status w)) eqn:Hrm; cbn [bb_run_mode_eqb] in Hm.
  1, 3: injection Hm as <- <-; exists [E_bb_log LOG_NOTICE Msg_started];
    cbn [snd]; (splits; [exact H0|reflexivity|reflexivity|unfold calls; cbn; lia|reflexivity]).
  clearbody w0.
  destruct (daemonize_calls o w0) as
    [t [rest [Ht [_ [_ [_ [_ [_ [Hp [Hf Hs]]]]]]]]]].
  pose proof (forallb_impl _ _ _ (daemonize_event_any_build (WITH_PIDFILE o)) Hp)
    as Hp'.
  destruct (daemonize o w0) as [rd w1] eqn:Hd. cbn [snd] in Ht.
  destruct rd as [rc|c|].
  - rewrite (bind_returns _ _ _ _ _ Hd) in Hm.
    destruct (negb (rc =? EXIT_SUCCESS)).
    + destruct (WITH_PIDFILE o); step in Hm; injection Hm as <- <-.
      * exists ([E_bb_log LOG_NOTICE Msg_started] ++ t
                ++ [E_bb_closelog; E_pidfile_remove pfh (o_pidfile_remove o)]).
        cbn [snd record with_trace trace]. rewrite Ht, H0, <- !app_assoc.
        splits; [reflexivity| |intros H; contradiction| |].
        -- rewrite !forallb_app, Hp'. reflexivity.
        -- rewrite !calls_app, Hf. unfold calls; cbn; lia.
        -- rewrite !calls_app, Hs. reflexivity.
      * exists ([E_bb_log LOG_NOTICE Msg_started] ++ t ++ [E_bb_closelog]).
        cbn [snd record with_trace trace]. rewrite Ht, H0, <- !app_assoc.
        splits; [reflexivity| |intros H; contradiction| |].
        -- rewrite !forallb_app, Hp'. reflexivity.
        -- rewrite !calls_app, Hf. unfold calls; cbn; lia.
        -- rewrite !calls_app, Hs. reflexivity.
    + cbn in Hm. injection Hm as <- <-.
      exists ([E_bb_log LOG_NOTICE Msg_started] ++ t).
      cbn [snd]. rewrite Ht, H0, <- !app_assoc.
      splits; [reflexivity| |intros H; contradiction| |].
      * rewrite !forallb_app, Hp'. reflexivity.
      * rewrite !calls_app, Hf. unfold calls; cbn; lia.
      * rewrite !calls_app, Hs. reflexivity.
  - rewrite (bind_halts _ _ _ _ _ Hd) in Hm. injection Hm as <- <-.
    exists ([E_bb_log LOG_NOTICE Msg_started] ++ t).
    cbn [snd]. rewrite Ht, H0, <- !app_assoc.
    splits; [reflexivity| |intros H; contradiction| |].
    + rewrite !forallb_app, Hp'. reflexivity.
    + rewrite !calls_app, Hf. unfold calls; cbn; lia.
    + rewrite !calls_app, Hs. reflexivity.
  - rewrite (bind_hangs _ _ _ _ Hd) in Hm. injection Hm as <- <-.
    exists ([E_bb_log LOG_NOTICE Msg_started] ++ t).
    cbn [snd]. rewrite Ht, H0, <- !app_assoc.
    splits; [reflexivity| |intros H; contradiction| |].
    + rewrite !forallb_app, Hp'. reflexivity.
    + rewrite !calls_app, Hf. unfold calls; cbn; lia.
    + rewrite !calls_app, Hs. reflexivity.
Qed.

Lemma serving_of_loop (pf on : bool) (e : event) :
  is_loop_event e = true -> is_serving_event pf on e = true.
Proof.
  destruct e; cbn; congruence.
Qed.

(** The serving stage: [pidfile_write], the service initialiser, the loop
    and, when the loop comes back, the shutdown.  It ends with EXIT_SUCCESS
    or not at all. *)
Lemma serving_stage (o : oracle) (pfh : option pidfh) (w : world) :
  exists t,
    trace (snd ((main_pidfile_write o pfh ;; main_from_service_init o pfh) w))
      = trace w ++ t /\
    forallb (is_serving_event (WITH_PIDFILE o)
               (negb (card_shutdown_state (bb_config w) =? 0))) t = true /\
    (fst ((main_pidfile_write o pfh ;; main_from_service_init o pfh) w) = Hang \/
     fst ((main_pidfile_write o pfh ;; main_from_service_init o pfh) w)
       = Halt EXIT_SUCCESS).
Proof.
  unfold main_pidfile_write.
  destruct (WITH_PIDFILE o) eqn:Hwith.
  - assert (pidfile_write pfh w = (Ret tt, record (E_pidfile_write pfh) w)) as Ew
      by reflexivity.
    rewrite !(bind_returns _ _ _ _ _ Ew).
    destruct (main_from_service_init_cases o pfh (record (E_pidfile_write pfh) w))
      as [tl [w2 [C2 [T2 [Pl [[_ Eh] | [_ Eh]]]]]]]; rewrite Eh;
      cbn [record with_trace trace bb_config] in T2, C2;
      match type of T2 with _ = _ ++ ?l ++ _ => set (ti := l) in * end;
      assert (forall on, forallb (is_serving_event true on) ti = true) as Pi
        by (intros on; reflexivity);
      pose proof (fun on => forallb_impl _ _ _ (serving_of_loop true on) Pl) as Pl';
      clearbody ti; cbn [fst snd].
    + exists ([E_pidfile_write pfh] ++ ti ++ tl).
      splits; [rewrite T2, <- !app_assoc; reflexivity| |left; reflexivity].
      rewrite !forallb_app, Pi, Pl'. reflexivity.
    + exists ([E_pidfile_write pfh] ++ ti ++ tl ++ shutdown_steps o pfh w2).
      splits; [cbn [with_status with_trace trace];
               rewrite T2, <- !app_assoc; reflexivity| |right; reflexivity].
      rewrite !forallb_app, Pi, Pl'.
      unfold shutdown_steps, final_power_call. rewrite C2, Hwith.
      destruct (card_shutdown_state (bb_config w) =? 0),
        (x_err_fd (bb_status w2) =? -1); reflexivity.
  - assert (ret tt w = (Ret tt, w)) as Ew by reflexivity.
    rewrite !(bind_returns _ _ _ _ _ Ew).
    destruct (main_from_service_init_cases o pfh w)
      as [tl [w2 [C2 [T2 [Pl [[_ Eh] | [_ Eh]]]]]]]; rewrite Eh;
      match type of T2 with _ = _ ++ ?l ++ _ => set (ti := l) in * end;
      assert (forall on, forallb (is_serving_event false on) ti = true) as Pi
        by (intros on; reflexivity);
      pose proof (fun on => forallb_impl _ _ _ (serving_of_loop false on) Pl) as Pl';
      clearbody ti; cbn [fst snd].
    + exists (ti ++ tl).
      splits; [exact T2| |left; reflexivity].
      rewrite !forallb_app, Pi, Pl'. reflexivity.
    + exists (ti ++ tl ++ shutdown_steps o pfh w2).
      splits; [cbn [with_status with_trace trace];
               rewrite T2, <- !app_assoc; reflexivity| |right; reflexivity].
      rewrite !forallb_app, Pi, Pl'.
      unfold shutdown_steps, final_power_call. rewrite C2, Hwith.
      destruct (card_shutdown_state (bb_config w) =? 0),
        (x_err_fd (bb_status w2) =? -1); reflexivity.
Qed.

Lemma main_chgid_returns (o : oracle) (pfh : option pidfh) (w w' : world) (u : unit) :
  main_chgid o pfh w = (Ret u, w') ->
  bb_status w' = bb_status w /\ bb_config w' = bb_config w /\
  (gid_name_set (gid_name (bb_config w)) = false \/
   fst (bb_chgid o w) = Ret EXIT_SUCCESS).
Proof.
  intros H.
  destruct (main_chgid_cases o pfh w) as
    [[x [E [Hg [S [C _]]]]] | [x [y [E _]]]]; rewrite E in H; [|discriminate].
  assert (x = w') by congruence. subst x. splits; assumption.
Qed.

Lemma main_daemonize_returns (o : oracle) (pfh : option pidfh) (w w' : world)
    (u : unit) :
  main_daemonize o pfh w = (Ret u, w') ->
  bb_status w' = bb_status w /\ bb_config w' = bb_config w /\
  (runmode (bb_status w) <> BB_RUN_DAEMON \/ ~ daemonize_fails o).
Proof.
  intros H.
  destruct (main_daemonize_cases o pfh w) as
    [[x [E [Hd [S [C _]]]]] | [[_ [_ [x [y [E _]]]]] | [_ [_ E]]]];
    rewrite E in H; try discriminate.
  assert (x = w') by congruence. subst x. splits; [assumption|assumption|].
  destruct Hd as [Hd|Hd]; [left; assumption|right].
  unfold daemonize_fails. lia.
Qed.

(** Every run of [main], whatever its outcome, is the opening calls followed
    by five parts, one per stage; a stage that is not reached contributes
    nothing. *)
Lemma main_stages (o : oracle) (w : world) :
  exists t1 t2 t3 t4 t5,
    trace (snd (main o w))
      = trace w ++ opening_calls ++ t1 ++ t2 ++ t3 ++ t4 ++ t5 /\
    staged o w t1 t2 t3 t4 t5.
Proof.
  unfold main.
  destruct (main_discovery_stage o w) as [t1 [T1 P1]].
  destruct (main_discovery o w) as [r1 w1] eqn:E1. cbn [snd] in T1.
  assert (forall r : outcome unit, exists t2 t3 t4 t5 : list event,
            trace (snd (r, w1)) = trace w ++ opening_calls ++ t1 ++ t2 ++ t3 ++ t4 ++ t5 /\
            staged o w t1 t2 t3 t4 t5) as Hstop1.
  { intros r. exists [], [], [], []. cbn [snd]. rewrite !app_nil_r.
    split; [exact T1|]. unfold staged. splits; auto; reflexivity. }
  destruct r1 as [[]|c|];
    [|rewrite (bind_halts _ _ _ _ _ E1); exists t1; apply (Hstop1 (Halt c))
     |rewrite (bind_hangs _ _ _ _ E1); exists t1; apply (Hstop1 (@Hang unit))].
  clear Hstop1.
  destruct (main_discovery_returns _ _ _ _ E1) as [_ [_ [_ [S1 [C1 _]]]]].
  rewrite (bind_returns _ _ _ _ _ E1).
  destruct (main_pidfile_open_stage o w1) as [t2 [T2 [P2 [N2 _]]]].
  rewrite C1 in N2.
  destruct (main_pidfile_open o w1) as [r2 w2] eqn:E2. cbn [snd] in T2.
  assert (forall r : outcome unit, exists t3 t4 t5 : list event,
            trace (snd (r, w2)) = trace w ++ opening_calls ++ t1 ++ t2 ++ t3 ++ t4 ++ t5 /\
            staged o w t1 t2 t3 t4 t5) as Hstop2.
  { intros r. exists [], [], []. cbn [snd]. rewrite !app_nil_r.
    split; [rewrite T2, T1, <- !app_assoc; reflexivity|].
    unfold staged. splits; auto; reflexivity. }
  destruct r2 as [pfh|c|];
    [|rewrite (bind_halts _ _ _ _ _ E2); exists t1, t2; apply (Hstop2 (Halt c))
     |rewrite (bind_hangs _ _ _ _ E2); exists t1, t2; apply (Hstop2 (@Hang unit))].
  clear Hstop2.
  destruct (main_pidfile_open_returns _ _ _ _ E2) as [S2 [[C2 _] _]].
  rewrite (bind_returns _ _ _ _ _ E2). unfold main_from_chgid.
  destruct (main_chgid_stage o pfh w2) as [t3 [T3 [P3 [N3 _]]]].
  rewrite C2, C1 in N3.
  destruct (main_chgid o pfh w2) as [r3 w3] eqn:E3. cbn [snd] in T3.
  assert (forall r : outcome unit, exists t4 t5 : list event,
            trace (snd (r, w3)) = trace w ++ opening_calls ++ t1 ++ t2 ++ t3 ++ t4 ++ t5 /\
            staged o w t1 t2 t3 t4 t5) as Hstop3.
  { intros r. exists [], []. cbn [snd]. rewrite !app_nil_r.
    split; [rewrite T3, T2, T1, <- !app_assoc; reflexivity|].
    unfold staged. splits; auto; reflexivity. }
  destruct r3 as [[]|c|];
    [|rewrite (bind_halts _ _ _ _ _ E3); exists t1, t2, t3; apply (Hstop3 (Halt c))
     |rewrite (bind_hangs _ _ _ _ E3); exists t1, t2, t3; apply (Hstop3 (@Hang unit))].
  clear Hstop3.
  destruct (main_chgid_returns _ _ _ _ _ E3) as [S3 [C3 _]].
  rewrite (bind_returns _ _ _ _ _ E3). unfold main_from_daemonize.
  destruct (main_daemonize_stage o pfh w3) as [t4 [T4 [P4 [N4 [F4 _]]]]].
  rewrite S3, S2, S1 in N4.
  destruct (main_daemonize o pfh w3) as [r4 w4] eqn:E4. cbn [snd] in T4.
  assert (forall r : outcome unit, exists t5 : list event,
            trace (snd (r, w4)) = trace w ++ opening_calls ++ t1 ++ t2 ++ t3 ++ t4 ++ t5 /\
            staged o w t1 t2 t3 t4 t5) as Hstop4.
  { intros r. exists []. cbn [snd]. rewrite !app_nil_r.
    split; [rewrite T4, T3, T2, T1, <- !app_assoc; reflexivity|].
    unfold staged. splits; auto; reflexivity. }
  destruct r4 as [[]|c|];
    [|rewrite (bind_halts _ _ _ _ _ E4); exists t1, t2, t3, t4; apply (Hstop4 (Halt c))
     |rewrite (bind_hangs _ _ _ _ E4); exists t1, t2, t3, t4;
      apply (Hstop4 (@Hang unit))].
  clear Hstop4.
  destruct (main_daemonize_returns _ _ _ _ _ E4) as [S4 [C4 _]].
  rewrite (bind_returns _ _ _ _ _ E4).
  destruct (serving_stage o pfh w4) as [t5 [T5 [P5 _]]].
  rewrite C4, C3, C2, C1 in P5.
  exists t1, t2, t3, t4, t5.
  split; [rewrite T5, T4, T3, T2, T1, <- !app_assoc; reflexivity|].
  unfold staged. splits; assumption.
Qed.

Lemma calls_outside (p q : event -> bool) (t : list event) :
  (forall e, p e = true -> q e = false) ->
  forallb p t = true -> calls q t = 0%nat.
Proof.
  intros Hpq Hp. apply calls_none. rewrite forallb_forall in *.
  intros e He. rewrite (Hpq e (Hp e He)). reflexivity.
Qed.

(** Proves [forall e, class e = true -> call e = false] for two event
    classes. *)
Ltac disjoint_classes :=
  let e := fresh "e" in
  intros e; destruct e; cbn; try congruence;
  repeat match goal with
  | |- context [match ?x with _ => _ end] => destruct x; cbn; try congruence
  end.

(** Rewrites [calls q t] to 0 from [P : forallb p t = true] when no event of
    class [p] is a [q]. *)
Ltac vanish q P :=
  match type of P with
  | forallb ?p ?t = true =>
      let H := fresh in
      assert (H : calls q t = 0%nat)
        by (apply (calls_outside p q t); [disjoint_classes|exact P]);
      rewrite H; clear H
  end.

(** *** Every run *)

(** X9.  Whatever the machine answers, every run of [main] starts with the
    same eleven calls: early configuration, log options, [bb_init_log], the
    five signal handlers (HUP, TERM, INT, QUIT, PIPE), [init_config], the
    pre-configuration options, and only then the first bus scan. *)
Theorem every_run_opens_alike (o : oracle) (st : bb_status_t)
    (cfg : bb_config_t) (gid mask : Z) :
  exists t, trace (snd (main o (boot st cfg gid mask))) = opening_calls ++ t.
Proof.
  destruct (main_stages o (boot st cfg gid mask)) as [t1 [t2 [t3 [t4 [t5 [T _]]]]]].
  exists (t1 ++ t2 ++ t3 ++ t4 ++ t5). exact T.
Qed.

(** X10.  A daemon that is not in daemon mode never detaches: in no run
    does it call [fork], [setsid], [chdir], [open] or [dup2].  In daemon
    mode it forks at most once. *)
Theorem foreground_never_detaches (o : oracle) (st : bb_status_t)
    (cfg : bb_config_t) (gid mask : Z) :
  (runmode st <> BB_RUN_DAEMON ->
   calls is_detach_call (trace (snd (main o (boot st cfg gid mask)))) = 0%nat) /\
  (calls is_fork (trace (snd (main o (boot st cfg gid mask)))) <= 1)%nat.
Proof.
  destruct (main_stages o (boot st cfg gid mask)) as
    [t1 [t2 [t3 [t4 [t5 [T [P1 [P2 [P3 [P4 [P5 [_ [_ [N4 F4]]]]]]]]]]]]]].
  rewrite T. cbn [boot trace app]. rewrite !calls_app.
  split.
  - intros Hfg. rewrite (N4 Hfg).
    vanish is_detach_call P1. vanish is_detach_call P2.
    vanish is_detach_call P3. vanish is_detach_call P5. reflexivity.
  - vanish is_fork P1. vanish is_fork P2. vanish is_fork P3. vanish is_fork P5.
    change (calls is_fork opening_calls) with 0%nat. lia.
Qed.

Lemma foreground_never_detaches_witness :
  calls is_detach_call
    (trace (snd (main sample_oracle
                   (boot (mk_status BB_RUN_SERVER (-1) (-1)) sample_config 0 18))))
  = 0%nat.
Proof.
  apply (proj1 (foreground_never_detaches sample_oracle
                  (mk_status BB_RUN_SERVER (-1) (-1)) sample_config 0 18)).
  discriminate.
Defined.

(** X11.  Without a configured group (the name NULL or empty) no run calls
    [getgrnam], [setgid] or [umask]: the group and the mask of the process
    are left to whoever started it. *)
Theorem no_group_no_group_calls (o : oracle) (st : bb_status_t)
    (cfg : bb_config_t) (gid mask : Z) :
  gid_name_set (gid_name cfg) = false ->
  calls is_group_call (trace (snd (main o (boot st cfg gid mask)))) = 0%nat.
Proof.
  intros Hno.
  destruct (main_stages o (boot st cfg gid mask)) as
    [t1 [t2 [t3 [t4 [t5 [T [P1 [P2 [P3 [P4 [P5 [_ [N3 _]]]]]]]]]]]]].
  rewrite T. cbn [boot trace app]. rewrite !calls_app.
  rewrite (N3 Hno).
  vanish is_group_call P1. vanish is_group_call P2.
  vanish is_group_call P4. vanish is_group_call P5. reflexivity.
Qed.

Lemma no_group_no_group_calls_witness :
  calls is_group_call
    (trace (snd (main sample_oracle
                   (boot sample_status
                      (mk_config None EmptyString "/var/run/bumblebee.socket" POWER_OFF)
                      0 18))))
  = 0%nat.
Proof.
  apply (no_group_no_group_calls sample_oracle sample_status
           (mk_config None EmptyString "/var/run/bumblebee.socket" POWER_OFF) 0 18).
  reflexivity.
Defined.

(** X12.  A build without pidfile support never calls [pidfile_open],
    [pidfile_write] or [pidfile_remove]; a pidfile build without a
    configured path never calls [pidfile_open]. *)
Theorem pidfile_calls_need_support (o : oracle) (st : bb_status_t)
    (cfg : bb_config_t) (gid mask : Z) :
  (WITH_PIDFILE o = false ->
   calls is_pidfile_call (trace (snd (main o (boot st cfg gid mask)))) = 0%nat) /\
  (first_char_set (pid_file cfg) = false ->
   calls is_pidfile_open (trace (snd (main o (boot st cfg gid mask)))) = 0%nat).
Proof.
  destruct (main_stages o (boot st cfg gid mask)) as
    [t1 [t2 [t3 [t4 [t5 [T [P1 [P2 [P3 [P4 [P5 [N2 _]]]]]]]]]]]].
  rewrite T. cbn [boot trace app bb_config] in *. rewrite !calls_app.
  split.
  - intros Hno. rewrite (N2 (or_introl Hno)). rewrite Hno in P3, P4, P5.
    vanish is_pidfile_call P1. vanish is_pidfile_call P3.
    vanish is_pidfile_call P4. vanish is_pidfile_call P5. reflexivity.
  - intros Hno. rewrite (N2 (or_intror Hno)).
    vanish is_pidfile_open P1. vanish is_pidfile_open P3.
    vanish is_pidfile_open P4. vanish is_pidfile_open P5. reflexivity.
Qed.

Lemma pidfile_calls_need_support_witness :
  calls is_pidfile_open
    (trace (snd (main sample_oracle
                   (boot sample_status
                      (mk_config None EmptyString "/var/run/bumblebee.socket" POWER_OFF)
                      0 18))))
  = 0%nat.
Proof.
  apply (proj2 (pidfile_calls_need_support sample_oracle sample_status
                  (mk_config None EmptyString "/var/run/bumblebee.socket" POWER_OFF) 0 18)).
  reflexivity.
Defined.

(** X13.  With the shutdown policy POWER_OFF, [main] itself never calls
    [start_secondary], in any run. *)
Theorem power_off_policy_never_powers_on (o : oracle) (st : bb_status_t)
    (cfg : bb_config_t) (gid mask : Z) :
  card_shutdown_state cfg = POWER_OFF ->
  calls is_start_secondary (trace (snd (main o (boot st cfg gid mask)))) = 0%nat.
Proof.
  intros Hoff.
  destruct (main_stages o (boot st cfg gid mask)) as
    [t1 [t2 [t3 [t4 [t5 [T [P1 [P2 [P3 [P4 [P5 _]]]]]]]]]]].
  rewrite T. cbn [boot trace app bb_config] in *. rewrite !calls_app.
  rewrite Hoff in P5. cbn [POWER_OFF Z.eqb negb] in P5.
  vanish is_start_secondary P1. vanish is_start_secondary P2.
  vanish is_start_secondary P3. vanish is_start_secondary P4.
  vanish is_start_secondary P5. reflexivity.
Qed.

Lemma power_off_policy_never_powers_on_witness :
  calls is_start_secondary (trace (snd (main sample_oracle sample_boot))) = 0%nat.
Proof.
  apply (power_off_policy_never_powers_on sample_oracle sample_status
           sample_config 0 18).
  reflexivity.
Defined.

(** *** The exit status *)

(** From the group stage on, in any build: the process ends with
    EXIT_FAILURE exactly on the two fatal errors, and then without having
    served; otherwise it ends with EXIT_SUCCESS or not at all. *)
Lemma main_from_chgid_outcome (o : oracle) (pfh : option pidfh) (w : world) :
  (fst (main_from_chgid o pfh w) = Halt EXIT_FAILURE <->
   chgid_fatal o w \/ daemonize_fatal o w) /\
  (fst (main_from_chgid o pfh w) = Halt EXIT_FAILURE \/
   fst (main_from_chgid o pfh w) = Halt EXIT_SUCCESS \/
   fst (main_from_chgid o pfh w) = Hang) /\
  (fst (main_from_chgid o pfh w) = Halt EXIT_FAILURE ->
   exists t, trace (snd (main_from_chgid o pfh w)) = trace w ++ t /\
             calls is_service_call t = 0%nat).
Proof.
  unfold main_from_chgid.
  destruct (main_chgid_stage o pfh w) as [t3 [T3 [_ [_ Z3]]]].
  destruct (main_chgid_cases o pfh w) as
    [[wa [Ec [Hgid [Sa _]]]] | [w1 [w' [Ec [Hset [Hc _]]]]]].
  2: { rewrite !(bind_halts _ _ _ _ _ Ec). rewrite Ec in T3. cbn [fst snd] in *.
       splits.
       - split; [intros _|reflexivity]. left. split; [assumption|].
         rewrite Hc. reflexivity.
       - left. reflexivity.
       - intros _. exists t3. split; assumption. }
  rewrite !(bind_returns _ _ _ _ _ Ec). rewrite Ec in T3. cbn [snd] in T3.
  assert (~ chgid_fatal o w) as Hnc.
  { intros [Hs Hf]. destruct Hgid as [Hg|Hg]; [congruence|].
    rewrite Hg in Hf. inversion Hf. }
  unfold main_from_daemonize.
  destruct (main_daemonize_stage o pfh wa) as [t4 [T4 [_ [_ [_ Z4]]]]].
  destruct (main_daemonize_cases o pfh wa) as
    [[wb [Ed [Hdz _]]] | [[Hmode [Hfail [w1 [w' [Ed _]]]]] | [Hmode [Hpos Ed]]]].
  - rewrite !(bind_returns _ _ _ _ _ Ed).
    destruct (serving_stage o pfh wb) as [t5 [_ [_ Hout]]].
    assert (~ (chgid_fatal o w \/ daemonize_fatal o w)) as Hnf.
    { intros [H|[_ [Hm Hf]]]; [contradiction|].
      rewrite <- Sa in Hm. unfold daemonize_fails in Hf.
      destruct Hdz as [Hdz|Hdz]; [contradiction|lia]. }
    splits.
    + split; [|intros H; contradiction].
      intros H. destruct Hout as [Ho|Ho]; rewrite Ho in H; inversion H.
    + destruct Hout as [Ho|Ho]; rewrite Ho; auto.
    + intros H. destruct Hout as [Ho|Ho]; rewrite Ho in H; inversion H.
  - rewrite !(bind_halts _ _ _ _ _ Ed). rewrite Ed in T4. cbn [fst snd] in *.
    splits.
    + split; [intros _|reflexivity]. right. unfold daemonize_fatal.
      splits; [assumption|rewrite <- Sa; assumption|assumption].
    + left. reflexivity.
    + intros _. exists (t3 ++ t4).
      split; [rewrite T4, T3, <- app_assoc; reflexivity|].
      rewrite calls_app, Z3, Z4. reflexivity.
  - rewrite !(bind_halts _ _ _ _ _ Ed). cbn [fst snd].
    splits.
    + split; [intros H; inversion H|].
      intros [H|[_ [_ Hf]]]; [contradiction|].
      unfold daemonize_fails in Hf. lia.
    + right; left. reflexivity.
    + intros H. inversion H.
Qed.

(** X14.  [main] ends the process with EXIT_FAILURE exactly when one of the
    six fatal start-up conditions holds: no discrete card, no integrated
    card, a rejected configuration, a pidfile that cannot be opened, a group
    change that fails, or a daemonization that fails.  It has then offered
    no service: no bus service, no socket, no power call, no
    [pidfile_write], no loop.  In every other run it ends with EXIT_SUCCESS
    or does not end. *)
Theorem exit_failure_iff_fatal (o : oracle) (st : bb_status_t)
    (cfg : bb_config_t) (gid mask : Z) :
  let r := main o (boot st cfg gid mask) in
  (fst r = Halt EXIT_FAILURE <-> fatal_startup o st cfg) /\
  (fst r = Halt EXIT_FAILURE \/ fst r = Halt EXIT_SUCCESS \/ fst r = Hang) /\
  (fatal_startup o st cfg -> calls is_service_call (trace (snd r)) = 0%nat).
Proof.
  cbv zeta. set (w := boot st cfg gid mask).
  assert (fst (main o w) = Halt EXIT_FAILURE ->
          calls is_service_call (trace (snd (main o w))) = 0%nat) as Hquiet.
  { unfold main.
    destruct (main_discovery_stage o w) as [t1 [T1 P1]].
    assert (calls is_service_call (trace w ++ opening_calls ++ t1) = 0%nat) as Z1.
    { rewrite !calls_app. vanish is_service_call P1. reflexivity. }
    destruct (main_discovery o w) as [r1 w1] eqn:E1. cbn [snd] in T1.
    destruct r1 as [[]|c|];
      [|rewrite (bind_halts _ _ _ _ _ E1); intros _; cbn [snd]; rewrite T1; exact Z1
       |rewrite (bind_hangs _ _ _ _ E1); intros _; cbn [snd]; rewrite T1; exact Z1].
    rewrite (bind_returns _ _ _ _ _ E1).
    destruct (main_pidfile_open_stage o w1) as [t2 [T2 [_ [_ [Z2 _]]]]].
    destruct (main_pidfile_open o w1) as [r2 w2] eqn:E2. cbn [snd] in T2.
    assert (calls is_service_call (trace w2) = 0%nat) as Z12.
    { rewrite T2, T1, calls_app, Z1, Z2. reflexivity. }
    destruct r2 as [pfh|c|];
      [|rewrite (bind_halts _ _ _ _ _ E2); intros _; exact Z12
       |rewrite (bind_hangs _ _ _ _ E2); intros _; exact Z12].
    rewrite (bind_returns _ _ _ _ _ E2).
    intros Hf.
    destruct (proj2 (proj2 (main_from_chgid_outcome o pfh w2)) Hf) as [t [Ht Zt]].
    rewrite Ht, calls_app, Z12, Zt. reflexivity. }
  assert ((fst (main o w) = Halt EXIT_FAILURE <-> fatal_startup o st cfg) /\
          (fst (main o w) = Halt EXIT_FAILURE \/
           fst (main o w) = Halt EXIT_SUCCESS \/ fst (main o w) = Hang)) as [Hiff Hout].
  { unfold main, fatal_startup.
    destruct (main_discovery_cases o w) as
      [[w1 [E1 [Hn [Hi [Hv [S1 [C1 _]]]]]]] | [w1 [E1 [Hwhy _]]]].
    2: { rewrite !(bind_halts _ _ _ _ _ E1). cbn [fst]. split; [|auto].
         split; [intros _|reflexivity]. tauto. }
    rewrite !(bind_returns _ _ _ _ _ E1).
    change (bb_config w) with cfg in C1. change (bb_status w) with st in S1.
    destruct (main_pidfile_open_stage o w1) as [_ [_ [_ [_ [_ O2]]]]].
    rewrite C1 in O2.
    destruct (main_pidfile_open o w1) as [r2 w2] eqn:E2. cbn [fst] in O2.
    destruct O2 as [[Hr Hf] | [[pfh Hr] Hnf]]; subst r2.
    { rewrite !(bind_halts _ _ _ _ _ E2). cbn [fst]. split; [|auto].
      split; [intros _|reflexivity]. tauto. }
    rewrite !(bind_returns _ _ _ _ _ E2).
    destruct (main_pidfile_open_returns _ _ _ _ E2) as [S2 [[C2 _] _]].
    destruct (main_from_chgid_outcome o pfh w2) as [Hiff [Hout _]].
    split; [|exact Hout].
    rewrite Hiff. unfold chgid_fatal, daemonize_fatal, chgid_fails.
    rewrite C2, C1, S2, S1.
    pose proof (proj2 (bb_chgid_stage o w2)) as Hc. rewrite C2, C1 in Hc.
    pose proof (bb_chgid_answers o w2) as Ha.
    split.
    - intros [[Hs Hf] | [_ [Hm Hd]]].
      + do 4 right. left. split; [assumption|]. apply Hc. assumption.
      + do 5 right. split; assumption.
    - intros [H|[H|[H|[H|[[Hs Hf]|[Hm Hd]]]]]]; try contradiction.
      + left. split; [assumption|]. apply Hc. assumption.
      + destruct (gid_name_set (gid_name cfg)) eqn:Hset.
        * destruct Ha as [Ha|Ha].
          -- right. splits; [right; assumption|assumption|assumption].
          -- left. split; [reflexivity|assumption].
        * right. splits; [left; reflexivity|assumption|assumption]. }
  splits; [exact Hiff|exact Hout|].
  intros Hf. apply Hquiet. apply Hiff. exact Hf.
Qed.

Lemma exit_failure_iff_fatal_witness :
  fst (main oracle_no_card sample_boot) = Halt EXIT_FAILURE /\
  calls is_service_call (trace (snd (main oracle_no_card sample_boot))) = 0%nat.
Proof.
  destruct (exit_failure_iff_fatal oracle_no_card sample_status sample_config 0 18)
    as [Hiff [_ Hq]].
  assert (fatal_startup oracle_no_card sample_status sample_config) as Hf
    by (left; reflexivity).
  split; [apply Hiff; exact Hf|apply Hq; exact Hf].
Defined.

(** *** What is set up is taken down *)

(** Events that are in two classes at once. *)
Lemma calls_outside_both (p p' q : event -> bool) (t : list event) :
  (forall e, p e = true -> p' e = true -> q e = false) ->
  forallb p t = true -> forallb p' t = true -> calls q t = 0%nat.
Proof.
  intros Hpq Hp Hp'. apply calls_none. rewrite forallb_forall in *.
  intros e He. rewrite (Hpq e (Hp e He) (Hp' e He)). reflexivity.
Qed.

(** Of the pidfile calls, the set-up makes [pidfile_open] at most; the
    group stage and the detaching stage make no [pidfile_open]. *)
Lemma setup_holds_no_lock_past (e : event) :
  is_setup_event e = true -> negb (is_pidfile_open e) = true ->
  is_pidfile_call e = false.
Proof.
  destruct e; cbn; congruence.
Qed.

Lemma chgid_is_not_pidfile_open (pf : bool) (e : event) :
  is_chgid_event pf e = true -> negb (is_pidfile_open e) = true.
Proof.
  destruct e; cbn; congruence.
Qed.

Lemma daemonize_is_not_pidfile_open (pf : bool) (e : event) :
  is_daemonize_event pf e = true -> negb (is_pidfile_open e) = true.
Proof.
  destruct e; cbn; congruence.
Qed.

(** Past [daemonize] in a pidfile build with a pidfile path: the start-up
    has called [pidfile_open] once, on the configured path, and holds the
    handle it answered. *)
Lemma main_until_daemonized_locked (o : oracle) (w w1 : world) (pfh : option pidfh) :
  WITH_PIDFILE o = true ->
  first_char_set (pid_file (bb_config w)) = true ->
  main_until_daemonized o w = (Ret pfh, w1) ->
  exists h a b,
    o_pidfile_open o = pidfile_opened h /\ pfh = Some h /\
    trace w1 = trace w ++ a
                 ++ E_pidfile_open (pid_file (bb_config w)) mode_0644 :: b /\
    calls is_pidfile_call a = 0%nat /\
    calls is_pidfile_call b = 0%nat.
Proof.
  unfold main_until_daemonized, main_until_daemonize, main_until_locked.
  intros Hw Hp H.
  apply bind_ret_inv in H. destruct H as [p [w4 [H H5]]].
  apply bind_ret_inv in H5. destruct H5 as [u5 [w5 [Hdz H5]]].
  injection H5 as -> ->.
  apply bind_ret_inv in H. destruct H as [p' [w3 [H H4]]].
  apply bind_ret_inv in H4. destruct H4 as [u4 [w4' [Hcg H4]]].
  injection H4 as -> ->.
  apply bind_ret_inv in H. destruct H as [u2 [w2 [Hdisc Hopen]]].
  destruct (main_discovery_returns _ _ _ _ Hdisc) as [_ [_ [_ [_ [C2 _]]]]].
  destruct (main_discovery_stage o w) as [t1 [T1 P1]].
  rewrite Hdisc in T1. cbn [snd] in T1.
  destruct (main_chgid_stage o pfh w3) as [t3 [T3 [P3 _]]].
  rewrite Hcg in T3. cbn [snd] in T3.
  destruct (main_daemonize_stage o pfh w4) as [t4 [T4 [P4 _]]].
  rewrite Hdz in T4. cbn [snd] in T4.
  destruct (main_chgid_cases o pfh w3) as [[x [E [_ [_ G3]]]] | [x [y [E _]]]];
    rewrite E in Hcg; [|discriminate].
  assert (x = w4) by congruence. subst x. clear E.
  destruct G3 as [_ [t3' [T3' S3]]].
  rewrite T3 in T3'. apply app_inv_head in T3'. subst t3'.
  destruct (main_daemonize_cases o pfh w4) as
    [[z [E [_ [_ G4]]]] | [[_ [_ [z [y [E _]]]]] | [_ [_ E]]]];
    rewrite E in Hdz; try discriminate.
  assert (z = w1) by congruence. subst z. clear E.
  destruct G4 as [_ [t4' [T4' S4]]].
  rewrite T4 in T4'. apply app_inv_head in T4'. subst t4'.
  unfold main_pidfile_open, pidfile_open in Hopen.
  rewrite <- C2 in Hp. rewrite Hw in Hopen. step in Hopen.
  rewrite Hp in Hopen. step in Hopen.
  destruct (o_pidfile_open o) as [h|err pid]; step in Hopen.
  - injection Hopen as <- <-. exists h, (opening_calls ++ t1), (t3 ++ t4).
    splits.
    + reflexivity.
    + reflexivity.
    + rewrite T4, T3. cbn [record with_trace trace]. rewrite T1.
      rewrite <- !app_assoc, C2. reflexivity.
    + rewrite calls_app. vanish is_pidfile_call P1. reflexivity.
    + rewrite calls_app.
      assert (calls is_pidfile_call t3 = 0%nat) as ->.
      { apply (calls_outside_both _ _ _ _ setup_holds_no_lock_past S3).
        apply (forallb_impl _ _ _ (chgid_is_not_pidfile_open _) P3). }
      assert (calls is_pidfile_call t4 = 0%nat) as ->.
      { apply (calls_outside_both _ _ _ _ setup_holds_no_lock_past S4).
        apply (forallb_impl _ _ _ (daemonize_is_not_pidfile_open _) P4). }
      reflexivity.
  - destruct (err =? EEXIST); step in Hopen; discriminate.
Qed.

(** X15.  In a run that shuts down, the socket is created once and removed
    once, at the same path: [socketServer] and, later, [unlink] are each
    called exactly once, both with the configured socket path. *)
Theorem socket_path_created_then_removed (o : oracle) (st : bb_status_t)
    (cfg : bb_config_t) (gid mask : Z) (pfh : option pidfh) (w1 : world) :
  main_until_loop_returns o (boot st cfg gid mask) = (Ret pfh, w1) ->
  let t := trace (snd (main o (boot st cfg gid mask))) in
  calls is_socketServer t = 1%nat /\
  calls is_unlink t = 1%nat /\
  exists a b c,
    t = a ++ E_socketServer (socket_path cfg) SOCK_NOBLOCK
          :: b ++ E_unlink (socket_path cfg) (o_unlink o) :: c.
Proof.
  intros H. cbv zeta.
  rewrite (main_past_loop _ _ _ _ H), main_shutdown_runs.
  destruct (main_until_loop_returns_inv _ _ _ _ H) as [w0 [tl [Hd [C [Pl [T _]]]]]].
  change (bb_config (boot st cfg gid mask)) with cfg in C, T.
  destruct (main_until_daemonized_returns _ _ _ _ Hd) as [_ [[_ [t0 [T0 P0]]] _]].
  cbn [boot trace app] in T0.
  cbn [snd with_status with_trace trace]. rewrite T, T0.
  unfold shutdown_steps. rewrite C.
  set (pw := if WITH_PIDFILE o then [E_pidfile_write pfh] else []).
  set (pr := if WITH_PIDFILE o
             then [E_pidfile_remove pfh (o_pidfile_remove o)] else []).
  set (cl := if x_err_fd (bb_status w1) =? -1 then []
             else [E_close (x_err_fd (bb_status w1)) (o_close o)]).
  assert (forall q, (forall e, is_pidfile_call e = true -> q e = false) ->
                    (forall e, is_loop_event e = true -> q e = false) ->
                    (forall e, is_setup_event e = true -> q e = false) ->
                    (forall fd rc, q (E_close fd rc) = false) ->
                    calls q t0 = 0%nat /\ calls q pw = 0%nat /\
                    calls q tl = 0%nat /\ calls q pr = 0%nat /\
                    calls q cl = 0%nat) as Hz.
  { intros q Hq1 Hq2 Hq3 Hq4. splits.
    - exact (calls_outside _ _ _ Hq3 P0).
    - subst pw. destruct (WITH_PIDFILE o); [|reflexivity].
      unfold calls; cbn. rewrite Hq1; reflexivity.
    - exact (calls_outside _ _ _ Hq2 Pl).
    - subst pr. destruct (WITH_PIDFILE o); [|reflexivity].
      unfold calls; cbn. rewrite Hq1; reflexivity.
    - subst cl. destruct (x_err_fd (bb_status w1) =? -1); [reflexivity|].
      unfold calls; cbn. rewrite Hq4; reflexivity. }
  splits.
  - destruct (Hz is_socketServer) as [Z0 [Zw [Zl [Zr Zc]]]];
      try disjoint_classes; try reflexivity.
    rewrite !calls_app, Z0, Zw, Zl, Zr, Zc. unfold final_power_call.
    destruct (card_shutdown_state cfg =? 0); reflexivity.
  - destruct (Hz is_unlink) as [Z0 [Zw [Zl [Zr Zc]]]];
      try disjoint_classes; try reflexivity.
    rewrite !calls_app, Z0, Zw, Zl, Zr, Zc. unfold final_power_call.
    destruct (card_shutdown_state cfg =? 0); reflexivity.
  - exists (t0 ++ pw ++ [E_bb_dbus_init]).
    exists ([E_stop_secondary; E_bb_log LOG_INFO Msg_init_completed;
             E_g_main_loop_new; E_g_timeout_add 100; E_g_main_loop_run]
            ++ tl ++ [E_connections_fini]).
    eexists. rewrite <- !app_assoc. cbn [app]. reflexivity.
Qed.

Lemma socket_path_created_then_removed_witness :
  calls is_unlink (trace (snd (main sample_oracle sample_boot))) = 1%nat.
Proof.
  assert (main_until_loop_returns sample_oracle sample_boot
          = (Ret (Some 77), snd (main_until_loop_returns sample_oracle sample_boot)))
    as Hreach by (vm_compute; reflexivity).
  exact (proj1 (proj2 (socket_path_created_then_removed sample_oracle sample_status
                         sample_config 0 18 (Some 77) _ Hreach))).
Defined.

(** X16.  In a pidfile build with a pidfile path configured, a run that
    shuts down makes exactly three pidfile calls, in this order:
    [pidfile_open] on the configured path, [pidfile_write] and
    [pidfile_remove], the last two on the handle that [pidfile_open]
    answered. *)
Theorem pidfile_handle_round_trip (o : oracle) (st : bb_status_t)
    (cfg : bb_config_t) (gid mask : Z) (pfh : option pidfh) (w1 : world) :
  WITH_PIDFILE o = true ->
  first_char_set (pid_file cfg) = true ->
  main_until_loop_returns o (boot st cfg gid mask) = (Ret pfh, w1) ->
  exists h a b c d,
    o_pidfile_open o = pidfile_opened h /\
    trace (snd (main o (boot st cfg gid mask)))
      = a ++ E_pidfile_open (pid_file cfg) mode_0644
          :: b ++ E_pidfile_write (Some h)
          :: c ++ E_pidfile_remove (Some h) (o_pidfile_remove o) :: d /\
    calls is_pidfile_call a = 0%nat /\
    calls is_pidfile_call b = 0%nat /\
    calls is_pidfile_call c = 0%nat /\
    calls is_pidfile_call d = 0%nat.
Proof.
  intros Hw Hp H.
  rewrite (main_past_loop _ _ _ _ H), main_shutdown_runs.
  destruct (main_until_loop_returns_inv _ _ _ _ H) as [w0 [tl [Hd [C [Pl [T _]]]]]].
  change (bb_config (boot st cfg gid mask)) with cfg in C, T.
  destruct (main_until_daemonized_locked o (boot st cfg gid mask) w0 pfh Hw Hp Hd)
    as [h [a [b [Ho [-> [T0 [Za Zb]]]]]]].
  cbn [boot trace app bb_config] in T0.
  cbn [snd with_status with_trace trace]. rewrite T, T0.
  unfold shutdown_steps. rewrite C, Hw.
  set (cl := if x_err_fd (bb_status w1) =? -1 then []
             else [E_close (x_err_fd (bb_status w1)) (o_close o)]).
  exists h, a, b.
  exists ([E_bb_dbus_init; E_socketServer (socket_path cfg) SOCK_NOBLOCK;
           E_stop_secondary; E_bb_log LOG_INFO Msg_init_completed;
           E_g_main_loop_new; E_g_timeout_add 100; E_g_main_loop_run]
          ++ tl
          ++ [E_connections_fini; E_unlink (socket_path cfg) (o_unlink o);
              E_set_runmode BB_RUN_EXIT; final_power_call cfg;
              E_bb_dbus_fini; E_bb_closelog]).
  exists (E_bb_stop_all :: cl).
  splits.
  - exact Ho.
  - rewrite <- !app_assoc. cbn [app]. rewrite <- ?app_assoc. reflexivity.
  - exact Za.
  - exact Zb.
  - rewrite !calls_app. vanish is_pidfile_call Pl.
    unfold final_power_call. destruct (card_shutdown_state cfg =? 0); reflexivity.
  - subst cl. destruct (x_err_fd (bb_status w1) =? -1); reflexivity.
Qed.

Lemma pidfile_handle_round_trip_witness :
  exists h a b c d,
    o_pidfile_open sample_oracle = pidfile_opened h /\
    trace (snd (main sample_oracle sample_boot))
      = a ++ E_pidfile_open (pid_file sample_config) mode_0644
          :: b ++ E_pidfile_write (Some h)
          :: c ++ E_pidfile_remove (Some h) (o_pidfile_remove sample_oracle) :: d /\
    calls is_pidfile_call a = 0%nat /\
    calls is_pidfile_call b = 0%nat /\
    calls is_pidfile_call c = 0%nat /\
    calls is_pidfile_call d = 0%nat.
Proof.
  assert (main_until_loop_returns sample_oracle sample_boot
          = (Ret (Some 77), snd (main_until_loop_returns sample_oracle sample_boot)))
    as Hreach by (vm_compute; reflexivity).
  assert (WITH_PIDFILE sample_oracle = true) as Hw by reflexivity.
  assert (first_char_set (pid_file sample_config) = true) as Hp by reflexivity.
  exact (pidfile_handle_round_trip sample_oracle sample_status sample_config 0 18
           (Some 77) _ Hw Hp Hreach).
Defined.
